(** * trackemdown: the query resolution pipeline and its error taxonomy

    A shallow embedding of [src/trackemdown/core.py] ([COORD_REGEX],
    [fetch_geotags]), [src/trackemdown/models.py] ([GeoTagResult],
    [GeoTagResponse]), [src/trackemdown/main.py] ([get_geotag]) and
    [app.py] ([create_map], [get_geotags_async], [get_geotags]).

    - Python strings are [string]s, that is code points below 256; [\d],
      [\s] and [float]'s own whitespace are the Unicode classes cut to
      that range.
    - Python floats are IEEE binary64 values of [spec_float]; [float] of a
      string rounds the decimal to the nearest value, ties to even, and
      [.6f] prints the exact binary value rounded the same way.
    - Exceptions are values of an error type; [try]/[except] is a function
      on outcomes.
    - The effects of the resolver, the outbound HTTP GET and [print], are
      an event log threaded through the computation.
    - The external collaborators are parameters: what [client.get] does
      with a URL (it refuses the URL, fails to reach the service, or gets
      the service's answer), and [h3.latlng_to_cell] and
      [h3.cell_to_boundary], which return or raise.
    - The texts of the messages of library exceptions ([httpx], pydantic)
      are the libraries' own; short forms stand for them. No statement
      depends on them. *)

From Stdlib Require Import Bool List ZArith Lia Ascii String.
From Stdlib Require Import Floats.SpecFloat.
From Stdlib Require Import DecimalString.
Import ListNotations.

Set Warnings "-register-all".
Local Open Scope string_scope.
Local Open Scope Z_scope.

(** ** Python [str] helpers *)

Module PyStr.

Definition chars (s : string) : list ascii := list_ascii_of_string s.
Definition of_chars (l : list ascii) : string := string_of_list_ascii l.

Definition code (c : ascii) : Z := Z.of_nat (nat_of_ascii c).

(** [in_range lo hi c]: the character class [[lo-hi]]. *)
Definition in_range (lo hi c : ascii) : bool :=
  (code lo <=? code c) && (code c <=? code hi).

(** [\d] on a [str] pattern: a Unicode decimal digit; below code point
    256 these are the ASCII digits. *)
Definition is_digit (c : ascii) : bool := in_range "0" "9" c.

(** [str.isspace] and [\s] below code point 256: TAB..CR, FS..US, SPACE,
    NEL and NBSP. *)
Definition is_space (c : ascii) : bool :=
  let n := code c in
  ((9 <=? n) && (n <=? 13)) || ((28 <=? n) && (n <=? 32))
  || (n =? 133) || (n =? 160).

(** [s.replace(old, "")] for a one-character [old]. *)
Definition remove_char (old : ascii) (l : list ascii) : list ascii :=
  filter (fun c => negb (Ascii.eqb c old)) l.

(** [s.split(sep)] for a one-character [sep]: never empty, one more part
    than there are separators. *)
Fixpoint split_on (sep : ascii) (l : list ascii) : list (list ascii) :=
  match l with
  | [] => [[]]
  | c :: l' =>
      if Ascii.eqb c sep then [] :: split_on sep l'
      else match split_on sep l' with
           | [] => [[c]]
           | p :: ps => (c :: p) :: ps
           end
  end.

(** Dropping the leading and trailing characters that satisfy [sp]. *)
Fixpoint lstrip_by (sp : ascii -> bool) (l : list ascii) : list ascii :=
  match l with
  | c :: l' => if sp c then lstrip_by sp l' else l
  | [] => []
  end.

Definition strip_by (sp : ascii -> bool) (l : list ascii) : list ascii :=
  rev (lstrip_by sp (rev (lstrip_by sp l))).

End PyStr.

(** ** Regular expressions (the fragment of [re] the source uses) *)

Module Re.

Inductive regex : Type :=
| Void : regex
| Eps : regex
| Cls : (ascii -> bool) -> regex
| Cat : regex -> regex -> regex
| Alt : regex -> regex -> regex
| Star : regex -> regex.

(** [r?] *)
Definition Opt (r : regex) : regex := Alt r Eps.

(** A literal character. *)
Definition Chr (c : ascii) : regex := Cls (Ascii.eqb c).

(** [r{n}] *)
Fixpoint Times (n : nat) (r : regex) : regex :=
  match n with
  | O => Eps
  | S n' => Cat r (Times n' r)
  end.

(** [r{0,n}] *)
Fixpoint UpTo (n : nat) (r : regex) : regex :=
  match n with
  | O => Eps
  | S n' => Opt (Cat r (UpTo n' r))
  end.

(** [r{lo,hi}] *)
Definition Rep (lo hi : nat) (r : regex) : regex :=
  Cat (Times lo r) (UpTo (hi - lo) r).

(** The language of a pattern. *)
Inductive Matches : regex -> list ascii -> Prop :=
| MEps : Matches Eps []
| MCls : forall p c, p c = true -> Matches (Cls p) [c]
| MCat : forall r1 r2 s1 s2,
    Matches r1 s1 -> Matches r2 s2 -> Matches (Cat r1 r2) (s1 ++ s2)
| MAltL : forall r1 r2 s, Matches r1 s -> Matches (Alt r1 r2) s
| MAltR : forall r1 r2 s, Matches r2 s -> Matches (Alt r1 r2) s
| MStar0 : forall r, Matches (Star r) []
| MStarS : forall r c s1 s2,
    Matches r (c :: s1) -> Matches (Star r) s2 ->
    Matches (Star r) (c :: s1 ++ s2).

(** The matcher: Brzozowski derivatives. *)
Fixpoint nullable (r : regex) : bool :=
  match r with
  | Void => false
  | Eps => true
  | Cls _ => false
  | Cat r1 r2 => nullable r1 && nullable r2
  | Alt r1 r2 => nullable r1 || nullable r2
  | Star _ => true
  end.

Fixpoint deriv (c : ascii) (r : regex) : regex :=
  match r with
  | Void => Void
  | Eps => Void
  | Cls p => if p c then Eps else Void
  | Cat r1 r2 =>
      if nullable r1 then Alt (Cat (deriv c r1) r2) (deriv c r2)
      else Cat (deriv c r1) r2
  | Alt r1 r2 => Alt (deriv c r1) (deriv c r2)
  | Star r1 => Cat (deriv c r1) (Star r1)
  end.

Fixpoint fullmatch (r : regex) (s : list ascii) : bool :=
  match s with
  | [] => nullable r
  | c :: s' => fullmatch (deriv c r) s'
  end.

(** [re.compile("^" + r + "$").match(s)] as a truth value: the pattern is
    anchored at position 0, and [$] (without [re.MULTILINE]) matches at
    the end of the string or just before a newline that ends it. *)
Definition newline : ascii := ascii_of_nat 10.

Definition match_anchored (r : regex) (s : list ascii) : bool :=
  fullmatch r s
  || match rev s with
     | c :: p => Ascii.eqb c newline && fullmatch r (rev p)
     | [] => false
     end.

(** The characters a pattern can consume. *)
Fixpoint alphabet (r : regex) (c : ascii) : bool :=
  match r with
  | Void | Eps => false
  | Cls p => p c
  | Cat r1 r2 | Alt r1 r2 => alphabet r1 c || alphabet r2 c
  | Star r1 => alphabet r1 c
  end.

End Re.

(** ** [core.py]: the coordinate grammar *)

Import PyStr Re.

(** [[1-8]?[0-9]|[1-9]0] *)
Definition lat_int : regex :=
  Alt (Cat (Opt (Cls (in_range "1" "8"))) (Cls (in_range "0" "9")))
      (Cat (Cls (in_range "1" "9")) (Chr "0")).

(** [[1]?[0-7]?[0-9]|[1]?[1-8]?[0]] *)
Definition lon_int : regex :=
  Alt (Cat (Opt (Chr "1")) (Cat (Opt (Cls (in_range "0" "7"))) (Cls (in_range "0" "9"))))
      (Cat (Opt (Chr "1")) (Cat (Opt (Cls (in_range "1" "8"))) (Chr "0"))).

(** [\.{1}\d{1,15}] *)
Definition frac_part : regex :=
  Cat (Times 1 (Chr ".")) (Rep 1 15 (Cls is_digit)).

(** [-?(lat_int)\.{1}\d{1,15}] *)
Definition lat_re : regex := Cat (Opt (Chr "-")) (Cat lat_int frac_part).

(** [-?(lon_int)\.{1}\d{1,15}] *)
Definition lon_re : regex := Cat (Opt (Chr "-")) (Cat lon_int frac_part).

(** [\s*,\s*] *)
Definition comma_re : regex :=
  Cat (Star (Cls is_space)) (Cat (Chr ",") (Star (Cls is_space))).

(** [COORD_REGEX], between its [^] and [$]. *)
Definition COORD_REGEX_body : regex := Cat lat_re (Cat comma_re lon_re).

(** [bool(COORD_REGEX.match(s))] *)
Definition COORD_REGEX_match (s : string) : bool :=
  match_anchored COORD_REGEX_body (chars s).

(** ** Python [float]: IEEE binary64 *)

Module PyFloat.

Definition prec : Z := 53.
Definition emax : Z := 1024.

Definition float := spec_float.

(** The binary64 value nearest to [m * 10^e10] (ties to even), signed by
    [neg]; what the correctly rounded [strtod] of CPython returns. *)
Definition of_decimal (neg : bool) (m : Z) (e10 : Z) : float :=
  match m with
  | Zpos p =>
      if 0 <=? e10
      then binary_round prec emax neg (p * Z.to_pos (10 ^ e10))%positive 0
      else SFdiv prec emax (S754_finite neg p 0)
                           (S754_finite false (Z.to_pos (10 ^ (- e10))) 0)
  | _ => S754_zero neg
  end.

(** [float(z)] for a Python [int]; [None] is the [OverflowError]. *)
Definition of_int (z : Z) : option float :=
  match binary_normalize prec emax z 0 false with
  | S754_infinity _ => None
  | f => Some f
  end.

(** *** The grammar of [float(str)], after the surrounding whitespace is
    stripped:
<<
    floatvalue  ::= [sign] (floatnumber | infinity | nan)
    floatnumber ::= number [exponent]
    number      ::= [digitpart] "." digitpart | digitpart ["."]
    exponent    ::= ("e" | "E") [sign] digitpart
    digitpart   ::= digit (["_"] digit)*
>>
    with [inf], [infinity] and [nan] in any letter case. *)

Definition is_sign (c : ascii) : bool := Ascii.eqb c "+" || Ascii.eqb c "-".

(** A letter in either case; [lower] is the lower-case letter. *)
Definition letter (lower : ascii) (c : ascii) : bool :=
  Ascii.eqb c lower || (code c =? code lower - 32).

Fixpoint word (w : list ascii) : regex :=
  match w with
  | [] => Eps
  | c :: w' => Cat (Cls (letter c)) (word w')
  end.

Definition digitpart : regex :=
  Cat (Cls is_digit) (Star (Cat (Opt (Chr "_")) (Cls is_digit))).

Definition number : regex :=
  Alt (Cat (Opt digitpart) (Cat (Chr ".") digitpart))
      (Cat digitpart (Opt (Chr "."))).

Definition exponent : regex :=
  Cat (Cls (letter "e")) (Cat (Opt (Cls is_sign)) digitpart).

Definition floatnumber : regex := Cat number (Opt exponent).

Definition infinity : regex :=
  Alt (word (chars "infinity")) (word (chars "inf")).

Definition nan : regex := word (chars "nan").

Definition floatvalue : regex :=
  Cat (Opt (Cls is_sign)) (Alt floatnumber (Alt infinity nan)).

(** *** The value of a string of the grammar *)

Definition digit_val (c : ascii) : Z := code c - 48.

(** The number a [digitpart] denotes (underscores skipped). *)
Definition digits_val (l : list ascii) : Z :=
  fold_left (fun acc c => if is_digit c then 10 * acc + digit_val c else acc) l 0.

Definition count_digits (l : list ascii) : Z :=
  Z.of_nat (List.length (filter is_digit l)).

(** Cut a list at the first character satisfying [p]; the character
    itself is dropped. *)
Fixpoint cut_at (p : ascii -> bool) (l : list ascii)
  : list ascii * option (list ascii) :=
  match l with
  | [] => ([], None)
  | c :: l' =>
      if p c then ([], Some l')
      else let '(a, b) := cut_at p l' in (c :: a, b)
  end.

Definition split_sign (l : list ascii) : bool * list ascii :=
  match l with
  | c :: l' => if is_sign c then (Ascii.eqb c "-", l') else (false, l)
  | [] => (false, l)
  end.

Definition signed_digits_val (l : list ascii) : Z :=
  let '(neg, d) := split_sign l in
  if neg then - digits_val d else digits_val d.

(** The value of a stripped string that is in the grammar. *)
Definition value (s : list ascii) : float :=
  let '(neg, body) := split_sign s in
  if fullmatch infinity body then S754_infinity neg
  else if fullmatch nan body then S754_nan
  else
    let '(mant, ex) := cut_at (letter "e") body in
    let '(ip, fp) := cut_at (Ascii.eqb ".") mant in
    let fp := match fp with Some f => f | None => [] end in
    let e10 := match ex with Some e => signed_digits_val e | None => 0 end in
    of_decimal neg (digits_val (ip ++ fp)) (e10 - count_digits fp).

(** The whitespace [float] strips from both ends of a [str]: TAB..CR and
    SPACE, and the non-ASCII spaces NEL and NBSP, which it first turns
    into SPACE; FS..US stay as they are and are not stripped. *)
Definition is_float_space (c : ascii) : bool :=
  let n := code c in
  ((9 <=? n) && (n <=? 13)) || (n =? 32) || (n =? 133) || (n =? 160).

(** [float(s)] for a [str]; [None] is the [ValueError]. *)
Definition of_str (s : list ascii) : option float :=
  let t := strip_by is_float_space s in
  if fullmatch floatvalue t then Some (value t) else None.

(** *** [format(x, ".6f")] *)

Definition nat_str (n : Z) : list ascii :=
  chars (NilZero.string_of_uint (N.to_uint (Z.to_N n))).

Definition zero_pad (width : nat) (l : list ascii) : list ascii :=
  repeat "0"%char (width - List.length l) ++ l.

(** [round(num / den)] to the nearest integer, ties to even. *)
Definition div_half_even (num den : Z) : Z :=
  let q := num / den in
  let r := num mod den in
  match 2 * r ?= den with
  | Lt => q
  | Gt => q + 1
  | Eq => if Z.even q then q else q + 1
  end.

Definition format_6f (x : float) : list ascii :=
  match x with
  | S754_nan => chars "nan"
  | S754_infinity s => (if s then chars "-" else []) ++ chars "inf"
  | S754_zero s => (if s then chars "-" else []) ++ chars "0.000000"
  | S754_finite s m e =>
      let n :=
        if 0 <=? e then Zpos m * 2 ^ e * 10 ^ 6
        else div_half_even (Zpos m * 10 ^ 6) (2 ^ (- e)) in
      (if s then chars "-" else [])
      ++ nat_str (n / 10 ^ 6) ++ chars "." ++ zero_pad 6 (nat_str (n mod 10 ^ 6))
  end.

End PyFloat.

(** ** Python values, exceptions and effects *)

Module Py.

(** The values [response.json()] can return, which are also the values a
    candidate location is built from. A [dict] keeps its keys in
    insertion order; its keys are unique. *)
Inductive value : Type :=
| VNone : value
| VBool : bool -> value
| VInt : Z -> value
| VFloat : PyFloat.float -> value
| VStr : string -> value
| VList : list value -> value
| VDict : list (string * value) -> value.

Definition type_name (v : value) : string :=
  match v with
  | VNone => "NoneType"
  | VBool _ => "bool"
  | VInt _ => "int"
  | VFloat _ => "float"
  | VStr _ => "str"
  | VList _ => "list"
  | VDict _ => "dict"
  end.

(** The exception classes of [httpx]. All but [HTTPStatusError] and
    [InvalidURL] derive from [httpx.RequestError]. *)
Inductive httpx_class : Type :=
| ConnectTimeout | ReadTimeout | WriteTimeout | PoolTimeout
| ConnectError | ReadError | WriteError | CloseError
| LocalProtocolError | RemoteProtocolError
| ProxyError | UnsupportedProtocol
| DecodingError | TooManyRedirects
| HTTPStatusError
| InvalidURL.

(** Exception classes: the built-in ones the code meets,
    [json.JSONDecodeError] and pydantic's [ValidationError] (both derive
    from [ValueError]), those of [httpx], the four classes [core.py]
    declares, and any other class, which says whether it derives from
    [ValueError]. *)
Inductive exn_class : Type :=
| ValueError | KeyError | IndexError | TypeError | OverflowError
| AttributeError
| JSONDecodeError | ValidationError
| Httpx : httpx_class -> exn_class
| GeotaggingError
| InvalidCoordinatesError | GeocodingServiceError | NoResultsFoundError
| OtherError : string -> bool -> exn_class.

(** An exception: its class and [str(e)]. *)
Record exn : Type := Exn { cls : exn_class; str : string }.

(** [isinstance(e, ValueError)] and its like. *)
Definition is_ValueError (e : exn) : bool :=
  match cls e with
  | ValueError | JSONDecodeError | ValidationError => true
  | OtherError _ b => b
  | _ => false
  end.

Definition is_KeyError (e : exn) : bool :=
  match cls e with KeyError => true | _ => false end.

Definition is_IndexError (e : exn) : bool :=
  match cls e with IndexError => true | _ => false end.

Definition is_RequestError (e : exn) : bool :=
  match cls e with
  | Httpx HTTPStatusError | Httpx InvalidURL => false
  | Httpx _ => true
  | _ => false
  end.

Definition is_InvalidCoordinatesError (e : exn) : bool :=
  match cls e with InvalidCoordinatesError => true | _ => false end.

Definition is_GeocodingServiceError (e : exn) : bool :=
  match cls e with GeocodingServiceError => true | _ => false end.

Definition is_NoResultsFoundError (e : exn) : bool :=
  match cls e with NoResultsFoundError => true | _ => false end.

(** The outcome of an expression: a value or a raised exception. *)
Inductive completion (A : Type) : Type :=
| Return : A -> completion A
| Raise : exn -> completion A.
Arguments Return {A} _.
Arguments Raise {A} _.

(** What the resolver does to the outside: the HTTP GET the client has
    built and sends (URL, [User-Agent] header, timeout in seconds) and the
    lines it prints. *)
Inductive event : Type :=
| HttpGet : string -> string -> Z -> event
| Print : string -> event.

(** A computation: the events it emitted, in order, and its outcome. *)
Definition M (A : Type) : Type := list event * completion A.

Definition ret {A} (a : A) : M A := ([], Return a).
Definition raise {A} (e : exn) : M A := ([], Raise e).
Definition emit (ev : event) : M unit := ([ev], Return tt).
Definition lift {A} (r : completion A) : M A := ([], r).

Definition bind {A B} (m : M A) (k : A -> M B) : M B :=
  match m with
  | (log, Return a) => let '(log', r) := k a in ((log ++ log')%list, r)
  | (log, Raise e) => (log, Raise e)
  end.

(** [try: m  except <handles>: h(e)] *)
Definition try_except {A} (m : M A) (handles : exn -> bool) (h : exn -> M A)
  : M A :=
  match m with
  | (log, Raise e) =>
      if handles e then let '(log', r) := h e in ((log ++ log')%list, r)
      else (log, Raise e)
  | _ => m
  end.

(** The same on pure expressions. *)
Definition rbind {A B} (r : completion A) (k : A -> completion B) : completion B :=
  match r with
  | Return a => k a
  | Raise e => Raise e
  end.

Definition events {A} (m : M A) : list event := fst m.
Definition outcome {A} (m : M A) : completion A := snd m.

(** *** Built-in operations *)

(** [str.isprintable] of a character: below code point 256 the
    printable characters are SPACE to [~] and those from 161 on, 173
    apart. *)
Definition is_printable (c : ascii) : bool :=
  let n := code c in
  ((32 <=? n) && (n <=? 126)) || ((161 <=? n) && negb (n =? 173)).

Definition hex_digit (n : Z) : ascii :=
  nth (Z.to_nat n) (chars "0123456789abcdef") "0"%char.

Definition backslash : ascii := ascii_of_nat 92.
Definition single_quote : ascii := ascii_of_nat 39.
Definition double_quote : ascii := ascii_of_nat 34.

(** One character of [repr(s)] between [quote]s: the quote and the
    backslash are escaped, TAB, LF and CR have their letters, any other
    character that is not printable is written with two hexadecimal
    digits. *)
Definition repr_char (quote c : ascii) : list ascii :=
  if Ascii.eqb c quote || Ascii.eqb c backslash then [backslash; c]
  else if code c =? 9 then [backslash; "t"%char]
  else if code c =? 10 then [backslash; "n"%char]
  else if code c =? 13 then [backslash; "r"%char]
  else if is_printable c then [c]
  else [backslash; "x"%char;
        hex_digit (code c / 16); hex_digit (code c mod 16)].

(** [repr(s)] of a [str], as it appears in messages: between single
    quotes, or between double quotes when the string holds a single
    quote and no double quote. *)
Definition repr_str (s : string) : string :=
  let l := chars s in
  let quote :=
    if existsb (Ascii.eqb single_quote) l
       && negb (existsb (Ascii.eqb double_quote) l)
    then double_quote else single_quote in
  of_chars (quote :: flat_map (repr_char quote) l ++ [quote]).

(** [bool(v)] *)
Definition truthy (v : value) : bool :=
  match v with
  | VNone => false
  | VBool b => b
  | VInt z => negb (z =? 0)
  | VFloat f =>
      match f with S754_zero _ => false | _ => true end
  | VStr s => negb (String.eqb s "")
  | VList l => match l with [] => false | _ => true end
  | VDict d => match d with [] => false | _ => true end
  end.

(** [list(iter(v))]: what a [for] loop over [v] visits. *)
Definition iterate (v : value) : completion (list value) :=
  match v with
  | VList l => Return l
  | VDict d => Return (map (fun kv => VStr (fst kv)) d)
  | VStr s => Return (map (fun c => VStr (String c "")) (chars s))
  | _ => Raise (Exn TypeError
                    ("'" ++ type_name v ++ "' object is not iterable"))
  end.

Fixpoint lookup (k : string) (d : list (string * value)) : option value :=
  match d with
  | [] => None
  | (k', v) :: d' => if String.eqb k k' then Some v else lookup k d'
  end.

(** [v[k]] for a [str] key [k]. *)
Definition subscript (v : value) (k : string) : completion value :=
  match v with
  | VDict d =>
      match lookup k d with
      | Some x => Return x
      | None => Raise (Exn KeyError (repr_str k))
      end
  | VStr _ =>
      Raise (Exn TypeError "string indices must be integers, not 'str'")
  | VList _ =>
      Raise (Exn TypeError
                 "list indices must be integers or slices, not str")
  | _ =>
      Raise (Exn TypeError
                 ("'" ++ type_name v ++ "' object is not subscriptable"))
  end.

(** [v.get(k, default)] *)
Definition get (v : value) (k : string) (default : value) : completion value :=
  match v with
  | VDict d =>
      Return (match lookup k d with Some x => x | None => default end)
  | _ =>
      Raise (Exn AttributeError
                 ("'" ++ type_name v ++ "' object has no attribute 'get'"))
  end.

(** [float(v)] *)
Definition float (v : value) : completion PyFloat.float :=
  match v with
  | VFloat f => Return f
  | VInt z =>
      match PyFloat.of_int z with
      | Some f => Return f
      | None => Raise (Exn OverflowError "int too large to convert to float")
      end
  | VBool b => Return (PyFloat.of_decimal false (if b then 1 else 0) 0)
  | VStr s =>
      match PyFloat.of_str (chars s) with
      | Some f => Return f
      | None =>
          Raise (Exn ValueError
                     ("could not convert string to float: " ++ repr_str s))
      end
  | _ =>
      Raise (Exn TypeError
                 ("float() argument must be a string or a real number, not '"
                  ++ type_name v ++ "'"))
  end.

End Py.

Declare Scope py_scope.
Delimit Scope py_scope with py.
Notation "x <- m ;; k" := (Py.bind m (fun x => k))
  (at level 61, m at next level, right associativity) : py_scope.
Notation "m ;;; k" := (Py.bind m (fun _ => k))
  (at level 61, right associativity) : py_scope.
Notation "x <~ r ;; k" := (Py.rbind r (fun x => k))
  (at level 61, r at next level, right associativity) : py_scope.

Import Py.
Local Open Scope py_scope.

(** ** [models.py] *)

Record GeoTagResult : Type := mkGeoTagResult {
  address : string;
  latitude : PyFloat.float;
  longitude : PyFloat.float;
  geotag : string
}.

(** [GeoTagResult(address=a, latitude=lat, longitude=lon, geotag=g)]: the
    model validates its fields; [lat] and [lon] are floats and [g] is a
    [str] at the one place the constructor is called, [a] is whatever the
    candidate holds and has to be a [str], or pydantic raises its
    [ValidationError]. *)
Definition GeoTagResult_new (a : value) (lat lon : PyFloat.float) (g : string)
  : completion GeoTagResult :=
  match a with
  | VStr s => Return (mkGeoTagResult s lat lon g)
  | _ => Raise (Exn ValidationError "1 validation error for GeoTagResult")
  end.

Record GeoTagResponse : Type := mkGeoTagResponse {
  status : string;
  query : string;
  resolution : Z;
  result : list GeoTagResult
}.

(** ** [core.py]: [fetch_geotags] *)

(** What [client.get] does with a URL: the client raises, or a response
    arrives with a status code and a body that [response.json()] decodes
    or fails on. [httpx.InvalidURL] is what the client raises for a URL
    it refuses, while it builds the request. *)
Inductive http_outcome : Type :=
| GetRaises : httpx_class -> string -> http_outcome
| GetResponse : Z -> completion value -> http_outcome.

Definition user_agent : string := "TrackEmDown/1.0 (nikhilsingh.io)".

Definition search_url (q : string) : string :=
  "https://nominatim.openstreetmap.org/search?format=json&q=" ++ q.

(** The one request of the address branch. *)
Definition the_request (q : string) : event :=
  HttpGet (search_url q) user_agent 10.

(** The client refuses the URL: nothing is sent. *)
Definition url_refused (o : http_outcome) : bool :=
  match o with
  | GetRaises InvalidURL _ => true
  | _ => false
  end.

(** [response.raise_for_status()]: any status outside 200..299 raises
    [httpx.HTTPStatusError]. *)
Definition raise_for_status (code : Z) (url : string) : M unit :=
  if (200 <=? code) && (code <=? 299) then ret tt
  else raise (Exn (Httpx HTTPStatusError)
                  ("Error response " ++ of_chars (PyFloat.nat_str code)
                   ++ " for url '" ++ url ++ "'")).

Definition invalid_coordinates_msg : string :=
  "Invalid coordinate format. Use 'latitude,longitude'.".
Definition no_results_msg : string := "No results found for the given query.".
Definition malformed_data_msg : string :=
  "Geocoding service returned malformed data.".

(** [f"Coordinates: {lat:.6f}, {lon:.6f}"] *)
Definition coordinates_label (lat lon : PyFloat.float) : string :=
  "Coordinates: " ++ of_chars (PyFloat.format_6f lat) ++ ", "
  ++ of_chars (PyFloat.format_6f lon).

(** [float(s)] on a [str] given by its characters. *)
Definition float_of_chars (s : list ascii) : completion PyFloat.float :=
  Py.float (VStr (of_chars s)).

(** The body of the [try] of the coordinate branch: unpack [q.split(',')]
    into two names, convert both, append the one candidate. *)
Definition coordinate_locations (q : string) : completion value :=
  match split_on "," (chars q) with
  | [lat_str; lon_str] =>
      lat <~ float_of_chars lat_str ;;
      lon <~ float_of_chars lon_str ;;
      Return (VList [VDict [("lat", VFloat lat); ("lon", VFloat lon);
                            ("display_name", VStr (coordinates_label lat lon))]])
  | [_] =>
      Raise (Exn ValueError "not enough values to unpack (expected 2, got 1)")
  | _ => Raise (Exn ValueError "too many values to unpack (expected 2)")
  end.

(** What the endpoint gives back: the envelope, or an [HTTPException]
    with its status code and detail. *)
Inductive reply : Type :=
| Respond : GeoTagResponse -> reply
| HTTPException : Z -> string -> reply.

Section Resolver.

(** The geocoding service, as the answer it gives to the GET of a URL. *)
Variable http_get : string -> http_outcome.

(** [h3.latlng_to_cell] *)
Variable latlng_to_cell : PyFloat.float -> PyFloat.float -> Z -> completion string.

(** [client.get(url, headers=headers, timeout=10.0)]: the client builds
    the request from the URL, and raises [httpx.InvalidURL] with nothing
    sent when it refuses the URL; otherwise it sends the request, and
    raises or returns the response, here its status code and what
    [response.json()] will give. *)
Definition client_get (q : string) : M (Z * completion value) :=
  match http_get (search_url q) with
  | GetRaises InvalidURL msg =>
      raise (Exn (Httpx InvalidURL) msg)
  | GetRaises k msg =>
      emit (the_request q) ;;;
      raise (Exn (Httpx k) msg)
  | GetResponse code json =>
      emit (the_request q) ;;;
      ret (code, json)
  end.

(** The address branch. *)
Definition geocode (q : string) : M value :=
  let url := search_url q in
  try_except
    (response <- client_get q ;;
     raise_for_status (fst response) url ;;;
     lift (snd response))
    is_RequestError
    (fun exc =>
       raise (Exn GeocodingServiceError
                  ("Error connecting to geocoding service: " ++ str exc))).

(** The body of the [try] inside the loop. *)
Definition convert (loc : value) (resolution : Z) : completion GeoTagResult :=
  lat_v <~ subscript loc "lat" ;;
  lat <~ Py.float lat_v ;;
  lon_v <~ subscript loc "lon" ;;
  lon <~ Py.float lon_v ;;
  geotag <~ latlng_to_cell lat lon resolution ;;
  a <~ get loc "display_name" (VStr "N/A") ;;
  GeoTagResult_new a lat lon geotag.

(** The loop over the candidates; [results] is the list built so far. *)
Fixpoint build_results (locs : list value) (resolution : Z)
         (results : list GeoTagResult) : M (list GeoTagResult) :=
  match locs with
  | [] => ret results
  | loc :: rest =>
      match convert loc resolution with
      | Return r => build_results rest resolution (results ++ [r])%list
      | Raise e =>
          if is_ValueError e || is_KeyError e then
            emit (Print ("Skipping a location due to parsing error: "
                         ++ str e)) ;;;
            build_results rest resolution results
          else raise e
      end
  end.

(** The [if]/[else] that fills [locations]: the coordinate branch when
    the query, its spaces removed, matches [COORD_REGEX], the address
    branch otherwise. *)
Definition candidate_locations (q : string) : M value :=
  if COORD_REGEX_match (of_chars (remove_char " " (chars q))) then
    try_except
      (lift (coordinate_locations q))
      (fun e => is_ValueError e || is_IndexError e)
      (fun _ => raise (Exn InvalidCoordinatesError invalid_coordinates_msg))
  else geocode q.

(** What follows the [if]/[else]: the emptiness check, the loop and the
    check of its result. *)
Definition index_locations (locations : value) (resolution : Z)
  : M (list GeoTagResult) :=
  if negb (truthy locations) then
    raise (Exn NoResultsFoundError no_results_msg)
  else
    locs <- lift (iterate locations) ;;
    results <- build_results locs resolution [] ;;
    match results with
    | [] => raise (Exn NoResultsFoundError malformed_data_msg)
    | _ => ret results
    end.

Definition fetch_geotags (q : string) (resolution : Z)
  : M (list GeoTagResult) :=
  locations <- candidate_locations q ;;
  index_locations locations resolution.

(** ** [main.py]: [get_geotag] *)

(** The body of the endpoint. (The framework has checked
    [0 <= resolution <= 15] before it runs; the resolver does not check it
    again.) The [except] clauses are tried in order. *)
Definition get_geotag (q : string) (resolution : Z) : list event * reply :=
  match fetch_geotags q resolution with
  | (log, Return results) =>
      (log, Respond (mkGeoTagResponse "success" q resolution results))
  | (log, Raise e) =>
      (log,
       if is_InvalidCoordinatesError e then HTTPException 400 (str e)
       else if is_NoResultsFoundError e then HTTPException 404 (str e)
       else if is_GeocodingServiceError e then HTTPException 503 (str e)
       else HTTPException 500 ("An unexpected error occurred: " ++ str e))
  end.

End Resolver.

(** ** Vocabulary of the statements *)

Section Candidates.

Variable latlng_to_cell : PyFloat.float -> PyFloat.float -> Z -> completion string.

(** The candidate is skipped by the loop: its conversion raises an
    exception the loop's [except (ValueError, KeyError)] catches. *)
Definition skipped (loc : value) (resolution : Z) : bool :=
  match convert latlng_to_cell loc resolution with
  | Raise e => is_ValueError e || is_KeyError e
  | Return _ => false
  end.

(** The candidate aborts the loop: its conversion raises an exception the
    loop does not catch. *)
Definition aborts (loc : value) (resolution : Z) : bool :=
  match convert latlng_to_cell loc resolution with
  | Raise e => negb (is_ValueError e || is_KeyError e)
  | Return _ => false
  end.

(** The results of the candidates that convert, in order. *)
Definition converted (locs : list value) (resolution : Z)
  : list GeoTagResult :=
  flat_map (fun loc => match convert latlng_to_cell loc resolution with
                       | Return r => [r]
                       | Raise _ => []
                       end) locs.

End Candidates.

(** A value [float] rejects with a [TypeError]: neither a number nor a
    string (JSON [null], an array, an object). *)
Definition neither_number_nor_string (v : value) : bool :=
  match v with
  | VNone | VList _ | VDict _ => true
  | _ => false
  end.

(** A field the loop recovers from: it is missing, or it is a string
    [float] does not parse. *)
Definition unusable (field : option value) : Prop :=
  field = None \/
  exists s, field = Some (VStr s) /\ PyFloat.of_str (chars s) = None.

(** The whitespace of the query is whitespace [float] strips (none of
    FS..US). *)
Definition plain_whitespace (l : list ascii) : Prop :=
  Forall (fun c => is_space c = true -> PyFloat.is_float_space c = true) l.

(** A comma-separated part of the query has a space inside the number: a
    SPACE is left once [float] has stripped the part. *)
Definition space_inside (part : list ascii) : Prop :=
  In " "%char (strip_by PyFloat.is_float_space part).

(** The two situations of [NoResultsFoundError]. *)
Section Situations.

Variable http_get : string -> http_outcome.
Variable latlng_to_cell : PyFloat.float -> PyFloat.float -> Z -> completion string.

(** A branch produced the candidates and there are none. *)
Definition no_candidates (q : string) : Prop :=
  exists locations,
    outcome (candidate_locations http_get q) = Return locations /\
    truthy locations = false.

(** A branch produced candidates and the loop skipped every one. *)
Definition all_skipped (q : string) (resolution : Z) : Prop :=
  exists locations locs,
    outcome (candidate_locations http_get q) = Return locations /\
    truthy locations = true /\
    iterate locations = Return locs /\
    Forall (fun loc => skipped latlng_to_cell loc resolution = true) locs.

(** The collaborators raise no [NoResultsFoundError] of their own (the
    class is declared in [core.py]). *)
Definition externals_foreign (resolution : Z) : Prop :=
  (forall url code e,
      http_get url = GetResponse code (Raise e) ->
      is_NoResultsFoundError e = false) /\
  (forall lat lon e,
      latlng_to_cell lat lon resolution = Raise e ->
      is_NoResultsFoundError e = false).

End Situations.

(** *** Vocabulary of the grammar *)

(** Removing the spaces of a string the pattern matches leaves a string
    it matches: no class of the pattern has the space, but for starred
    classes. *)
Fixpoint spaces_removable (r : regex) : bool :=
  match r with
  | Void | Eps => true
  | Cls p => negb (p " "%char)
  | Cat r1 r2 | Alt r1 r2 => spaces_removable r1 && spaces_removable r2
  | Star r1 =>
      match r1 with
      | Cls _ => true
      | _ => spaces_removable r1
      end
  end.

(** A number made of digits, with its value. *)
Definition digits_upto (bound : Z) (maxlen : nat) (s : list ascii) : Prop :=
  Forall (fun c => is_digit c = true) s /\
  (1 <= List.length s <= maxlen)%nat /\
  0 <= PyFloat.digits_val s <= bound.

(** The optional minus sign. *)
Definition sign_chars (neg : bool) : list ascii :=
  if neg then ["-"%char] else [].

(** One decimal number of the grammar: sign, integer part, point,
    fraction. *)
Definition decimal_of (bound : Z) (maxlen : nat) (s : list ascii) : Prop :=
  exists neg ip fp,
    s = (sign_chars neg ++ ip ++ "."%char :: fp)%list /\
    digits_upto bound maxlen ip /\
    (1 <= List.length fp <= 15)%nat /\
    Forall (fun c => is_digit c = true) fp.

(** The commas of a string. *)
Definition commas (l : list ascii) : list ascii := filter (Ascii.eqb ",") l.

(** *** Stand-ins for the two external collaborators, to run the resolver
    on concrete queries *)

(** A cell index: the resolution and the coordinates, spelled out; it
    rejects a resolution outside 0..15 as the library does. *)
Definition sample_cell (lat lon : PyFloat.float) (resolution : Z)
  : completion string :=
  if (0 <=? resolution) && (resolution <=? 15) then
    Return ("cell-" ++ of_chars (PyFloat.nat_str resolution) ++ "@"
            ++ of_chars (PyFloat.format_6f lat) ++ ","
            ++ of_chars (PyFloat.format_6f lon))
  else Raise (Exn (OtherError "H3ResDomainError" true) "resolution out of range").

Definition candidate (lat lon : value) (name : string) : value :=
  VDict [("lat", lat); ("lon", lon); ("display_name", VStr name)].

(** A service that is down. *)
Definition service_refusing (url : string) : http_outcome :=
  GetRaises ConnectError "All connection attempts failed".

(** A service that answers every search with status 503. *)
Definition service_unavailable (url : string) : http_outcome :=
  GetResponse 503 (Return (VList [])).

(** A service that knows no place. *)
Definition service_empty (url : string) : http_outcome :=
  GetResponse 200 (Return (VList [])).

(** A service whose second of three candidates has a non-numeric [lat]. *)
Definition service_one_bad_string (url : string) : http_outcome :=
  GetResponse 200
    (Return (VList [candidate (VStr "52.5") (VStr "13.4") "Berlin";
                    candidate (VStr "n/a") (VStr "13.4") "Berlin?";
                    candidate (VStr "48.1") (VStr "11.6") "Munich"])).

(** A service whose second of three candidates has [null] for [lat]. *)
Definition service_one_null (url : string) : http_outcome :=
  GetResponse 200
    (Return (VList [candidate (VStr "52.5") (VStr "13.4") "Berlin";
                    candidate VNone (VStr "13.4") "Berlin?";
                    candidate (VStr "48.1") (VStr "11.6") "Munich"])).

(** A client that refuses a URL that holds an ASCII control character,
    as [httpx] does while it builds the request, in front of a service
    that knows no place. *)
Definition client_strict_on_urls (url : string) : http_outcome :=
  if existsb (fun c => (code c <? 32) || (code c =? 127)) (chars url)
  then GetRaises InvalidURL "Invalid non-printable ASCII character in URL"
  else GetResponse 200 (Return (VList [])).

(** A service all of whose candidates lack [lat]. *)
Definition service_all_bad (url : string) : http_outcome :=
  GetResponse 200
    (Return (VList [VDict [("lon", VStr "13.4")]; VDict []])).

(** ** [app.py]: the interactive page *)

Module App.

(** A [go.Scattermap] trace, by the keyword arguments it is built with:
    [line] is the width and the color, [marker] the size and the color. *)
Record Scattermap : Type := mkScattermap {
  lat : list PyFloat.float;
  lon : list PyFloat.float;
  mode : string;
  line : option (Z * string);
  marker : option (Z * string);
  text : option (list string);
  name : string;
  hovertemplate : string;
  showlegend : bool
}.

(** The [map] argument of [update_layout]. *)
Record MapLayout : Type := mkMapLayout {
  style : string;
  zoom : Z;
  center : Py.value * Py.value
}.

(** What [update_layout] has set: [margin] is [l], [r], [t], [b], and
    [legend] is [x], [y]. *)
Record Layout : Type := mkLayout {
  map : option MapLayout;
  height : option Z;
  margin : option (Z * Z * Z * Z);
  legend : option (PyFloat.float * PyFloat.float)
}.

(** A [go.Figure]: the traces added to it, in order, and its layout. *)
Record Figure : Type := mkFigure {
  data : list Scattermap;
  layout : Layout
}.

(** [go.Figure()] *)
Definition empty_figure : Figure := mkFigure [] (mkLayout None None None None).

(** [gr.update(...)] of the error box. *)
Record Update : Type := mkUpdate {
  value : option string;
  visible : bool
}.

Definition colors : list string :=
  ["blue"; "green"; "purple"; "orange"; "brown"; "pink"; "gray"; "olive";
   "cyan"; "magenta"].

(** [str(n)] for a non-negative [int]. *)
Definition str_of_nat (n : nat) : string :=
  of_chars (PyFloat.nat_str (Z.of_nat n)).

(** [f"{x:.6f}"] *)
Definition fmt6 (x : PyFloat.float) : string := of_chars (PyFloat.format_6f x).

Section Page.

(** The geocoding service and [h3.latlng_to_cell], as for the resolver. *)
Variable http_get : string -> http_outcome.
Variable latlng_to_cell : PyFloat.float -> PyFloat.float -> Z -> completion string.

(** [h3.cell_to_boundary]: the vertices of a cell, each a latitude and a
    longitude. *)
Variable cell_to_boundary :
  string -> completion (list (PyFloat.float * PyFloat.float)).

(** The body of the [try] of the loop of [create_map], for the geotag at
    index [i]: the outline of its cell, closed by its first vertex.
    [boundary[0]] raises [IndexError] on an empty boundary. *)
Definition hexagon_trace (i : nat) (geotag : string) : completion Scattermap :=
  boundary <~ cell_to_boundary geotag ;;
  match boundary with
  | [] => Raise (Exn IndexError "tuple index out of range")
  | first :: _ =>
      Return {| lat := (List.map fst boundary ++ [fst first])%list;
                lon := (List.map snd boundary ++ [snd first])%list;
                mode := "lines";
                line := Some (2, nth (i mod List.length colors) colors "");
                marker := None;
                text := None;
                name := "H3 Hexagon " ++ str_of_nat (i + 1);
                hovertemplate := "<b>H3 Geotag: " ++ geotag ++ "</b><extra></extra>";
                showlegend := true |}
  end.

(** The loop over [enumerate(geotags)], from index [i] on; [traces] are
    the traces of the figure so far. Whatever the [try] raises is printed
    and the loop goes on. *)
Fixpoint draw_hexagons (i : nat) (geotags : list string)
         (traces : list Scattermap) : list event * list Scattermap :=
  match geotags with
  | [] => ([], traces)
  | geotag :: rest =>
      match hexagon_trace i geotag with
      | Return t => draw_hexagons (S i) rest (traces ++ [t])%list
      | Raise e =>
          let '(log, traces') := draw_hexagons (S i) rest traces in
          (Print ("Could not draw hexagon for " ++ geotag ++ ": " ++ str e)
             :: log, traces')
      end
  end.

(** The trace of the location markers. *)
Definition locations_trace (results : list GeoTagResult) : Scattermap :=
  {| lat := List.map latitude results;
     lon := List.map longitude results;
     mode := "markers";
     line := None;
     marker := Some (8, "red");
     text := Some (List.map (fun r => address r ++ "<br>Geotag: " ++ geotag r)
                            results);
     name := "Locations";
     hovertemplate := "<b>%{text}</b><extra></extra>";
     showlegend := true |}.

Definition create_map (results : list GeoTagResult) : list event * Figure :=
  match results with
  | [] => ([], empty_figure)
  | _ =>
      let '(log, traces) := draw_hexagons 0 (List.map geotag results) [] in
      (log,
       {| data := (traces ++ [locations_trace results])%list;
          layout :=
            {| map := Some {| style := "open-street-map";
                              zoom := 2;
                              center :=
                                match results with
                                | r :: _ => (VFloat (latitude r),
                                             VFloat (longitude r))
                                | [] => (VInt 0, VInt 0)
                                end |};
               height := Some 500;
               margin := Some (0, 0, 0, 0);
               legend := Some (PyFloat.of_decimal false 2 (-2),
                               PyFloat.of_decimal false 98 (-2)) |} |})
  end.

(** One row of the table. *)
Definition table_row (r : GeoTagResult) : list string :=
  [address r; fmt6 (latitude r); fmt6 (longitude r); geotag r].

(** The figure of the [except] branch. *)
Definition error_figure : Figure :=
  mkFigure [] (mkLayout None (Some 400) (Some (0, 0, 0, 0)) None).

(** The three outputs of the page: the rows of the table, the map and
    the update of the error box. [except Exception] catches whatever the
    resolver raises. *)
Definition get_geotags_async (query : string) (resolution : Z)
  : list event * (list (list string) * Figure * Update) :=
  match fetch_geotags http_get latlng_to_cell query resolution with
  | (log, Return results) =>
      let formatted_results := List.map table_row results in
      let '(log', map_fig) := create_map results in
      ((log ++ log')%list,
       (formatted_results, map_fig, mkUpdate None false))
  | (log, Raise e) =>
      (log, ([], error_figure, mkUpdate (Some ("Error: " ++ str e)) true))
  end.

(** [get_geotags] runs [get_geotags_async] to completion on an event loop
    of its own. *)
Definition get_geotags (query : string) (resolution : Z)
  : list event * (list (list string) * Figure * Update) :=
  get_geotags_async query resolution.

End Page.

End App.

(** *** More vocabulary *)

(** The requests among the events. *)
Definition requests (log : list event) : list event :=
  filter (fun ev => match ev with HttpGet _ _ _ => true | Print _ => false end)
         log.

(** The lines the loop prints for the candidates it skips, in order. *)
Definition skip_lines
    (latlng_to_cell : PyFloat.float -> PyFloat.float -> Z -> completion string)
    (locs : list value) (resolution : Z) : list event :=
  flat_map (fun loc =>
              match convert latlng_to_cell loc resolution with
              | Return _ => []
              | Raise e =>
                  [Print ("Skipping a location due to parsing error: "
                          ++ str e)]
              end) locs.

(** An exception of a class [core.py] declares. *)
Definition declared_in_core (e : exn) : bool :=
  match cls e with
  | GeotaggingError | InvalidCoordinatesError | GeocodingServiceError
  | NoResultsFoundError => true
  | _ => false
  end.

(** The collaborators raise exceptions of their own classes only. *)
Definition externals_own_classes
    (http_get : string -> http_outcome)
    (latlng_to_cell : PyFloat.float -> PyFloat.float -> Z -> completion string)
  : Prop :=
  (forall url code e,
      http_get url = GetResponse code (Raise e) -> declared_in_core e = false) /\
  (forall lat lon resolution e,
      latlng_to_cell lat lon resolution = Raise e -> declared_in_core e = false).

(** A stand-in for [h3.cell_to_boundary]: a triangle around nothing in
    particular, and a failure for the empty identifier. *)
Definition sample_boundary (cell : string)
  : completion (list (PyFloat.float * PyFloat.float)) :=
  if String.eqb cell "" then Raise (Exn ValueError "invalid cell")
  else Return [(PyFloat.of_decimal false 1 0, PyFloat.of_decimal false 2 0);
               (PyFloat.of_decimal false 3 0, PyFloat.of_decimal false 4 0);
               (PyFloat.of_decimal false 5 0, PyFloat.of_decimal false 6 0)].

(** A service that answers with an object that describes an error. *)
Definition service_error_object (url : string) : http_outcome :=
  GetResponse 200 (Return (VDict [("error", VStr "Unable to geocode")])).

(** A service whose answer is not JSON. *)
Definition service_not_json (url : string) : http_outcome :=
  GetResponse 200
    (Raise (Exn JSONDecodeError "Expecting value: line 1 column 1 (char 0)")).

(** ** The matcher decides the language *)

Module ReFacts.

Local Open Scope list_scope.

Lemma Matches_Void_inv s : ~ Matches Void s.
Proof. inversion 1. Qed.

Lemma Matches_Eps_inv s : Matches Eps s -> s = [].
Proof. now inversion 1. Qed.

Lemma Matches_Cls_inv p s :
  Matches (Cls p) s -> exists c, s = [c] /\ p c = true.
Proof. inversion 1; subst; eauto. Qed.

Lemma Matches_Cat_inv r1 r2 s :
  Matches (Cat r1 r2) s ->
  exists s1 s2, s = s1 ++ s2 /\ Matches r1 s1 /\ Matches r2 s2.
Proof. inversion 1; subst; eauto. Qed.

Lemma Matches_Alt_inv r1 r2 s :
  Matches (Alt r1 r2) s -> Matches r1 s \/ Matches r2 s.
Proof. inversion 1; subst; auto. Qed.

Lemma Matches_Star_inv r s :
  Matches (Star r) s ->
  s = [] \/
  exists c s1 s2,
    s = c :: s1 ++ s2 /\ Matches r (c :: s1) /\ Matches (Star r) s2.
Proof. inversion 1; subst; eauto 7. Qed.

Lemma Matches_Cat_cons r1 r2 c s1 s2 :
  Matches r1 (c :: s1) -> Matches r2 s2 -> Matches (Cat r1 r2) (c :: s1 ++ s2).
Proof. intros. change (c :: s1 ++ s2) with ((c :: s1) ++ s2). now constructor. Qed.

Lemma Matches_Cat_nil r1 r2 s :
  Matches r1 [] -> Matches r2 s -> Matches (Cat r1 r2) s.
Proof. intros. change s with ([] ++ s). now constructor. Qed.

Lemma nullable_Matches (r : regex) : nullable r = true <-> Matches r [].
Proof.
  induction r as [| |p|r1 IH1 r2 IH2|r1 IH1 r2 IH2|r IH]; simpl.
  - split; [discriminate | intro H; now apply Matches_Void_inv in H].
  - split; constructor.
  - split; [discriminate |].
    intro H. apply Matches_Cls_inv in H as (c & E & _). discriminate.
  - rewrite andb_true_iff, IH1, IH2. split.
    + intros [H1 H2]. now apply Matches_Cat_nil.
    + intro H. apply Matches_Cat_inv in H as (s1 & s2 & E & M1 & M2).
      symmetry in E. apply app_eq_nil in E as [-> ->]. tauto.
  - rewrite orb_true_iff, IH1, IH2. split.
    + intros [H|H]; [now apply MAltL | now apply MAltR].
    + apply Matches_Alt_inv.
  - split; constructor.
Qed.

Lemma deriv_Matches (r : regex) :
  forall c s, Matches (deriv c r) s <-> Matches r (c :: s).
Proof.
  induction r as [| |p|r1 IH1 r2 IH2|r1 IH1 r2 IH2|r IH]; intros c s; simpl.
  - split; intro H; now apply Matches_Void_inv in H.
  - split; intro H; [now apply Matches_Void_inv in H |].
    apply Matches_Eps_inv in H. discriminate.
  - split; intro H.
    + destruct (p c) eqn:Hp; [|now apply Matches_Void_inv in H].
      apply Matches_Eps_inv in H as ->. now constructor.
    + apply Matches_Cls_inv in H as (c' & E & Hp).
      injection E as Ec Es. subst c' s. rewrite Hp. constructor.
  - split; intro H.
    + assert (Hcat : forall t, Matches (Cat (deriv c r1) r2) t ->
                               Matches (Cat r1 r2) (c :: t)).
      { intros t Ht. apply Matches_Cat_inv in Ht as (s1 & s2 & -> & M1 & M2).
        apply Matches_Cat_cons; [now apply IH1 | assumption]. }
      destruct (nullable r1) eqn:N; [|now apply Hcat].
      apply Matches_Alt_inv in H as [H|H]; [now apply Hcat|].
      apply Matches_Cat_nil; [now apply nullable_Matches | now apply IH2].
    + apply Matches_Cat_inv in H as (s1 & s2 & E & M1 & M2).
      destruct s1 as [|c1 s1]; simpl in E.
      * subst s2. apply nullable_Matches in M1. rewrite M1.
        apply MAltR. now apply IH2.
      * injection E as Ec Es. subst c1 s.
        assert (Matches (Cat (deriv c r1) r2) (s1 ++ s2))
          by (constructor; [now apply IH1 | assumption]).
        destruct (nullable r1); [now apply MAltL | assumption].
  - split; intro H.
    + apply Matches_Alt_inv in H as [H|H];
        [apply MAltL; now apply IH1 | apply MAltR; now apply IH2].
    + apply Matches_Alt_inv in H as [H|H];
        [apply MAltL; now apply IH1 | apply MAltR; now apply IH2].
  - split; intro H.
    + apply Matches_Cat_inv in H as (s1 & s2 & -> & M1 & M2).
      constructor; [now apply IH | assumption].
    + apply Matches_Star_inv in H as [E | (c' & s1 & s2 & E & M1 & M2)];
        [discriminate|].
      injection E as Ec Es. subst c' s.
      constructor; [now apply IH | assumption].
Qed.

Theorem fullmatch_Matches (r : regex) (s : list ascii) :
  fullmatch r s = true <-> Matches r s.
Proof.
  revert r. induction s as [|c s IH]; intro r; simpl.
  - apply nullable_Matches.
  - rewrite IH. apply deriv_Matches.
Qed.

Lemma Matches_alphabet (r : regex) (s : list ascii) :
  Matches r s -> Forall (fun c => alphabet r c = true) s.
Proof.
  induction 1; simpl in *.
  - constructor.
  - repeat constructor. assumption.
  - apply Forall_app; split;
      (eapply Forall_impl; [|eassumption]); intros a Ha; simpl in Ha; rewrite Ha;
      auto using orb_true_r.
  - eapply Forall_impl; [|eassumption]. intros a Ha. simpl in Ha. now rewrite Ha.
  - eapply Forall_impl; [|eassumption]. intros a Ha. simpl in Ha. rewrite Ha.
    apply orb_true_r.
  - constructor.
  - change (c :: s1 ++ s2) with ((c :: s1) ++ s2).
    apply Forall_app; split; assumption.
Qed.

(** A string with a character outside the alphabet is not matched. *)
Lemma fullmatch_outside (r : regex) (s : list ascii) (c : ascii) :
  In c s -> alphabet r c = false -> fullmatch r s = false.
Proof.
  intros Hin Ha. destruct (fullmatch r s) eqn:F; [|reflexivity].
  apply fullmatch_Matches, Matches_alphabet in F.
  rewrite Forall_forall in F. specialize (F c Hin). simpl in F. congruence.
Qed.

End ReFacts.

(** ** Laws of the effect monad *)

Module MFacts.

Lemma outcome_bind A B (m : M A) (k : A -> M B) :
  outcome (bind m k) =
  match outcome m with
  | Return a => outcome (k a)
  | Raise e => Raise e
  end.
Proof.
  destruct m as [log [a|e]]; simpl; [|reflexivity].
  now destruct (k a).
Qed.

Lemma events_bind A B (m : M A) (k : A -> M B) :
  events (bind m k) =
  match outcome m with
  | Return a => (events m ++ events (k a))%list
  | Raise e => events m
  end.
Proof.
  destruct m as [log [a|e]]; simpl; [|reflexivity].
  now destruct (k a).
Qed.

Lemma bind_ret A B (a : A) (k : A -> M B) : bind (ret a) k = k a.
Proof. unfold bind, ret. now destruct (k a). Qed.

Lemma bind_lift_Return A B (a : A) (k : A -> M B) :
  bind (lift (Return a)) k = k a.
Proof. apply bind_ret. Qed.

Lemma bind_raise A B (e : exn) (k : A -> M B) : bind (raise e) k = raise e.
Proof. reflexivity. Qed.

Lemma outcome_emit A (ev : event) (m : M A) :
  outcome (bind (emit ev) (fun _ => m)) = outcome m.
Proof. now rewrite outcome_bind. Qed.

Lemma events_emit A (ev : event) (m : M A) :
  events (bind (emit ev) (fun _ => m)) = ev :: events m.
Proof. now rewrite events_bind. Qed.

Lemma M_eq A (m : M A) : m = (events m, outcome m).
Proof. now destruct m. Qed.

End MFacts.

(** ** The result-building loop *)

Section LoopFacts.

Variable h3 : PyFloat.float -> PyFloat.float -> Z -> completion string.

Local Open Scope list_scope.

Lemma build_results_cons (loc : value) (rest : list value) (res : Z) acc :
  build_results h3 (loc :: rest) res acc =
  match convert h3 loc res with
  | Return r => build_results h3 rest res (acc ++ [r])
  | Raise e =>
      if is_ValueError e || is_KeyError e then
        emit (Print ("Skipping a location due to parsing error: " ++ str e)) ;;;
        build_results h3 rest res acc
      else raise e
  end.
Proof. reflexivity. Qed.

(** While no candidate aborts, the loop appends the converted ones. *)
Lemma build_results_no_abort (res : Z) (locs : list value) :
  forall acc,
    Forall (fun loc => aborts h3 loc res = false) locs ->
    outcome (build_results h3 locs res acc)
    = Return (acc ++ converted h3 locs res).
Proof.
  induction locs as [|loc rest IH]; intros acc Hall.
  - simpl. now rewrite app_nil_r.
  - inversion Hall as [|x l Hloc Hrest]; subst.
    rewrite build_results_cons. unfold aborts in Hloc.
    unfold converted. cbn [flat_map]. fold (converted h3 rest res).
    destruct (convert h3 loc res) as [r|e] eqn:C.
    + rewrite IH by assumption. now rewrite <- app_assoc.
    + apply negb_false_iff in Hloc. rewrite Hloc.
      rewrite MFacts.outcome_emit. now apply IH.
Qed.

(** The first candidate that aborts ends the loop with its exception. *)
Lemma build_results_abort (res : Z) (pre : list value) :
  forall acc bad post e,
    Forall (fun loc => aborts h3 loc res = false) pre ->
    convert h3 bad res = Raise e ->
    is_ValueError e || is_KeyError e = false ->
    outcome (build_results h3 (pre ++ bad :: post) res acc) = Raise e.
Proof.
  induction pre as [|loc rest IH]; intros acc bad post e Hall C Hne.
  - cbn [app]. rewrite build_results_cons. now rewrite C, Hne.
  - inversion Hall as [|x l Hloc Hrest]; subst.
    cbn [app]. rewrite build_results_cons. unfold aborts in Hloc.
    destruct (convert h3 loc res) as [r|e'] eqn:C'.
    + now apply IH.
    + apply negb_false_iff in Hloc. rewrite Hloc.
      rewrite MFacts.outcome_emit. now apply IH.
Qed.

(** The loop prints and does nothing else to the outside. *)
Lemma build_results_prints (res : Z) (locs : list value) :
  forall acc,
    Forall (fun ev => exists line, ev = Print line)
           (events (build_results h3 locs res acc)).
Proof.
  induction locs as [|loc rest IH]; intros acc.
  - constructor.
  - rewrite build_results_cons.
    destruct (convert h3 loc res) as [r|e]; [apply IH|].
    destruct (is_ValueError e || is_KeyError e); [|constructor].
    rewrite MFacts.events_emit.
    constructor; [eauto | apply IH].
Qed.

(** No converted result exactly when every candidate raises. *)
Lemma converted_nil (res : Z) (locs : list value) :
  converted h3 locs res = [] <->
  Forall (fun loc => exists e, convert h3 loc res = Raise e) locs.
Proof.
  unfold converted.
  induction locs as [|loc rest IH]; cbn [flat_map].
  - split; constructor.
  - destruct (convert h3 loc res) as [r|e] eqn:C.
    + split; [discriminate|]. intro H. inversion H as [|x l [e E] _]. congruence.
    + cbn [app]. rewrite IH. split; intro H.
      * constructor; eauto.
      * now inversion H.
Qed.

Lemma not_aborts_raise_skipped (res : Z) (loc : value) :
  aborts h3 loc res = false ->
  (exists e, convert h3 loc res = Raise e) ->
  skipped h3 loc res = true.
Proof.
  unfold aborts, skipped. intros Ha [e E].
  rewrite E in *. now apply negb_false_iff.
Qed.

End LoopFacts.

(** ** The stages of [fetch_geotags] *)

Section StageFacts.

Variable net : string -> http_outcome.
Variable h3 : PyFloat.float -> PyFloat.float -> Z -> completion string.

Local Open Scope list_scope.

Lemma chars_of_chars (l : list ascii) : chars (of_chars l) = l.
Proof. apply list_ascii_of_string_of_list_ascii. Qed.

Lemma float_of_chars_Some (s : list ascii) (f : PyFloat.float) :
  PyFloat.of_str s = Some f -> float_of_chars s = Return f.
Proof.
  intro H. unfold float_of_chars, Py.float. now rewrite chars_of_chars, H.
Qed.

Lemma float_of_chars_None (s : list ascii) :
  PyFloat.of_str s = None ->
  exists msg, float_of_chars s = Raise (Exn ValueError msg).
Proof.
  intro H. unfold float_of_chars, Py.float. rewrite chars_of_chars, H. eauto.
Qed.

(** Whatever the [try] of the coordinate branch raises is a
    [ValueError]. *)
Lemma coordinate_locations_raises (q : string) (e : exn) :
  coordinate_locations q = Raise e -> cls e = ValueError.
Proof.
  unfold coordinate_locations.
  destruct (split_on "," (chars q)) as [|a [|b [|c l]]];
    try (intro H; injection H as <-; reflexivity).
  destruct (PyFloat.of_str a) as [fa|] eqn:Ea.
  - rewrite (float_of_chars_Some _ _ Ea). cbn [rbind].
    destruct (PyFloat.of_str b) as [fb|] eqn:Eb.
    + rewrite (float_of_chars_Some _ _ Eb). discriminate.
    + destruct (float_of_chars_None _ Eb) as [msg ->].
      intro H; injection H as <-; reflexivity.
  - destruct (float_of_chars_None _ Ea) as [msg ->].
    intro H; injection H as <-; reflexivity.
Qed.

(** The coordinate branch: the one candidate, or
    [InvalidCoordinatesError]; nothing is sent. *)
Lemma candidate_locations_coordinates (q : string) :
  COORD_REGEX_match (of_chars (remove_char " " (chars q))) = true ->
  candidate_locations net q =
  match coordinate_locations q with
  | Return v => ([], Return v)
  | Raise _ => ([], Raise (Exn InvalidCoordinatesError invalid_coordinates_msg))
  end.
Proof.
  intro Hm. unfold candidate_locations. rewrite Hm.
  destruct (coordinate_locations q) as [v|e] eqn:C; [reflexivity|].
  apply coordinate_locations_raises in C.
  unfold try_except, lift, is_ValueError. now rewrite C.
Qed.

(** A query outside the grammar takes the address branch. *)
Lemma candidate_locations_address (q : string) :
  COORD_REGEX_match (of_chars (remove_char " " (chars q))) = false ->
  candidate_locations net q = geocode net q.
Proof. intro Hm. unfold candidate_locations. now rewrite Hm. Qed.

(** An exception under [httpx.RequestError] is not the refusal of the
    URL. *)
Lemma request_error_not_refused (k : httpx_class) (msg : string) :
  is_RequestError (Exn (Httpx k) msg) = true ->
  url_refused (GetRaises k msg) = false.
Proof. now destruct k. Qed.

Lemma geocode_raises (q : string) (k : httpx_class) (msg : string) :
  net (search_url q) = GetRaises k msg ->
  geocode net q =
  (if url_refused (GetRaises k msg) then [] else [the_request q],
   if is_RequestError (Exn (Httpx k) msg)
   then Raise (Exn GeocodingServiceError
                   ("Error connecting to geocoding service: " ++ msg))
   else Raise (Exn (Httpx k) msg)).
Proof.
  intro H. unfold geocode, client_get. rewrite H.
  destruct k; reflexivity.
Qed.

(** A URL the client refuses: [httpx.InvalidURL] leaves the branch as it
    is, and nothing was sent. *)
Lemma geocode_refused (q : string) :
  url_refused (net (search_url q)) = true ->
  exists msg,
    net (search_url q) = GetRaises InvalidURL msg /\
    geocode net q = ([], Raise (Exn (Httpx InvalidURL) msg)).
Proof.
  intro H. destruct (net (search_url q)) as [k msg|code json] eqn:E;
    [|discriminate].
  destruct k; try discriminate.
  exists msg. split; [reflexivity|].
  now rewrite (geocode_raises q _ _ E).
Qed.

Lemma geocode_status_error (q : string) (code : Z) (json : completion value) :
  net (search_url q) = GetResponse code json ->
  (200 <=? code) && (code <=? 299) = false ->
  exists msg,
    geocode net q = ([the_request q], Raise (Exn (Httpx HTTPStatusError) msg)).
Proof.
  intros H Hc. unfold geocode, client_get. rewrite H.
  cbn [bind emit ret fst snd app]. unfold raise_for_status. rewrite Hc.
  eexists. reflexivity.
Qed.

Lemma geocode_success (q : string) (code : Z) (v : value) :
  net (search_url q) = GetResponse code (Return v) ->
  (200 <=? code) && (code <=? 299) = true ->
  geocode net q = ([the_request q], Return v).
Proof.
  intros H Hc. unfold geocode, client_get. rewrite H.
  cbn [bind emit ret fst snd app]. unfold raise_for_status. now rewrite Hc.
Qed.

(** A response with status 2xx whose body [response.json()] fails on:
    the exception is wrapped when it is under [httpx.RequestError], and
    leaves the branch as it is otherwise. *)
Lemma geocode_json_raises (q : string) (code : Z) (e : exn) :
  net (search_url q) = GetResponse code (Raise e) ->
  (200 <=? code) && (code <=? 299) = true ->
  geocode net q =
  ([the_request q],
   if is_RequestError e
   then Raise (Exn GeocodingServiceError
                   ("Error connecting to geocoding service: " ++ str e))
   else Raise e).
Proof.
  intros H Hc. unfold geocode, client_get. rewrite H.
  cbn [bind emit ret fst snd app]. unfold raise_for_status. rewrite Hc.
  unfold try_except, bind, emit, ret, lift. cbn [app].
  now destruct (is_RequestError e).
Qed.

(** The events of the address branch are the one GET, whatever comes
    back, unless the client refuses the URL: then there is none. *)
Lemma geocode_events (q : string) :
  events (geocode net q)
  = if url_refused (net (search_url q)) then [] else [the_request q].
Proof.
  destruct (net (search_url q)) as [k msg|code json] eqn:E.
  - rewrite (geocode_raises q _ _ E). cbn [events fst].
    reflexivity.
  - unfold geocode, client_get. rewrite E.
    cbn [bind emit ret fst snd app url_refused]. unfold raise_for_status.
    destruct ((200 <=? code) && (code <=? 299)).
    + destruct json as [v|e]; [reflexivity|].
      unfold try_except, bind, emit, ret, lift. cbn [app].
      now destruct (is_RequestError e).
    + reflexivity.
Qed.

(** The stage after the branches, on a non-empty list of candidates. *)
Lemma index_locations_list (loc : value) (locs : list value) (res : Z) :
  outcome (index_locations h3 (VList (loc :: locs)) res) =
  match outcome (build_results h3 (loc :: locs) res []) with
  | Return [] => Raise (Exn NoResultsFoundError malformed_data_msg)
  | Return rs => Return rs
  | Raise e => Raise e
  end.
Proof.
  unfold index_locations. cbn [truthy negb iterate].
  rewrite MFacts.bind_lift_Return, MFacts.outcome_bind.
  destruct (outcome (build_results h3 (loc :: locs) res [])) as [[|r rs]|e];
    reflexivity.
Qed.

Lemma index_locations_events (v : value) (res : Z) :
  Forall (fun ev => exists line, ev = Print line)
         (events (index_locations h3 v res)).
Proof.
  unfold index_locations.
  destruct (negb (truthy v)); [constructor|].
  destruct (iterate v) as [locs|e]; [|constructor].
  rewrite MFacts.bind_lift_Return, MFacts.events_bind.
  pose proof (build_results_prints h3 res locs []) as P.
  destruct (outcome (build_results h3 locs res [])) as [[|r rs]|e];
    cbn [events fst raise ret]; rewrite ?app_nil_r; assumption.
Qed.

Lemma index_locations_falsy (v : value) (res : Z) :
  truthy v = false ->
  index_locations h3 v res = raise (Exn NoResultsFoundError no_results_msg).
Proof. intro H. unfold index_locations. now rewrite H. Qed.

End StageFacts.

(** ** What the coordinate grammar guarantees *)

Module GrammarFacts.

Local Open Scope list_scope.

Lemma in_range_bounds (lo hi c : ascii) :
  in_range lo hi c = true <-> code lo <= code c <= code hi.
Proof.
  unfold in_range. rewrite andb_true_iff, !Z.leb_le. tauto.
Qed.

Lemma Chr_eq (a c : ascii) : Ascii.eqb a c = true <-> c = a.
Proof. rewrite Ascii.eqb_eq. split; congruence. Qed.

Lemma Matches_Chr_inv (a : ascii) (s : list ascii) :
  Matches (Chr a) s -> s = [a].
Proof.
  intro H. apply ReFacts.Matches_Cls_inv in H as (c & -> & Hc).
  apply Chr_eq in Hc. now subst.
Qed.

Lemma Matches_Opt_inv (r : regex) (s : list ascii) :
  Matches (Opt r) s -> Matches r s \/ s = [].
Proof.
  intro H. apply ReFacts.Matches_Alt_inv in H as [H|H]; [now left|].
  right. now apply ReFacts.Matches_Eps_inv.
Qed.

(** [p*] matches the strings of characters of [p]. *)
Lemma Matches_Star_Cls (p : ascii -> bool) (s : list ascii) :
  Matches (Star (Cls p)) s <-> Forall (fun c => p c = true) s.
Proof.
  split.
  - intro H. remember (Star (Cls p)) as r eqn:E.
    induction H as [| | | | | |r c s1 s2 H1 _ H2 IH]; try discriminate.
    + constructor.
    + injection E as ->.
      apply ReFacts.Matches_Cls_inv in H1 as (c' & E1 & Hc).
      injection E1 as Ec Es. subst c' s1. constructor; [assumption|]. now apply IH.
  - induction 1 as [|c l Hc _ IH]; [constructor|].
    apply (MStarS (Cls p) c [] l); [now constructor | assumption].
Qed.

(** [p{n}] and [p{0,n}] *)
Lemma Matches_Times_Cls (p : ascii -> bool) (n : nat) :
  forall s, Matches (Times n (Cls p)) s ->
            List.length s = n /\ Forall (fun c => p c = true) s.
Proof.
  induction n as [|n IH]; intros s H; cbn [Times] in H.
  - apply ReFacts.Matches_Eps_inv in H as ->. split; [reflexivity|constructor].
  - apply ReFacts.Matches_Cat_inv in H as (s1 & s2 & -> & H1 & H2).
    apply ReFacts.Matches_Cls_inv in H1 as (c & -> & Hc).
    apply IH in H2 as [L F]. cbn. split; [now rewrite L | now constructor].
Qed.

Lemma Matches_UpTo_Cls (p : ascii -> bool) (n : nat) :
  forall s, Matches (UpTo n (Cls p)) s ->
            (List.length s <= n)%nat /\ Forall (fun c => p c = true) s.
Proof.
  induction n as [|n IH]; intros s H; cbn [UpTo] in H.
  - apply ReFacts.Matches_Eps_inv in H as ->. split; [reflexivity|constructor].
  - apply Matches_Opt_inv in H as [H| ->]; [|split; [cbn; lia|constructor]].
    apply ReFacts.Matches_Cat_inv in H as (s1 & s2 & -> & H1 & H2).
    apply ReFacts.Matches_Cls_inv in H1 as (c & -> & Hc).
    apply IH in H2 as [L F]. cbn. split; [lia | now constructor].
Qed.

Lemma Matches_Rep_Cls (p : ascii -> bool) (lo hi : nat) (s : list ascii) :
  (lo <= hi)%nat ->
  Matches (Rep lo hi (Cls p)) s ->
  (lo <= List.length s <= hi)%nat /\ Forall (fun c => p c = true) s.
Proof.
  intros Hle H. unfold Rep in H.
  apply ReFacts.Matches_Cat_inv in H as (s1 & s2 & -> & H1 & H2).
  apply Matches_Times_Cls in H1 as [L1 F1].
  apply Matches_UpTo_Cls in H2 as [L2 F2].
  rewrite length_app. split; [lia | now apply Forall_app].
Qed.

(** The fractional part: the point and 1 to 15 digits. *)
Lemma frac_part_shape (s : list ascii) :
  Matches frac_part s ->
  exists fp, s = "."%char :: fp /\
             (1 <= List.length fp <= 15)%nat /\
             Forall (fun c => is_digit c = true) fp.
Proof.
  intro H. unfold frac_part in H.
  apply ReFacts.Matches_Cat_inv in H as (s1 & s2 & -> & H1 & H2).
  cbn [Times] in H1.
  apply ReFacts.Matches_Cat_inv in H1 as (a & b & -> & Ha & Hb).
  apply Matches_Chr_inv in Ha as ->.
  apply ReFacts.Matches_Eps_inv in Hb as ->.
  apply Matches_Rep_Cls in H2 as [L F]; [|lia].
  exists s2. cbn. tauto.
Qed.

Ltac class_bounds :=
  repeat match goal with
         | H : Matches (Cls _) _ |- _ =>
             let c := fresh "c" in
             let Hc := fresh "Hc" in
             apply ReFacts.Matches_Cls_inv in H as (c & -> & Hc)
         | H : Matches (Chr _) _ |- _ => apply Matches_Chr_inv in H as ->
         | H : in_range _ _ _ = true |- _ =>
             apply in_range_bounds in H; cbn in H
         end.

Ltac split_cat :=
  repeat match goal with
         | H : Matches (Cat _ _) _ |- _ =>
             let s1 := fresh "s" in
             let s2 := fresh "s" in
             apply ReFacts.Matches_Cat_inv in H as (s1 & s2 & -> & ? & ?)
         | H : Matches (Opt _) _ |- _ =>
             apply Matches_Opt_inv in H as [H| ->]
         | H : Matches (Alt _ _) _ |- _ =>
             apply ReFacts.Matches_Alt_inv in H as [H|H]
         end.

Lemma is_digit_bounds (c : ascii) : is_digit c = true <-> 48 <= code c <= 57.
Proof. unfold is_digit. now rewrite in_range_bounds. Qed.

Ltac norm_codes :=
  change (code "0") with 48 in *; change (code "1") with 49 in *;
  change (code "7") with 55 in *; change (code "8") with 56 in *;
  change (code "9") with 57 in *.

Ltac digits_solve :=
  norm_codes;
  unfold digits_upto, PyFloat.digits_val, PyFloat.digit_val;
  cbn [app fold_left List.length];
  change (is_digit "0") with true; change (is_digit "1") with true;
  repeat match goal with
         | |- context [is_digit ?c] =>
             let H := fresh in
             assert (H : is_digit c = true) by (apply is_digit_bounds; lia);
             rewrite !H
         end;
  norm_codes;
  repeat split;
  try (repeat constructor; first [reflexivity | apply is_digit_bounds; lia]);
  try lia.

(** The integer part of the latitude is one of 0..90. *)
Lemma lat_int_shape (s : list ascii) :
  Matches lat_int s -> digits_upto 90 2 s.
Proof.
  intro H. unfold lat_int in H. split_cat; class_bounds; subst; digits_solve.
Qed.

(** The integer part of the longitude is one of 0..180. *)
Lemma lon_int_shape (s : list ascii) :
  Matches lon_int s -> digits_upto 180 3 s.
Proof.
  intro H. unfold lon_int in H. split_cat; class_bounds; subst; digits_solve.
Qed.

Lemma Matches_sign (s : list ascii) :
  Matches (Opt (Chr "-")) s -> exists neg, s = sign_chars neg.
Proof.
  intro H. apply Matches_Opt_inv in H as [H| ->].
  - apply Matches_Chr_inv in H as ->. now exists true.
  - now exists false.
Qed.

Lemma lat_re_shape (s : list ascii) : Matches lat_re s -> decimal_of 90 2 s.
Proof.
  intro H. unfold lat_re in H.
  apply ReFacts.Matches_Cat_inv in H as (s1 & s2 & -> & H1 & H2).
  apply ReFacts.Matches_Cat_inv in H2 as (s3 & s4 & -> & H3 & H4).
  apply Matches_sign in H1 as [neg ->].
  apply lat_int_shape in H3.
  apply frac_part_shape in H4 as (fp & -> & L & F).
  now exists neg, s3, fp.
Qed.

Lemma lon_re_shape (s : list ascii) : Matches lon_re s -> decimal_of 180 3 s.
Proof.
  intro H. unfold lon_re in H.
  apply ReFacts.Matches_Cat_inv in H as (s1 & s2 & -> & H1 & H2).
  apply ReFacts.Matches_Cat_inv in H2 as (s3 & s4 & -> & H3 & H4).
  apply Matches_sign in H1 as [neg ->].
  apply lon_int_shape in H3.
  apply frac_part_shape in H4 as (fp & -> & L & F).
  now exists neg, s3, fp.
Qed.

(** What [COORD_REGEX] accepts: a decimal with an integer part of at most
    90, whitespace, a comma, whitespace, a decimal with an integer part of
    at most 180; both with 1 to 15 fractional digits. *)
Theorem coord_regex_shape (s : list ascii) :
  Matches COORD_REGEX_body s ->
  exists lat w1 w2 lon,
    s = lat ++ w1 ++ ","%char :: w2 ++ lon /\
    decimal_of 90 2 lat /\
    Forall (fun c => is_space c = true) w1 /\
    Forall (fun c => is_space c = true) w2 /\
    decimal_of 180 3 lon.
Proof.
  intro H. unfold COORD_REGEX_body, comma_re in H.
  apply ReFacts.Matches_Cat_inv in H as (lat & s2 & -> & Hlat & H2).
  apply ReFacts.Matches_Cat_inv in H2 as (s3 & lon & -> & H3 & Hlon).
  apply ReFacts.Matches_Cat_inv in H3 as (w1 & s4 & -> & Hw1 & H4).
  apply ReFacts.Matches_Cat_inv in H4 as (c & w2 & -> & Hc & Hw2).
  apply Matches_Chr_inv in Hc as ->.
  apply Matches_Star_Cls in Hw1, Hw2.
  apply lat_re_shape in Hlat. apply lon_re_shape in Hlon.
  exists lat, w1, w2, lon. repeat split; try assumption.
  now rewrite <- !app_assoc.
Qed.

(** The anchored match, in terms of the language. *)
Lemma match_anchored_Matches (r : regex) (s : list ascii) :
  match_anchored r s = true <->
  Matches r s \/ exists p, s = p ++ [newline] /\ Matches r p.
Proof.
  unfold match_anchored. rewrite orb_true_iff, ReFacts.fullmatch_Matches.
  split; (intros [H|H]; [now left | right]).
  - destruct (rev s) as [|c p] eqn:E; [discriminate|].
    apply andb_true_iff in H as [Hc Hp].
    apply Ascii.eqb_eq in Hc as ->. apply ReFacts.fullmatch_Matches in Hp.
    exists (rev p). split; [|assumption].
    rewrite <- (rev_involutive s), E. reflexivity.
  - destruct H as (p & -> & Hp). rewrite rev_app_distr. cbn [rev app].
    rewrite Ascii.eqb_refl, rev_involutive. cbn [andb].
    now apply ReFacts.fullmatch_Matches.
Qed.

(** *** One comma, two parts *)

Lemma split_on_length (sep : ascii) (l : list ascii) :
  List.length (split_on sep l) = S (List.length (filter (Ascii.eqb sep) l)).
Proof.
  induction l as [|c l IH]; [reflexivity|].
  cbn [split_on filter]. rewrite (Ascii.eqb_sym sep c).
  destruct (Ascii.eqb c sep); cbn [List.length]; [now rewrite IH|].
  destruct (split_on sep l); [discriminate | exact IH].
Qed.

Lemma commas_remove_spaces (l : list ascii) :
  commas (remove_char " " l) = commas l.
Proof.
  unfold commas, remove_char. induction l as [|c l IH]; [reflexivity|].
  cbn [filter]. destruct (Ascii.eqb c " ") eqn:E; cbn [negb filter].
  - apply Ascii.eqb_eq in E as ->. exact IH.
  - now rewrite IH.
Qed.

Lemma commas_none (p : ascii -> bool) (l : list ascii) :
  p ","%char = false ->
  Forall (fun c => p c = true) l -> commas l = [].
Proof.
  intros Hp F. unfold commas. induction F as [|c l Hc _ IH]; [reflexivity|].
  cbn [filter]. destruct (Ascii.eqb_spec "," c) as [<-|_]; [congruence|exact IH].
Qed.

Lemma commas_decimal (bound : Z) (maxlen : nat) (s : list ascii) :
  decimal_of bound maxlen s -> commas s = [].
Proof.
  intros (neg & ip & fp & -> & (Fi & _) & _ & Ff).
  unfold commas. rewrite !filter_app. cbn [filter].
  change (Ascii.eqb "," ".") with false.
  fold (commas ip) (commas fp).
  rewrite (commas_none is_digit ip), (commas_none is_digit fp) by easy.
  now destruct neg.
Qed.

Lemma commas_coord (s : list ascii) :
  Matches COORD_REGEX_body s -> commas s = [","%char].
Proof.
  intro H. apply coord_regex_shape in H as (lat & w1 & w2 & lon & -> & Hlat & F1 & F2 & Hlon).
  unfold commas. rewrite !filter_app. cbn [filter]. rewrite !filter_app.
  fold (commas lat) (commas w1) (commas w2) (commas lon).
  rewrite (commas_decimal _ _ _ Hlat), (commas_decimal _ _ _ Hlon).
  now rewrite (commas_none is_space w1), (commas_none is_space w2).
Qed.

(** A query that takes the coordinate branch splits into exactly two
    parts: the unpacking of [q.split(',')] cannot fail. *)
Theorem coordinate_branch_two_parts (q : string) :
  COORD_REGEX_match (of_chars (remove_char " " (chars q))) = true ->
  exists lat_str lon_str, split_on "," (chars q) = [lat_str; lon_str].
Proof.
  unfold COORD_REGEX_match. rewrite chars_of_chars. intro H.
  assert (L : List.length (split_on "," (chars q)) = 2%nat).
  { rewrite split_on_length. fold (commas (chars q)).
    rewrite <- commas_remove_spaces.
    apply match_anchored_Matches in H as [H | (p & E & H)].
    - now rewrite (commas_coord _ H).
    - rewrite E. unfold commas. rewrite filter_app. fold (commas p).
      now rewrite (commas_coord _ H). }
  destruct (split_on "," (chars q)) as [|a [|b [|c l]]]; try discriminate.
  now exists a, b.
Qed.

(** *** Removing the spaces of a matching query *)

Lemma Matches_Star_app (r : regex) (t u : list ascii) :
  Matches r t -> Matches (Star r) u -> Matches (Star r) (t ++ u).
Proof.
  intros Ht Hu. destruct t as [|c t]; [exact Hu|].
  now apply MStarS.
Qed.

Lemma remove_spaces_Matches (r : regex) (s : list ascii) :
  Matches r s -> spaces_removable r = true -> Matches r (remove_char " " s).
Proof.
  unfold remove_char.
  induction 1 as [|p c Hc|r1 r2 s1 s2 _ IH1 _ IH2|r1 r2 s _ IH|r1 r2 s _ IH
                 | r | r c s1 s2 H1 IH1 H2 IH2]; cbn [spaces_removable]; intro Hr.
  - constructor.
  - cbn [filter]. destruct (Ascii.eqb_spec c " ") as [->|_]; cbn [negb].
    + rewrite Hc in Hr. discriminate.
    + now constructor.
  - apply andb_true_iff in Hr as [Hr1 Hr2]. rewrite filter_app.
    constructor; auto.
  - apply andb_true_iff in Hr as [Hr1 Hr2]. apply MAltL; auto.
  - apply andb_true_iff in Hr as [Hr1 Hr2]. apply MAltR; auto.
  - constructor.
  - change (c :: s1 ++ s2) with ((c :: s1) ++ s2). rewrite filter_app.
    destruct r as [| |p| | |]; try (apply Matches_Star_app; auto; fail).
    apply Matches_Star_Cls. apply Forall_app. split.
    + apply ReFacts.Matches_Cls_inv in H1 as (c' & E & Hc).
      injection E as Ec Es. subst c' s1.
      cbn [filter]. destruct (negb (Ascii.eqb c " ")); repeat constructor.
      assumption.
    + apply Matches_Star_Cls in H2.
      rewrite Forall_forall in *. intros x Hx.
      apply filter_In in Hx as [Hx _]. auto.
Qed.

(** A query that matches the grammar as it is still matches once its
    spaces are removed: it takes the coordinate branch. *)
Theorem matching_query_takes_coordinate_branch (q : string) :
  COORD_REGEX_match q = true ->
  COORD_REGEX_match (of_chars (remove_char " " (chars q))) = true.
Proof.
  unfold COORD_REGEX_match. rewrite chars_of_chars.
  rewrite !match_anchored_Matches.
  intros [H | (p & E & H)].
  - left. now apply remove_spaces_Matches.
  - right. exists (remove_char " " p). split.
    + rewrite E. unfold remove_char. now rewrite filter_app.
    + now apply remove_spaces_Matches.
Qed.

End GrammarFacts.

(** ** What every returned result satisfies *)

Section ResultFacts.

Variable net : string -> http_outcome.
Variable h3 : PyFloat.float -> PyFloat.float -> Z -> completion string.

Local Open Scope list_scope.

(** A converted candidate carries the cell of its own coordinates. *)
Lemma convert_geotag (loc : value) (res : Z) (r : GeoTagResult) :
  convert h3 loc res = Return r ->
  h3 (latitude r) (longitude r) res = Return (geotag r).
Proof.
  unfold convert.
  destruct (subscript loc "lat") as [lat_v|]; [|discriminate]. cbn [rbind].
  destruct (Py.float lat_v) as [lat|]; [|discriminate]. cbn [rbind].
  destruct (subscript loc "lon") as [lon_v|]; [|discriminate]. cbn [rbind].
  destruct (Py.float lon_v) as [lon|]; [|discriminate]. cbn [rbind].
  destruct (h3 lat lon res) as [cell|] eqn:H; [|discriminate]. cbn [rbind].
  destruct (get loc "display_name" (VStr "N/A")) as [a|]; [|discriminate].
  cbn [rbind]. unfold GeoTagResult_new.
  destruct a; try discriminate.
  intro E. injection E as <-. exact H.
Qed.

(** The loop keeps what holds of the results built so far and of every
    converted candidate. *)
Lemma build_results_Forall (P : GeoTagResult -> Prop) (res : Z) :
  (forall loc r, convert h3 loc res = Return r -> P r) ->
  forall locs acc rs,
    Forall P acc ->
    outcome (build_results h3 locs res acc) = Return rs ->
    Forall P rs.
Proof.
  intros HP. induction locs as [|loc rest IH]; intros acc rs Hacc.
  - cbn. intro E. injection E as <-. assumption.
  - rewrite build_results_cons.
    destruct (convert h3 loc res) as [r|e] eqn:C.
    + apply IH. apply Forall_app. split; [assumption|].
      constructor; [eauto | constructor].
    + destruct (is_ValueError e || is_KeyError e); [|discriminate].
      rewrite MFacts.outcome_emit. now apply IH.
Qed.

(** A list [fetch_geotags] returns was built by the loop, is not empty,
    and came from candidates that were obtained. *)
Lemma fetch_geotags_Return (q : string) (res : Z) (rs : list GeoTagResult) :
  outcome (fetch_geotags net h3 q res) = Return rs ->
  exists v locs,
    outcome (candidate_locations net q) = Return v /\
    truthy v = true /\
    iterate v = Return locs /\
    outcome (build_results h3 locs res []) = Return rs /\
    rs <> [].
Proof.
  unfold fetch_geotags. rewrite MFacts.outcome_bind.
  destruct (outcome (candidate_locations net q)) as [v|e]; [|discriminate].
  unfold index_locations.
  destruct (truthy v) eqn:T; cbn [negb]; [|discriminate].
  destruct (iterate v) as [locs|e] eqn:I; [|discriminate].
  rewrite MFacts.bind_lift_Return, MFacts.outcome_bind.
  destruct (outcome (build_results h3 locs res [])) as [[|r rs']|e] eqn:B;
    try discriminate.
  intro E. injection E as <-.
  exists v, locs. repeat split; try assumption; try reflexivity. discriminate.
Qed.

Lemma fetch_geotags_geotag (q : string) (res : Z) (rs : list GeoTagResult) :
  outcome (fetch_geotags net h3 q res) = Return rs ->
  Forall (fun r => h3 (latitude r) (longitude r) res = Return (geotag r)) rs.
Proof.
  intro H. apply fetch_geotags_Return in H as (v & locs & _ & _ & _ & B & _).
  eapply build_results_Forall; [|constructor|exact B].
  intros loc r. apply convert_geotag.
Qed.

(** On the coordinate branch the resolver is the same function whatever
    the service would answer. *)
Lemma fetch_geotags_coordinates (q : string) (res : Z) :
  COORD_REGEX_match (of_chars (remove_char " " (chars q))) = true ->
  fetch_geotags net h3 q res =
  match coordinate_locations q with
  | Return v => index_locations h3 v res
  | Raise _ => ([], Raise (Exn InvalidCoordinatesError invalid_coordinates_msg))
  end.
Proof.
  intro Hm. unfold fetch_geotags.
  rewrite (candidate_locations_coordinates net q Hm).
  destruct (coordinate_locations q) as [v|e]; [|reflexivity].
  apply MFacts.bind_ret.
Qed.

End ResultFacts.

(** ** The claims on the coordinate branch *)

Section CoordinateBranch.

Variable net : string -> http_outcome.
Variable h3 : PyFloat.float -> PyFloat.float -> Z -> completion string.

(** C1. For a query that matches the coordinate grammar (its spaces
    removed, as the code tests it) and whose two comma-separated parts
    [float] converts, [fetch_geotags] returns exactly one result: its
    latitude and longitude are the two floats, its address is
    ["Coordinates: "] followed by the two values formatted with [.6f],
    and its geotag is the cell [h3.latlng_to_cell] gives for the
    latitude, the longitude and the resolution. No request is sent. *)
Theorem coordinate_query_one_result
    (q : string) (res : Z) (lat_str lon_str : list ascii)
    (lat lon : PyFloat.float) (cell : string) :
  COORD_REGEX_match (of_chars (remove_char " " (chars q))) = true ->
  split_on "," (chars q) = [lat_str; lon_str] ->
  PyFloat.of_str lat_str = Some lat ->
  PyFloat.of_str lon_str = Some lon ->
  h3 lat lon res = Return cell ->
  exists r,
    fetch_geotags net h3 q res = ([], Return [r]) /\
    latitude r = lat /\ longitude r = lon /\
    address r = "Coordinates: " ++ of_chars (PyFloat.format_6f lat) ++ ", "
                ++ of_chars (PyFloat.format_6f lon) /\
    h3 (latitude r) (longitude r) res = Return (geotag r).
Proof.
  intros Hm Hs Hlat Hlon Hcell.
  exists (mkGeoTagResult (coordinates_label lat lon) lat lon cell).
  split; [|repeat split; assumption].
  rewrite (fetch_geotags_coordinates net h3 q res Hm).
  unfold coordinate_locations. rewrite Hs.
  rewrite (float_of_chars_Some _ _ Hlat), (float_of_chars_Some _ _ Hlon).
  cbn [rbind]. unfold index_locations. cbn [truthy negb iterate].
  rewrite MFacts.bind_lift_Return, build_results_cons.
  unfold convert. cbn. rewrite Hcell. reflexivity.
Qed.

(** [float] rejects a string in which a SPACE is left after stripping:
    the grammar has no SPACE. *)
Lemma of_str_space_inside (part : list ascii) :
  space_inside part -> PyFloat.of_str part = None.
Proof.
  unfold space_inside, PyFloat.of_str. intro Hin.
  rewrite (ReFacts.fullmatch_outside PyFloat.floatvalue _ _ Hin); reflexivity.
Qed.

Lemma coordinate_locations_space_inside (q : string) (part : list ascii) :
  In part (split_on "," (chars q)) ->
  space_inside part ->
  exists e, coordinate_locations q = Raise e.
Proof.
  intros Hin Hsp. apply of_str_space_inside in Hsp.
  unfold coordinate_locations.
  destruct (split_on "," (chars q)) as [|a [|b [|c l]]]; eauto.
  destruct (PyFloat.of_str a) as [fa|] eqn:Ea.
  - rewrite (float_of_chars_Some _ _ Ea). cbn [rbind].
    destruct Hin as [<-|[<-|[]]]; [congruence|].
    destruct (float_of_chars_None _ Hsp) as [msg ->]. cbn [rbind]. eauto.
  - destruct (float_of_chars_None _ Ea) as [msg ->]. cbn [rbind]. eauto.
Qed.

(** C10. The grammar is tested on the query with every space removed,
    [float] runs on the comma-split parts of the query as it is: when the
    space-free form matches and a part has a space inside the number, the
    coordinate branch is taken and [InvalidCoordinatesError] is raised;
    the query is not geocoded as an address (no request is sent). *)
Theorem inner_space_raises_invalid_coordinates
    (q : string) (res : Z) (part : list ascii) :
  COORD_REGEX_match (of_chars (remove_char " " (chars q))) = true ->
  In part (split_on "," (chars q)) ->
  space_inside part ->
  fetch_geotags net h3 q res =
  ([], Raise (Exn InvalidCoordinatesError
                  "Invalid coordinate format. Use 'latitude,longitude'.")).
Proof.
  intros Hm Hin Hsp.
  rewrite (fetch_geotags_coordinates net h3 q res Hm).
  destruct (coordinate_locations_space_inside q part Hin Hsp) as [e ->].
  reflexivity.
Qed.

End CoordinateBranch.

(** ** Stripping *)

Module StripFacts.

Local Open Scope list_scope.

Section Strip.

Variable sp : ascii -> bool.

Lemma lstrip_by_spaces (w l : list ascii) :
  Forall (fun c => sp c = true) w -> lstrip_by sp (w ++ l) = lstrip_by sp l.
Proof.
  induction 1 as [|c w Hc _ IH]; [reflexivity|].
  cbn [app lstrip_by]. now rewrite Hc.
Qed.

Lemma lstrip_by_head (x : ascii) (t : list ascii) :
  sp x = false -> lstrip_by sp (x :: t) = x :: t.
Proof. intro H. cbn [lstrip_by]. now rewrite H. Qed.

(** A core that begins and ends with characters that are not stripped
    is what remains of it and the spaces around it. *)
Lemma strip_by_core (w1 w2 init : list ascii) (x y : ascii) (t : list ascii) :
  Forall (fun c => sp c = true) w1 ->
  Forall (fun c => sp c = true) w2 ->
  x :: t = init ++ [y] ->
  sp x = false -> sp y = false ->
  strip_by sp (w1 ++ (x :: t) ++ w2) = x :: t.
Proof.
  intros F1 F2 E Hx Hy. unfold strip_by.
  rewrite (lstrip_by_spaces _ _ F1). cbn [app]. rewrite (lstrip_by_head _ _ Hx).
  change (x :: t ++ w2) with ((x :: t) ++ w2).
  rewrite rev_app_distr, lstrip_by_spaces by (now apply Forall_rev).
  rewrite E, rev_app_distr. cbn [rev app].
  rewrite (lstrip_by_head _ _ Hy).
  change (y :: rev init) with ([y] ++ rev init).
  rewrite rev_app_distr, rev_involutive. reflexivity.
Qed.

(** What [lstrip_by] removes are spaces, and what it leaves does not
    begin with one. *)
Lemma lstrip_by_decompose (l : list ascii) :
  exists w, l = w ++ lstrip_by sp l /\ Forall (fun c => sp c = true) w /\
            match lstrip_by sp l with
            | [] => True
            | x :: _ => sp x = false
            end.
Proof.
  induction l as [|c l (w & E & F & H)].
  - exists []. repeat split. constructor.
  - cbn [lstrip_by]. destruct (sp c) eqn:Hc.
    + exists (c :: w). cbn [app]. rewrite <- E. repeat split; [|assumption].
      now constructor.
    + exists []. repeat split; [constructor | assumption].
Qed.

(** The same for [strip_by]. *)
Lemma strip_by_decompose (l : list ascii) :
  exists w1 w2,
    l = w1 ++ strip_by sp l ++ w2 /\
    Forall (fun c => sp c = true) w1 /\
    Forall (fun c => sp c = true) w2 /\
    (strip_by sp l = [] \/
     exists x t init y,
       strip_by sp l = x :: t /\ x :: t = init ++ [y] /\
       sp x = false /\ sp y = false).
Proof.
  destruct (lstrip_by_decompose l) as (w1 & E1 & F1 & H1).
  destruct (lstrip_by_decompose (rev (lstrip_by sp l))) as (u & E2 & F2 & H2).
  unfold strip_by.
  set (m := lstrip_by sp l) in *.
  set (k := lstrip_by sp (rev m)) in *.
  assert (Em : m = rev k ++ rev u).
  { rewrite <- rev_app_distr, <- E2. now rewrite rev_involutive. }
  exists w1, (rev u). split; [now rewrite <- Em|].
  split; [assumption|]. split; [now apply Forall_rev|].
  destruct k as [|y k']; [now left|]. right.
  cbn [rev]. destruct (rev k' ++ [y]) as [|x t] eqn:Ek;
    [now destruct (rev k')|].
  exists x, t, (rev k'), y. repeat split; try assumption.
  - now rewrite Ek.
  - rewrite Em in H1. cbn [rev] in H1. rewrite Ek in H1. exact H1.
Qed.

End Strip.

End StripFacts.

(** ** When the coordinate branch converts its two parts *)

Module ConvertFacts.

Import GrammarFacts StripFacts.
Local Open Scope list_scope.

(** *** Decimals of the grammar are in the grammar of [float] *)

Lemma Matches_digit_tail (l : list ascii) :
  Forall (fun c => is_digit c = true) l ->
  Matches (Star (Cat (Opt (Chr "_")) (Cls is_digit))) l.
Proof.
  induction 1 as [|c l Hc _ IH]; [constructor|].
  apply (MStarS _ c [] l); [|exact IH].
  apply ReFacts.Matches_Cat_nil; [apply MAltR; constructor | now constructor].
Qed.

Lemma Matches_digitpart (l : list ascii) :
  l <> [] ->
  Forall (fun c => is_digit c = true) l ->
  Matches PyFloat.digitpart l.
Proof.
  intros Hne F. destruct l as [|c l]; [congruence|].
  inversion F as [|? ? Hc Hl]; subst.
  unfold PyFloat.digitpart. change (c :: l) with ([c] ++ l).
  constructor; [now constructor | now apply Matches_digit_tail].
Qed.

Lemma length_nonempty (A : Type) (l : list A) : (1 <= List.length l)%nat -> l <> [].
Proof. destruct l; cbn; [lia | discriminate]. Qed.

Lemma decimal_is_float (bound : Z) (maxlen : nat) (s : list ascii) :
  decimal_of bound maxlen s -> fullmatch PyFloat.floatvalue s = true.
Proof.
  intros (neg & ip & fp & -> & (Fi & Li & _) & Lf & Ff).
  apply ReFacts.fullmatch_Matches. unfold PyFloat.floatvalue.
  constructor.
  - destruct neg; cbn [sign_chars]; [apply MAltL; now constructor | apply MAltR; constructor].
  - apply MAltL. unfold PyFloat.floatnumber.
    rewrite <- (app_nil_r (ip ++ "."%char :: fp)).
    constructor; [|apply MAltR; constructor].
    unfold PyFloat.number. apply MAltL. constructor.
    + apply MAltL. apply Matches_digitpart; [apply length_nonempty; lia | assumption].
    + change ("."%char :: fp) with (["."%char] ++ fp). constructor.
      * now constructor.
      * apply Matches_digitpart; [apply length_nonempty; lia | assumption].
Qed.

(** *** Decimals begin and end with characters [float] does not strip *)

Lemma digit_not_float_space (c : ascii) :
  is_digit c = true -> PyFloat.is_float_space c = false.
Proof.
  intro H. apply is_digit_bounds in H. unfold PyFloat.is_float_space. cbv zeta.
  rewrite !orb_false_iff, andb_false_iff, !Z.eqb_neq, !Z.leb_gt. lia.
Qed.

Lemma last_of_nonempty (A : Type) (l : list A) :
  l <> [] -> exists init y, l = init ++ [y].
Proof.
  intro H. destruct (exists_last H) as (init & y & ->). eauto.
Qed.

Lemma decimal_ends (bound : Z) (maxlen : nat) (s : list ascii) :
  decimal_of bound maxlen s ->
  exists x t init y,
    s = x :: t /\ x :: t = init ++ [y] /\
    PyFloat.is_float_space x = false /\ PyFloat.is_float_space y = false.
Proof.
  intros (neg & ip & fp & -> & (Fi & Li & _) & Lf & Ff).
  destruct (last_of_nonempty _ fp) as (fi & y & ->); [apply length_nonempty; lia|].
  apply Forall_app in Ff as [_ Fy]. inversion Fy as [|? ? Hy _]; subst.
  destruct ip as [|d ip]; [cbn in Li; lia|].
  inversion Fi as [|? ? Hd _]; subst.
  destruct neg; cbn [sign_chars app].
  - exists "-"%char, (d :: ip ++ "."%char :: fi ++ [y]),
      ("-"%char :: d :: ip ++ "."%char :: fi), y.
    repeat split; [|now apply digit_not_float_space].
    cbn [app]. now rewrite <- !app_assoc.
  - exists d, (ip ++ "."%char :: fi ++ [y]), (d :: ip ++ "."%char :: fi), y.
    repeat split; try now apply digit_not_float_space.
    cbn [app]. now rewrite <- !app_assoc.
Qed.

(** *** A part without a space inside is the decimal it was matched as *)

Lemma remove_char_keeps (l : list ascii) :
  ~ In " "%char l -> remove_char " " l = l.
Proof.
  unfold remove_char. induction l as [|c l IH]; [reflexivity|].
  intro H. cbn [filter].
  destruct (Ascii.eqb_spec c " ") as [->|_]; cbn [negb].
  - exfalso. apply H. now left.
  - f_equal. apply IH. intro Hin. apply H. now right.
Qed.

Lemma remove_char_spaces (sp : ascii -> bool) (l : list ascii) :
  Forall (fun c => sp c = true) l ->
  Forall (fun c => sp c = true) (remove_char " " l).
Proof.
  intro F. rewrite Forall_forall in *. intros c Hc.
  apply filter_In in Hc as [Hc _]. auto.
Qed.

Lemma part_converts (bound : Z) (maxlen : nat) (p w1 core w2 : list ascii) :
  remove_char " " p = w1 ++ core ++ w2 ->
  decimal_of bound maxlen core ->
  Forall (fun c => PyFloat.is_float_space c = true) w1 ->
  Forall (fun c => PyFloat.is_float_space c = true) w2 ->
  ~ space_inside p ->
  PyFloat.of_str p = Some (PyFloat.value core).
Proof.
  intros E Hd F1 F2 Hns. unfold space_inside in Hns. unfold PyFloat.of_str.
  destruct (strip_by_decompose PyFloat.is_float_space p)
    as (u & v & Ep & Fu & Fv & Hcore).
  set (t := strip_by PyFloat.is_float_space p) in *.
  destruct (decimal_ends _ _ _ Hd) as (x & tl & init & y & Ec & Ei & Hx & Hy).
  assert (Et : strip_by PyFloat.is_float_space (remove_char " " p) = core).
  { rewrite E, Ec. now apply (strip_by_core _ w1 w2 init x y tl). }
  assert (Er : remove_char " " p
               = remove_char " " u ++ t ++ remove_char " " v).
  { rewrite Ep at 1. unfold remove_char. rewrite !filter_app.
    fold (remove_char " " t). now rewrite (remove_char_keeps t Hns). }
  assert (Etc : t = core).
  { destruct Hcore as [Hnil | (x' & t' & init' & y' & Et' & Ei' & Hx' & Hy')].
    - exfalso. rewrite Hnil in Er. cbn [app] in Er.
      assert (Fall : Forall (fun c => PyFloat.is_float_space c = true)
                            (remove_char " " p)).
      { rewrite Er. apply Forall_app. split; now apply remove_char_spaces. }
      rewrite E, Ec in Fall. apply Forall_app in Fall as [_ Fall].
      apply Forall_app in Fall as [Fall _].
      inversion Fall as [|? ? Hx'' _]. congruence.
    - rewrite <- Et, Er, Et'.
      symmetry. apply (strip_by_core _ _ _ init' x' y' t');
        try assumption; now apply remove_char_spaces. }
  rewrite Etc, (decimal_is_float _ _ _ Hd). reflexivity.
Qed.

End ConvertFacts.

(** ** The coordinate branch, part by part *)

Module BranchFacts.

Import GrammarFacts StripFacts ConvertFacts.
Local Open Scope list_scope.

(** *** Splitting at the one comma *)

Lemma split_on_single (sep : ascii) (l b : list ascii) :
  split_on sep l = [b] -> l = b /\ filter (Ascii.eqb sep) b = [].
Proof.
  revert b. induction l as [|c l IH]; intros b; cbn [split_on].
  - intro E. injection E as <-. now split.
  - destruct (Ascii.eqb c sep) eqn:Ec.
    + destruct (split_on sep l) eqn:Es; [|discriminate].
      pose proof (split_on_length sep l) as L. rewrite Es in L. discriminate.
    + destruct (split_on sep l) as [|p ps] eqn:Es.
      * pose proof (split_on_length sep l) as L. rewrite Es in L. discriminate.
      * intro E. injection E as <- ->.
        destruct (IH p eq_refl) as [-> Hf]. split; [reflexivity|].
        cbn [filter]. now rewrite Ascii.eqb_sym, Ec.
Qed.

Lemma split_on_pair (sep : ascii) (l a b : list ascii) :
  split_on sep l = [a; b] ->
  l = a ++ sep :: b /\
  filter (Ascii.eqb sep) a = [] /\ filter (Ascii.eqb sep) b = [].
Proof.
  revert a. induction l as [|c l IH]; intros a; cbn [split_on]; [discriminate|].
  destruct (Ascii.eqb c sep) eqn:Ec.
  - intro E. injection E as <- Es.
    apply Ascii.eqb_eq in Ec as ->.
    destruct (split_on_single _ _ _ Es) as [-> Hf]. now repeat split.
  - destruct (split_on sep l) as [|p ps] eqn:Es; [discriminate|].
    intro E. injection E as <- ->.
    destruct (IH p eq_refl) as (-> & Ha & Hb). repeat split; [|assumption].
    cbn [filter]. now rewrite Ascii.eqb_sym, Ec.
Qed.

Lemma first_separator_unique (sep : ascii) (a1 b1 a2 b2 : list ascii) :
  a1 ++ sep :: b1 = a2 ++ sep :: b2 ->
  filter (Ascii.eqb sep) a1 = [] ->
  filter (Ascii.eqb sep) a2 = [] ->
  a1 = a2 /\ b1 = b2.
Proof.
  revert a2. induction a1 as [|c a1 IH]; intros [|d a2]; cbn [app filter].
  - intros E _ _. injection E as ->. now split.
  - intros E _. injection E as <- _. now rewrite Ascii.eqb_refl.
  - intros E. injection E as -> _. now rewrite Ascii.eqb_refl.
  - intros E. injection E as <- E.
    destruct (Ascii.eqb sep c); [discriminate|]. intros H1 H2.
    destruct (IH a2 E H1 H2) as [-> ->]. now split.
Qed.

Lemma commas_spaces_decimal (bound : Z) (maxlen : nat) (w core : list ascii) :
  Forall (fun c => is_space c = true) w ->
  decimal_of bound maxlen core ->
  commas (core ++ w) = [] /\ commas (w ++ core) = [].
Proof.
  intros F Hd. unfold commas. rewrite !filter_app.
  fold (commas core) (commas w).
  now rewrite (commas_decimal _ _ _ Hd), (commas_none is_space w).
Qed.

(** The two parts of a query that takes the coordinate branch, their
    spaces removed: the latitude and the whitespace after it, the
    whitespace before the longitude and the longitude, with the newline
    that may end the query. *)
Lemma coordinate_branch_parts (q : string) :
  COORD_REGEX_match (of_chars (remove_char " " (chars q))) = true ->
  exists lat_str lon_str lat w1 w2 lon tl,
    split_on "," (chars q) = [lat_str; lon_str] /\
    remove_char " " lat_str = lat ++ w1 /\
    remove_char " " lon_str = w2 ++ lon ++ tl /\
    decimal_of 90 2 lat /\ decimal_of 180 3 lon /\
    Forall (fun c => is_space c = true) w1 /\
    Forall (fun c => is_space c = true) w2 /\
    (tl = [] \/ tl = [newline]).
Proof.
  intro Hm.
  destruct (coordinate_branch_two_parts q Hm) as (a & b & Hs).
  destruct (split_on_pair _ _ _ _ Hs) as (Eq & Ha & Hb).
  unfold COORD_REGEX_match in Hm. rewrite chars_of_chars in Hm.
  assert (Hshape : exists tl, (tl = [] \/ tl = [newline]) /\
            exists s, remove_char " " (chars q) = s ++ tl /\
                      Matches COORD_REGEX_body s).
  { apply match_anchored_Matches in Hm as [H | (p & E & H)].
    - exists []. split; [now left|]. exists (remove_char " " (chars q)).
      now rewrite app_nil_r.
    - exists [newline]. split; [now right|]. now exists p. }
  destruct Hshape as (tl & Htl & s & Es & Hs').
  apply coord_regex_shape in Hs' as (lat & w1 & w2 & lon & -> & Hlat & F1 & F2 & Hlon).
  exists a, b, lat, w1, w2, lon, tl.
  assert (Er : remove_char " " (chars q)
               = remove_char " " a ++ ","%char :: remove_char " " b).
  { rewrite Eq. unfold remove_char. now rewrite filter_app. }
  assert (Ctl : commas tl = []) by (destruct Htl as [-> | ->]; reflexivity).
  rewrite Er in Es.
  replace ((lat ++ w1 ++ ","%char :: w2 ++ lon) ++ tl)
    with ((lat ++ w1) ++ ","%char :: (w2 ++ lon ++ tl)) in Es
    by (repeat (rewrite <- app_assoc || rewrite <- app_comm_cons); reflexivity).
  apply first_separator_unique in Es as [E1 E2].
  - repeat split; assumption.
  - fold (commas (remove_char " " a)). rewrite commas_remove_spaces. exact Ha.
  - apply (commas_spaces_decimal _ _ _ _ F1 Hlat).
Qed.

Lemma plain_spaces (l w : list ascii) :
  plain_whitespace l ->
  (forall c, In c w -> In c l) ->
  Forall (fun c => is_space c = true) w ->
  Forall (fun c => PyFloat.is_float_space c = true) w.
Proof.
  unfold plain_whitespace. rewrite !Forall_forall. intros Hp Hsub Hw c Hc.
  apply Hp; auto.
Qed.

Lemma In_remove_char (c : ascii) (l : list ascii) :
  In c (remove_char " " l) -> In c l.
Proof. unfold remove_char. intro H. now apply filter_In in H as [H _]. Qed.

(** Without a space inside, and with plain whitespace around, both parts
    convert. *)
Theorem coordinate_parts_convert (q : string) :
  COORD_REGEX_match (of_chars (remove_char " " (chars q))) = true ->
  plain_whitespace (chars q) ->
  exists lat_str lon_str,
    split_on "," (chars q) = [lat_str; lon_str] /\
    (~ space_inside lat_str -> exists lat, PyFloat.of_str lat_str = Some lat) /\
    (~ space_inside lon_str -> exists lon, PyFloat.of_str lon_str = Some lon).
Proof.
  intros Hm Hp.
  destruct (coordinate_branch_parts q Hm)
    as (a & b & lat & w1 & w2 & lon & tl & Hs & Ea & Eb & Hlat & Hlon & F1 & F2 & Htl).
  destruct (split_on_pair _ _ _ _ Hs) as (Eq & _ & _).
  exists a, b. split; [exact Hs|]. split; intro Hns.
  - exists (PyFloat.value lat).
    apply (part_converts 90 2 a [] lat w1); try assumption; [constructor|].
    apply (plain_spaces (chars q)); try assumption.
    intros c Hc. rewrite Eq. apply in_or_app. left.
    apply In_remove_char. rewrite Ea. apply in_or_app. now right.
  - exists (PyFloat.value lon).
    apply (part_converts 180 3 b w2 lon tl); try assumption.
    + apply (plain_spaces (chars q)); try assumption.
      intros c Hc. rewrite Eq. apply in_or_app. right. right.
      apply In_remove_char. rewrite Eb. apply in_or_app. now left.
    + destruct Htl as [-> | ->]; repeat constructor.
Qed.

Lemma space_inside_dec (part : list ascii) :
  {space_inside part} + {~ space_inside part}.
Proof. unfold space_inside. apply in_dec, ascii_dec. Qed.

(** On the coordinate branch, with plain whitespace,
    [InvalidCoordinatesError] is raised exactly when a part has a space
    inside the number; otherwise the candidate is produced. *)
Theorem invalid_coordinates_iff_space_inside
    (net : string -> http_outcome) (q : string) :
  COORD_REGEX_match (of_chars (remove_char " " (chars q))) = true ->
  plain_whitespace (chars q) ->
  (candidate_locations net q
   = ([], Raise (Exn InvalidCoordinatesError invalid_coordinates_msg)) <->
   exists part, In part (split_on "," (chars q)) /\ space_inside part).
Proof.
  intros Hm Hp. rewrite (candidate_locations_coordinates net q Hm). split.
  - intro H.
    destruct (coordinate_parts_convert q Hm Hp) as (a & b & Hs & Ha & Hb).
    rewrite Hs.
    destruct (space_inside_dec a) as [Sa|Na]; [exists a; cbn; tauto|].
    destruct (space_inside_dec b) as [Sb|Nb]; [exists b; cbn; tauto|].
    exfalso. destruct (Ha Na) as [lat Elat]. destruct (Hb Nb) as [lon Elon].
    unfold coordinate_locations in H. rewrite Hs in H.
    rewrite (float_of_chars_Some _ _ Elat), (float_of_chars_Some _ _ Elon) in H.
    discriminate.
  - intros (part & Hin & Hsp).
    now destruct (coordinate_locations_space_inside q part Hin Hsp) as [e ->].
Qed.

End BranchFacts.

(** ** Which branch a query takes *)

Section Dispatch.

Variable net : string -> http_outcome.
Variable h3 : PyFloat.float -> PyFloat.float -> Z -> completion string.

Local Open Scope list_scope.

(** A query outside the grammar is geocoded: the GET is the first thing
    that happens, when the client does not refuse the URL. *)
Lemma fetch_geotags_address_events (q : string) (res : Z) :
  COORD_REGEX_match (of_chars (remove_char " " (chars q))) = false ->
  url_refused (net (search_url q)) = false ->
  exists log, events (fetch_geotags net h3 q res) = the_request q :: log.
Proof.
  intros Hm Hr. unfold fetch_geotags.
  rewrite MFacts.events_bind, (candidate_locations_address net q Hm).
  rewrite geocode_events, Hr.
  destruct (outcome (geocode net q)); cbn [app]; eauto.
Qed.

(** When the client refuses the URL, its [httpx.InvalidURL] is what
    [fetch_geotags] raises, and nothing was sent. *)
Lemma fetch_geotags_address_refused (q : string) (res : Z) (msg : string) :
  COORD_REGEX_match (of_chars (remove_char " " (chars q))) = false ->
  net (search_url q) = GetRaises InvalidURL msg ->
  fetch_geotags net h3 q res = ([], Raise (Exn (Httpx InvalidURL) msg)).
Proof.
  intros Hm Hn. unfold fetch_geotags.
  rewrite (candidate_locations_address net q Hm), (geocode_raises net q _ _ Hn).
  reflexivity.
Qed.

(** C2, as the code has it. [InvalidCoordinatesError] is raised, and
    nothing is sent, for a query whose space-free form matches the
    grammar (it then splits at its one comma into two parts) but one of
    whose two parts [float] does not convert. A query that does not match
    the grammar is handled by the address branch: the geocoding request
    is sent first, unless the client refuses the URL built from the query
    and raises its [httpx.InvalidURL], which is then what [fetch_geotags]
    raises, with nothing sent. ["91.0,0.0"] and ["12.3,"] are queries
    that do not match. *)
Theorem invalid_coordinates_only_within_grammar (q : string) (res : Z) :
  (COORD_REGEX_match (of_chars (remove_char " " (chars q))) = true ->
   exists lat_str lon_str,
     split_on "," (chars q) = [lat_str; lon_str] /\
     (PyFloat.of_str lat_str = None \/ PyFloat.of_str lon_str = None ->
      fetch_geotags net h3 q res =
      ([], Raise (Exn InvalidCoordinatesError
                      "Invalid coordinate format. Use 'latitude,longitude'."))))
  /\ (COORD_REGEX_match (of_chars (remove_char " " (chars q))) = false ->
      (url_refused (net (search_url q)) = false ->
       exists log r, fetch_geotags net h3 q res = (the_request q :: log, r)) /\
      (forall msg,
          net (search_url q) = GetRaises InvalidURL msg ->
          fetch_geotags net h3 q res
          = ([], Raise (Exn (Httpx InvalidURL) msg))))
  /\ COORD_REGEX_match (of_chars (remove_char " " (chars "91.0,0.0"))) = false
  /\ COORD_REGEX_match (of_chars (remove_char " " (chars "12.3,"))) = false.
Proof.
  split; [|split; [|split; reflexivity]].
  - intros Hm.
    destruct (GrammarFacts.coordinate_branch_two_parts q Hm) as (a & b & Hs).
    exists a, b. split; [exact Hs|]. intro Hnone.
    rewrite (fetch_geotags_coordinates net h3 q res Hm).
    unfold coordinate_locations. rewrite Hs.
    destruct (PyFloat.of_str a) as [fa|] eqn:Ea.
    + rewrite (float_of_chars_Some _ _ Ea). cbn [rbind].
      destruct Hnone as [Hn|Hn]; [discriminate|].
      now destruct (float_of_chars_None _ Hn) as [msg ->].
    + now destruct (float_of_chars_None _ Ea) as [msg ->].
  - intro Hm. split.
    + intro Hr.
      destruct (fetch_geotags_address_events q res Hm Hr) as [log E].
      exists log, (outcome (fetch_geotags net h3 q res)).
      rewrite <- E. apply MFacts.M_eq.
    + intros msg Hn. exact (fetch_geotags_address_refused q res msg Hm Hn).
Qed.

End Dispatch.

(** C8. On the coordinate branch the resolver is deterministic: for a
    query that matches the grammar, what [fetch_geotags] does and returns
    is the same whatever the geocoding service would answer, so two
    invocations agree; and in every result of a returned list the geotag
    is the cell of that result's latitude and longitude at the requested
    resolution. *)
Theorem coordinate_branch_deterministic
    (net1 net2 : string -> http_outcome)
    (h3 : PyFloat.float -> PyFloat.float -> Z -> completion string)
    (q : string) (res : Z) :
  COORD_REGEX_match (of_chars (remove_char " " (chars q))) = true ->
  fetch_geotags net1 h3 q res = fetch_geotags net2 h3 q res /\
  forall rs,
    outcome (fetch_geotags net1 h3 q res) = Return rs ->
    Forall (fun r => h3 (latitude r) (longitude r) res = Return (geotag r)) rs.
Proof.
  intro Hm. split.
  - now rewrite !fetch_geotags_coordinates by assumption.
  - intros rs. apply fetch_geotags_geotag.
Qed.

(** ** The failures of the address branch *)

Section AddressBranch.

Variable net : string -> http_outcome.
Variable h3 : PyFloat.float -> PyFloat.float -> Z -> completion string.

Local Open Scope list_scope.

(** Connection errors and timeouts (the classes under
    [httpx.RequestError]) become [GeocodingServiceError], the cause in
    the message. *)
Lemma request_error_is_service_error
    (q : string) (res : Z) (k : httpx_class) (msg : string) :
  COORD_REGEX_match (of_chars (remove_char " " (chars q))) = false ->
  net (search_url q) = GetRaises k msg ->
  is_RequestError (Exn (Httpx k) msg) = true ->
  fetch_geotags net h3 q res =
  ([the_request q],
   Raise (Exn GeocodingServiceError
              ("Error connecting to geocoding service: " ++ msg))).
Proof.
  intros Hm Hn Hk. unfold fetch_geotags.
  rewrite (candidate_locations_address net q Hm), (geocode_raises net q _ _ Hn), Hk.
  now rewrite (request_error_not_refused k msg Hk).
Qed.

(** C4, at the failing input. A response with a status outside 200..299
    makes [raise_for_status] raise [httpx.HTTPStatusError], which is not
    an [httpx.RequestError]: it leaves [fetch_geotags] as it is, not as a
    [GeocodingServiceError], and the endpoint answers 500, not 503. *)
Theorem status_error_escapes_unwrapped
    (q : string) (res : Z) (code : Z) (json : completion value) :
  COORD_REGEX_match (of_chars (remove_char " " (chars q))) = false ->
  net (search_url q) = GetResponse code json ->
  code < 200 \/ 299 < code ->
  exists msg,
    fetch_geotags net h3 q res
    = ([the_request q], Raise (Exn (Httpx HTTPStatusError) msg)) /\
    is_GeocodingServiceError (Exn (Httpx HTTPStatusError) msg) = false /\
    get_geotag net h3 q res
    = ([the_request q],
       HTTPException 500 ("An unexpected error occurred: " ++ msg)).
Proof.
  intros Hm Hn Hc.
  assert (Hb : (200 <=? code) && (code <=? 299) = false).
  { apply andb_false_iff. rewrite !Z.leb_gt. lia. }
  destruct (geocode_status_error net q _ _ Hn Hb) as [msg G].
  exists msg.
  assert (F : fetch_geotags net h3 q res
              = ([the_request q], Raise (Exn (Httpx HTTPStatusError) msg))).
  { unfold fetch_geotags.
    now rewrite (candidate_locations_address net q Hm), G. }
  split; [exact F|]. split; [reflexivity|].
  unfold get_geotag. now rewrite F.
Qed.

End AddressBranch.

(** ** When [NoResultsFoundError] is raised *)

Section NoResults.

Variable net : string -> http_outcome.
Variable h3 : PyFloat.float -> PyFloat.float -> Z -> completion string.

Local Open Scope list_scope.

(** A loop that returns met no aborting candidate. *)
Lemma build_results_Return_inv (res : Z) (locs : list value) :
  forall acc rs,
    outcome (build_results h3 locs res acc) = Return rs ->
    Forall (fun loc => aborts h3 loc res = false) locs.
Proof.
  induction locs as [|loc rest IH]; intros acc rs; [constructor|].
  rewrite build_results_cons. unfold aborts at 1.
  destruct (convert h3 loc res) as [r|e] eqn:C.
  - intro H. constructor; [now rewrite C | eauto].
  - destruct (is_ValueError e || is_KeyError e) eqn:Hc; [|discriminate].
    rewrite MFacts.outcome_emit. intro H.
    constructor; [now rewrite C, Hc | eauto].
Qed.

(** A loop that raises met a candidate whose exception it does not
    catch. *)
Lemma build_results_Raise_inv (res : Z) (locs : list value) :
  forall acc e,
    outcome (build_results h3 locs res acc) = Raise e ->
    exists loc,
      In loc locs /\ convert h3 loc res = Raise e /\
      is_ValueError e || is_KeyError e = false.
Proof.
  induction locs as [|loc rest IH]; intros acc e; [discriminate|].
  rewrite build_results_cons.
  destruct (convert h3 loc res) as [r|e'] eqn:C.
  - intro H. apply IH in H as (l & Hin & Hc & Hne). exists l. simpl. tauto.
  - destruct (is_ValueError e' || is_KeyError e') eqn:Hc.
    + rewrite MFacts.outcome_emit. intro H.
      apply IH in H as (l & Hin & Hc' & Hne). exists l. simpl. tauto.
    + intro H. injection H as <-. exists loc. simpl. tauto.
Qed.

Ltac raised_here :=
  let H := fresh in intro H; injection H as <-; reflexivity.

(** The conversion of a candidate raises a [NoResultsFoundError] only if
    the cell index does. *)
Lemma convert_raises_foreign (loc : value) (res : Z) (e : exn) :
  (forall lat lon e', h3 lat lon res = Raise e' ->
                      is_NoResultsFoundError e' = false) ->
  convert h3 loc res = Raise e ->
  is_NoResultsFoundError e = false.
Proof.
  intro Hh3. unfold convert.
  assert (Hsub : forall k x, subscript loc k = Raise x ->
                             is_NoResultsFoundError x = false).
  { intros k x. unfold subscript.
    destruct loc; try raised_here.
    destruct (lookup k l); [discriminate | raised_here]. }
  assert (Hfl : forall v x, Py.float v = Raise x ->
                            is_NoResultsFoundError x = false).
  { intros v x. unfold Py.float.
    destruct v; try raised_here; try discriminate.
    - destruct (PyFloat.of_int z); [discriminate | raised_here].
    - destruct (PyFloat.of_str (chars s)); [discriminate | raised_here]. }
  destruct (subscript loc "lat") as [lat_v|x] eqn:S1; cbn [rbind];
    [|intro H; injection H as <-; eauto].
  destruct (Py.float lat_v) as [lat|x] eqn:F1; cbn [rbind];
    [|intro H; injection H as <-; eauto].
  destruct (subscript loc "lon") as [lon_v|x] eqn:S2; cbn [rbind];
    [|intro H; injection H as <-; eauto].
  destruct (Py.float lon_v) as [lon|x] eqn:F2; cbn [rbind];
    [|intro H; injection H as <-; eauto].
  destruct (h3 lat lon res) as [cell|x] eqn:H3; cbn [rbind];
    [|intro H; injection H as <-; eauto].
  unfold get. destruct loc; cbn [rbind]; try raised_here.
  unfold GeoTagResult_new.
  destruct (match lookup "display_name" l with Some x => x | None => VStr "N/A" end);
    try raised_here; discriminate.
Qed.

(** Neither branch raises a [NoResultsFoundError] while obtaining the
    candidates, unless the decoding of the response does. *)
Lemma candidate_locations_raises_foreign (q : string) (e : exn) :
  (forall url code e', net url = GetResponse code (Raise e') ->
                       is_NoResultsFoundError e' = false) ->
  outcome (candidate_locations net q) = Raise e ->
  is_NoResultsFoundError e = false.
Proof.
  intro Hjson. unfold candidate_locations.
  destruct (COORD_REGEX_match _) eqn:Hm.
  - destruct (coordinate_locations q) as [v|x] eqn:C; [discriminate|].
    apply coordinate_locations_raises in C.
    unfold try_except, lift, is_ValueError. rewrite C. cbn.
    raised_here.
  - destruct (net (search_url q)) as [k msg|code json] eqn:Hn.
    + rewrite (geocode_raises net q _ _ Hn).
      destruct (is_RequestError _); cbn; raised_here.
    + destruct ((200 <=? code) && (code <=? 299)) eqn:Hc.
      * destruct json as [v|x].
        -- now rewrite (geocode_success net q _ _ Hn Hc).
        -- rewrite (geocode_json_raises net q _ _ Hn Hc).
           destruct (is_RequestError x) eqn:Hr; cbn.
           ++ raised_here.
           ++ intro H. injection H as <-. eauto.
      * destruct (geocode_status_error net q _ _ Hn Hc) as [msg ->]. cbn.
        raised_here.
Qed.

Lemma skipped_not_aborts (loc : value) (res : Z) :
  skipped h3 loc res = true -> aborts h3 loc res = false.
Proof.
  unfold skipped, aborts. destruct (convert h3 loc res); [discriminate|].
  now intros ->.
Qed.

Lemma skipped_raises (loc : value) (res : Z) :
  skipped h3 loc res = true -> exists e, convert h3 loc res = Raise e.
Proof.
  unfold skipped. destruct (convert h3 loc res); [discriminate|eauto].
Qed.

(** C5, as the code has it. [fetch_geotags] raises
    [NoResultsFoundError] in exactly two situations, told apart by the
    message: a branch produced an empty candidate list ("No results
    found for the given query."), or the loop skipped every candidate
    ("Geocoding service returned malformed data."). Whenever it
    returns, the list is not empty; and it does return a non-empty list
    when candidates were obtained, none aborts the loop and one of them
    is not skipped. (Other failures exist: the two that are raised while
    the candidates are obtained, and the exceptions the loop does not
    catch.) *)
Theorem no_results_found_exactly_two_situations (q : string) (res : Z) :
  externals_foreign net h3 res ->
  (forall msg,
      outcome (fetch_geotags net h3 q res)
      = Raise (Exn NoResultsFoundError msg) <->
      (no_candidates net q /\
       msg = "No results found for the given query.") \/
      (all_skipped net h3 q res /\
       msg = "Geocoding service returned malformed data."))
  /\ no_results_msg <> malformed_data_msg
  /\ (forall rs, outcome (fetch_geotags net h3 q res) = Return rs -> rs <> [])
  /\ (forall locations locs,
        outcome (candidate_locations net q) = Return locations ->
        truthy locations = true ->
        iterate locations = Return locs ->
        Forall (fun loc => aborts h3 loc res = false) locs ->
        Exists (fun loc => skipped h3 loc res = false) locs ->
        exists r rs,
          outcome (fetch_geotags net h3 q res) = Return (r :: rs)).
Proof.
  intros [Hjson Hh3].
  assert (Hstage : outcome (fetch_geotags net h3 q res) =
                   match outcome (candidate_locations net q) with
                   | Return v => outcome (index_locations h3 v res)
                   | Raise e => Raise e
                   end) by apply MFacts.outcome_bind.
  assert (Hidx : forall v locs,
             truthy v = true -> iterate v = Return locs ->
             outcome (index_locations h3 v res) =
             match outcome (build_results h3 locs res []) with
             | Return [] => Raise (Exn NoResultsFoundError malformed_data_msg)
             | Return rs => Return rs
             | Raise e => Raise e
             end).
  { intros v locs T I. unfold index_locations. rewrite T, I. cbn [negb].
    rewrite MFacts.bind_lift_Return, MFacts.outcome_bind.
    now destruct (outcome (build_results h3 locs res [])) as [[|r rs]|e]. }
  split; [|split; [discriminate|split]].
  - intro msg. rewrite Hstage. split.
    + destruct (outcome (candidate_locations net q)) as [v|e] eqn:C.
      * destruct (truthy v) eqn:T.
        -- destruct (iterate v) as [locs|e] eqn:I.
           ++ rewrite (Hidx v locs T I).
              destruct (outcome (build_results h3 locs res [])) as [[|r rs]|e] eqn:B.
              ** intro H. injection H as <-. right. split; [|reflexivity].
                 exists v, locs. repeat split; try assumption.
                 pose proof (build_results_Return_inv _ _ _ _ B) as Hna.
                 rewrite (build_results_no_abort h3 res locs [] Hna) in B.
                 injection B as B. cbn [app] in B.
                 apply converted_nil in B.
                 rewrite Forall_forall in *. intros loc Hin.
                 apply not_aborts_raise_skipped; auto.
              ** discriminate.
              ** intro H. injection H as ->.
                 apply build_results_Raise_inv in B as (loc & _ & Hc & _).
                 apply (convert_raises_foreign loc res _ Hh3) in Hc. discriminate.
           ++ unfold index_locations. rewrite T, I. cbn.
              intro H. injection H as ->.
              destruct v; discriminate.
        -- rewrite (index_locations_falsy h3 v res T). cbn.
           intro H. injection H as <-. left. split; [|reflexivity].
           exists v. tauto.
      * intro H. injection H as ->.
        apply (candidate_locations_raises_foreign q _ Hjson) in C.
        discriminate.
    + intros [[(v & C & T) ->] | [(v & locs & C & T & I & Hsk) ->]]; rewrite C.
      * now rewrite (index_locations_falsy h3 v res T).
      * rewrite (Hidx v locs T I).
        assert (Hna : Forall (fun loc => aborts h3 loc res = false) locs).
        { eapply Forall_impl; [|exact Hsk]. intro loc. apply skipped_not_aborts. }
        rewrite (build_results_no_abort h3 res locs [] Hna). cbn [app].
        assert (E : converted h3 locs res = []).
        { apply converted_nil. eapply Forall_impl; [|exact Hsk].
          intro loc. apply skipped_raises. }
        now rewrite E.
  - intros rs H. now apply fetch_geotags_Return in H as (_ & _ & _ & _ & _ & _ & Hne).
  - intros v locs C T I Hna Hex. rewrite Hstage, C, (Hidx v locs T I).
    rewrite (build_results_no_abort h3 res locs [] Hna). cbn [app].
    destruct (converted h3 locs res) as [|r rs] eqn:E; [|eauto].
    exfalso. apply converted_nil in E.
    apply Exists_exists in Hex as (loc & Hin & Hns).
    rewrite Forall_forall in E, Hna.
    rewrite (not_aborts_raise_skipped h3 res loc (Hna _ Hin) (E _ Hin)) in Hns.
    discriminate.
Qed.

End NoResults.

(** ** What the loop catches and what it does not *)

Section PartialFailure.

Variable net : string -> http_outcome.
Variable h3 : PyFloat.float -> PyFloat.float -> Z -> completion string.

(** [float] raises [TypeError] on what is neither a number nor a
    string. *)
Lemma float_TypeError (v : value) :
  neither_number_nor_string v = true ->
  Py.float v =
  Raise (Exn TypeError
             ("float() argument must be a string or a real number, not '"
              ++ type_name v ++ "'")).
Proof. destruct v; try discriminate; reflexivity. Qed.

(** A record without [lat] or [lon], or in which one of them is a string
    [float] does not parse, is skipped. *)
Lemma missing_or_unparsable_field_skipped
    (d : list (string * value)) (res : Z) :
  unusable (lookup "lat" d) \/
  ((exists lat f, lookup "lat" d = Some lat /\ Py.float lat = Return f) /\
   unusable (lookup "lon" d)) ->
  skipped h3 (VDict d) res = true.
Proof.
  unfold skipped, convert, subscript, unusable.
  intros [[-> | (s & -> & Hs)] | [(lat & f & -> & Hlat) [-> | (s & -> & Hs)]]];
    cbn [rbind Py.float]; rewrite ?Hs, ?Hlat; cbn [rbind Py.float];
    rewrite ?Hs; reflexivity.
Qed.

(** C9. The loop catches [ValueError] and [KeyError] only. A candidate
    record whose [lat] is present but neither a number nor a string
    (JSON [null], an array, an object), or whose [lat] converts and whose
    [lon] is such a value, makes [float] raise [TypeError]; the loop does
    not catch it, so the batch is aborted whatever the other candidates
    are: [fetch_geotags] raises the [TypeError] and the endpoint answers
    with the unclassified status 500. *)
Theorem type_error_aborts_batch
    (q : string) (res code : Z) (pre post : list value)
    (d : list (string * value)) (v : value) :
  COORD_REGEX_match (of_chars (remove_char " " (chars q))) = false ->
  net (search_url q)
  = GetResponse code (Return (VList (pre ++ VDict d :: post)%list)) ->
  200 <= code <= 299 ->
  Forall (fun loc => aborts h3 loc res = false) pre ->
  neither_number_nor_string v = true ->
  lookup "lat" d = Some v \/
  (exists lat f, lookup "lat" d = Some lat /\ Py.float lat = Return f /\
                 lookup "lon" d = Some v) ->
  exists msg,
    convert h3 (VDict d) res = Raise (Exn TypeError msg) /\
    is_ValueError (Exn TypeError msg) || is_KeyError (Exn TypeError msg) = false /\
    outcome (fetch_geotags net h3 q res) = Raise (Exn TypeError msg) /\
    snd (get_geotag net h3 q res)
    = HTTPException 500 ("An unexpected error occurred: " ++ msg).
Proof.
  intros Hm Hn Hc Hpre Hv Hd.
  pose proof (float_TypeError v Hv) as Hf.
  set (msg := "float() argument must be a string or a real number, not '"
              ++ type_name v ++ "'") in *.
  exists msg.
  assert (C : convert h3 (VDict d) res = Raise (Exn TypeError msg)).
  { unfold convert, subscript.
    destruct Hd as [-> | (lat & f & -> & Hlat & ->)]; cbn [rbind].
    - now rewrite Hf.
    - rewrite Hlat. cbn [rbind]. now rewrite Hf. }
  assert (F : outcome (fetch_geotags net h3 q res) = Raise (Exn TypeError msg)).
  { unfold fetch_geotags.
    rewrite MFacts.outcome_bind, (candidate_locations_address net q Hm).
    rewrite (geocode_success net q code _ Hn)
      by (apply andb_true_iff; rewrite !Z.leb_le; lia).
    cbn [outcome snd].
    destruct (pre ++ VDict d :: post)%list as [|x l] eqn:E;
      [now destruct pre|].
    rewrite index_locations_list, <- E.
    now rewrite (build_results_abort h3 res pre [] (VDict d) post _ Hpre C). }
  repeat split; try assumption.
  unfold get_geotag.
  destruct (fetch_geotags net h3 q res) as [log r]. cbn [outcome snd] in F.
  now rewrite F.
Qed.

(** C7, as the code has it. The endpoint maps
    [InvalidCoordinatesError] to 400, [NoResultsFoundError] to 404 and
    [GeocodingServiceError] to 503, each with the failure's message as
    the detail, and any other exception to 500 with the detail
    ["An unexpected error occurred: "] followed by the message; on
    success it returns the envelope of [status] ["success"], the query,
    the resolution and the results. It does to the outside what
    [fetch_geotags] does. *)
Theorem get_geotag_status_mapping (q : string) (res : Z) :
  fst (get_geotag net h3 q res) = events (fetch_geotags net h3 q res) /\
  snd (get_geotag net h3 q res) =
  match outcome (fetch_geotags net h3 q res) with
  | Return results =>
      Respond {| status := "success"; query := q; resolution := res;
                 result := results |}
  | Raise e =>
      match cls e with
      | InvalidCoordinatesError => HTTPException 400 (str e)
      | NoResultsFoundError => HTTPException 404 (str e)
      | GeocodingServiceError => HTTPException 503 (str e)
      | _ => HTTPException 500 ("An unexpected error occurred: " ++ str e)
      end
  end.
Proof.
  unfold get_geotag.
  destruct (fetch_geotags net h3 q res) as [log [results|e]]; cbn; [tauto|].
  split; [reflexivity|].
  unfold is_InvalidCoordinatesError, is_NoResultsFoundError,
    is_GeocodingServiceError.
  now destruct (cls e).
Qed.

End PartialFailure.

(** ** The resolver on concrete queries *)

(** C3, at the failing input. The grammar accepts ["90.5,0.0"] and
    ["0.0,180.5"], whose first number exceeds 90 and whose second exceeds
    180: the integer parts are bounded by 90 and 180, the fractional
    digits that follow are not taken into account. The resolver returns
    a result with that latitude, that longitude. *)
Theorem coord_regex_accepts_beyond_range :
  COORD_REGEX_match "90.5,0.0" = true /\
  COORD_REGEX_match "0.0,180.5" = true /\
  (exists r,
      fetch_geotags service_refusing sample_cell "90.5,0.0" 9 = ([], Return [r]) /\
      address r = "Coordinates: 90.500000, 0.000000" /\
      SFltb (PyFloat.of_decimal false 90 0) (latitude r) = true) /\
  (exists r,
      fetch_geotags service_refusing sample_cell "0.0,180.5" 9 = ([], Return [r]) /\
      address r = "Coordinates: 0.000000, 180.500000" /\
      SFltb (PyFloat.of_decimal false 180 0) (longitude r) = true).
Proof.
  split; [reflexivity|]. split; [reflexivity|]. split.
  - eexists. split; [vm_compute; reflexivity|]. split; reflexivity.
  - eexists. split; [vm_compute; reflexivity|]. split; reflexivity.
Qed.

(** C6, at the failing input. Of three candidates, one with a [lat] that
    is a non-numeric string is skipped and the two others give the two
    results; one with a [lat] that is [null] is not skipped: the
    [TypeError] of [float] ends the batch and no result is returned. *)
Theorem null_field_aborts_instead_of_skip :
  (exists r1 r2 line,
      fetch_geotags service_one_bad_string sample_cell "Berlin" 9
      = ([the_request "Berlin"; Print line], Return [r1; r2]) /\
      address r1 = "Berlin" /\ address r2 = "Munich") /\
  fetch_geotags service_one_null sample_cell "Berlin" 9
  = ([the_request "Berlin"],
     Raise (Exn TypeError
                "float() argument must be a string or a real number, not 'NoneType'")).
Proof.
  split.
  - do 3 eexists. split; [vm_compute; reflexivity|]. split; reflexivity.
  - vm_compute. reflexivity.
Qed.

(** C1 on the query of the specification: one result, labelled
    ["Coordinates: 37.422000, -122.084000"]. *)
Lemma coordinate_query_one_result_example :
  COORD_REGEX_match
    (of_chars (remove_char " " (chars "37.422000, -122.084000"))) = true /\
  split_on "," (chars "37.422000, -122.084000")
  = [chars "37.422000"; chars " -122.084000"] /\
  PyFloat.of_str (chars "37.422000")
  = Some (S754_finite false 5266678289233084 (-47)) /\
  PyFloat.of_str (chars " -122.084000")
  = Some (S754_finite true 8590897764185932 (-46)) /\
  exists r,
    fetch_geotags service_refusing sample_cell "37.422000, -122.084000" 9
    = ([], Return [r]) /\
    address r = "Coordinates: 37.422000, -122.084000" /\
    sample_cell (latitude r) (longitude r) 9 = Return (geotag r).
Proof.
  assert (Hm : COORD_REGEX_match
                 (of_chars (remove_char " " (chars "37.422000, -122.084000")))
               = true) by (vm_compute; reflexivity).
  assert (Hs : split_on "," (chars "37.422000, -122.084000")
               = [chars "37.422000"; chars " -122.084000"])
    by (vm_compute; reflexivity).
  assert (Hlat : PyFloat.of_str (chars "37.422000")
                 = Some (S754_finite false 5266678289233084 (-47)))
    by (vm_compute; reflexivity).
  assert (Hlon : PyFloat.of_str (chars " -122.084000")
                 = Some (S754_finite true 8590897764185932 (-46)))
    by (vm_compute; reflexivity).
  repeat (split; [assumption|]).
  destruct (coordinate_query_one_result service_refusing sample_cell
              "37.422000, -122.084000" 9 _ _ _ _
              "cell-9@37.422000,-122.084000" Hm Hs Hlat Hlon)
    as (r & E & _ & _ & Ha & Hc); [vm_compute; reflexivity|].
  exists r. split; [exact E|]. split; [|exact Hc].
  rewrite Ha. vm_compute. reflexivity.
Defined.

(** C2, refuted as stated: ["91.0,0.0"] and ["12.3,"] do not match the
    grammar, the address branch runs and sends the request, and with a
    service that answers no [InvalidCoordinatesError] is raised. *)
Lemma malformed_pairs_are_geocoded :
  (exists log rs,
      fetch_geotags service_one_bad_string sample_cell "91.0,0.0" 9
      = (the_request "91.0,0.0" :: log, Return rs)) /\
  (exists log rs,
      fetch_geotags service_one_bad_string sample_cell "12.3," 9
      = (the_request "12.3," :: log, Return rs)).
Proof.
  split; do 2 eexists; vm_compute; reflexivity.
Qed.

Lemma invalid_coordinates_only_within_grammar_example :
  COORD_REGEX_match (of_chars (remove_char " " (chars "3 7.5,10.0"))) = true /\
  split_on "," (chars "3 7.5,10.0") = [chars "3 7.5"; chars "10.0"] /\
  PyFloat.of_str (chars "3 7.5") = None /\
  fetch_geotags service_one_bad_string sample_cell "3 7.5,10.0" 9
  = ([], Raise (Exn InvalidCoordinatesError
                    "Invalid coordinate format. Use 'latitude,longitude'."))
  /\ (exists log r,
         fetch_geotags service_one_bad_string sample_cell "91.0,0.0" 9
         = (the_request "91.0,0.0" :: log, r))
  /\ exists msg,
      fetch_geotags client_strict_on_urls sample_cell
                    ("12.3," ++ String newline "") 9
      = ([], Raise (Exn (Httpx InvalidURL) msg)).
Proof.
  assert (Hm : COORD_REGEX_match (of_chars (remove_char " " (chars "3 7.5,10.0")))
               = true) by (vm_compute; reflexivity).
  assert (Hs : split_on "," (chars "3 7.5,10.0") = [chars "3 7.5"; chars "10.0"])
    by (vm_compute; reflexivity).
  assert (Hf : PyFloat.of_str (chars "3 7.5") = None)
    by (vm_compute; reflexivity).
  repeat (split; [assumption|]).
  destruct (invalid_coordinates_only_within_grammar
              service_one_bad_string sample_cell "3 7.5,10.0" 9) as (H1 & _).
  destruct (invalid_coordinates_only_within_grammar
              service_one_bad_string sample_cell "91.0,0.0" 9) as (_ & H2 & _).
  destruct (invalid_coordinates_only_within_grammar
              client_strict_on_urls sample_cell
              ("12.3," ++ String newline "") 9) as (_ & H3 & _).
  split; [|split].
  - destruct (H1 Hm) as (a & b & Hs' & Hice).
    apply Hice. rewrite Hs in Hs'. injection Hs' as <- <-. now left.
  - apply H2; vm_compute; reflexivity.
  - eexists. apply H3; vm_compute; reflexivity.
Defined.

Lemma status_error_escapes_unwrapped_example :
  COORD_REGEX_match (of_chars (remove_char " " (chars "Berlin"))) = false /\
  service_unavailable (search_url "Berlin") = GetResponse 503 (Return (VList [])) /\
  exists msg,
    fetch_geotags service_unavailable sample_cell "Berlin" 9
    = ([the_request "Berlin"], Raise (Exn (Httpx HTTPStatusError) msg)) /\
    get_geotag service_unavailable sample_cell "Berlin" 9
    = ([the_request "Berlin"],
       HTTPException 500 ("An unexpected error occurred: " ++ msg)).
Proof.
  assert (Hm : COORD_REGEX_match (of_chars (remove_char " " (chars "Berlin")))
               = false) by (vm_compute; reflexivity).
  split; [exact Hm|]. split; [reflexivity|].
  destruct (status_error_escapes_unwrapped service_unavailable sample_cell
              "Berlin" 9 503 (Return (VList [])) Hm eq_refl)
    as (msg & F & _ & G); [lia|].
  exists msg. split; assumption.
Defined.

(** C5, refuted as stated: with the service down there are no candidates
    to be empty or skipped, and no list is returned either. *)
Lemma service_failure_is_a_third_outcome :
  ~ no_candidates service_refusing "Berlin" /\
  ~ all_skipped service_refusing sample_cell "Berlin" 9 /\
  fetch_geotags service_refusing sample_cell "Berlin" 9
  = ([the_request "Berlin"],
     Raise (Exn GeocodingServiceError
                "Error connecting to geocoding service: All connection attempts failed")).
Proof.
  split; [|split].
  - intros (v & C & _). vm_compute in C. discriminate.
  - intros (v & locs & C & _). vm_compute in C. discriminate.
  - vm_compute. reflexivity.
Qed.

Lemma sample_cell_foreign (http_get : string -> http_outcome) (res : Z) :
  (forall url code e, http_get url <> GetResponse code (Raise e)) ->
  externals_foreign http_get sample_cell res.
Proof.
  intro H. split.
  - intros url code e E. now destruct (H url code e).
  - intros lat lon e. unfold sample_cell.
    destruct ((0 <=? res) && (res <=? 15)); [discriminate|].
    intro E. injection E as <-. reflexivity.
Defined.

Lemma no_results_found_exactly_two_situations_example :
  externals_foreign service_all_bad sample_cell 9 /\
  all_skipped service_all_bad sample_cell "Berlin" 9 /\
  outcome (fetch_geotags service_all_bad sample_cell "Berlin" 9)
  = Raise (Exn NoResultsFoundError "Geocoding service returned malformed data.").
Proof.
  assert (Hext : externals_foreign service_all_bad sample_cell 9)
    by (apply sample_cell_foreign; discriminate).
  assert (Hall : all_skipped service_all_bad sample_cell "Berlin" 9).
  { exists (VList [VDict [("lon", VStr "13.4")]; VDict []]),
      [VDict [("lon", VStr "13.4")]; VDict []].
    repeat split; try reflexivity.
    repeat constructor. }
  split; [exact Hext|]. split; [exact Hall|].
  destruct (no_results_found_exactly_two_situations
              service_all_bad sample_cell "Berlin" 9 Hext) as (H & _).
  apply H. right. split; [exact Hall | reflexivity].
Defined.

(** C7, refuted as stated: the detail of the 500 is not the message of
    the failure but that message after a fixed prefix. *)
Lemma unclassified_detail_is_prefixed :
  exists e detail,
    outcome (fetch_geotags service_one_null sample_cell "Berlin" 9) = Raise e /\
    snd (get_geotag service_one_null sample_cell "Berlin" 9)
    = HTTPException 500 detail /\
    detail <> str e.
Proof.
  do 2 eexists. split; [vm_compute; reflexivity|].
  split; [vm_compute; reflexivity|]. cbn. discriminate.
Qed.

Lemma coordinate_branch_deterministic_example :
  COORD_REGEX_match
    (of_chars (remove_char " " (chars "37.422000, -122.084000"))) = true /\
  fetch_geotags service_refusing sample_cell "37.422000, -122.084000" 9
  = fetch_geotags service_one_null sample_cell "37.422000, -122.084000" 9.
Proof.
  assert (Hm : COORD_REGEX_match
                 (of_chars (remove_char " " (chars "37.422000, -122.084000")))
               = true) by (vm_compute; reflexivity).
  split; [exact Hm|].
  exact (proj1 (coordinate_branch_deterministic
                  service_refusing service_one_null sample_cell
                  "37.422000, -122.084000" 9 Hm)).
Defined.

Lemma type_error_aborts_batch_example :
  COORD_REGEX_match (of_chars (remove_char " " (chars "Berlin"))) = false /\
  neither_number_nor_string VNone = true /\
  outcome (fetch_geotags service_one_null sample_cell "Berlin" 9)
  = Raise (Exn TypeError
               "float() argument must be a string or a real number, not 'NoneType'").
Proof.
  assert (Hm : COORD_REGEX_match (of_chars (remove_char " " (chars "Berlin")))
               = false) by (vm_compute; reflexivity).
  split; [exact Hm|]. split; [reflexivity|].
  destruct (type_error_aborts_batch service_one_null sample_cell
              "Berlin" 9 200
              [candidate (VStr "52.5") (VStr "13.4") "Berlin"]
              [candidate (VStr "48.1") (VStr "11.6") "Munich"]
              [("lat", VNone); ("lon", VStr "13.4"); ("display_name", VStr "Berlin?")]
              VNone Hm eq_refl)
    as (msg & C & _ & F & _).
  - lia.
  - repeat constructor.
  - reflexivity.
  - left. reflexivity.
  - rewrite F. vm_compute in C. injection C as <-. reflexivity.
Defined.

Lemma inner_space_raises_invalid_coordinates_example :
  COORD_REGEX_match (of_chars (remove_char " " (chars "3 7.5,10.0"))) = true /\
  In (chars "3 7.5") (split_on "," (chars "3 7.5,10.0")) /\
  space_inside (chars "3 7.5") /\
  fetch_geotags service_one_bad_string sample_cell "3 7.5,10.0" 9
  = ([], Raise (Exn InvalidCoordinatesError
                    "Invalid coordinate format. Use 'latitude,longitude'.")).
Proof.
  assert (Hm : COORD_REGEX_match (of_chars (remove_char " " (chars "3 7.5,10.0")))
               = true) by (vm_compute; reflexivity).
  assert (Hin : In (chars "3 7.5") (split_on "," (chars "3 7.5,10.0")))
    by (left; reflexivity).
  assert (Hsp : space_inside (chars "3 7.5"))
    by (right; left; reflexivity).
  repeat (split; [assumption|]).
  exact (inner_space_raises_invalid_coordinates
           service_one_bad_string sample_cell "3 7.5,10.0" 9 (chars "3 7.5")
           Hm Hin Hsp).
Defined.

(** ** Queries that match the grammar as they are *)

Module DirectMatch.

Import GrammarFacts StripFacts ConvertFacts BranchFacts.
Local Open Scope list_scope.

Lemma split_on_no_separator (sep : ascii) (l : list ascii) :
  filter (Ascii.eqb sep) l = [] -> split_on sep l = [l].
Proof.
  induction l as [|c l IH]; [reflexivity|].
  cbn [filter split_on]. rewrite (Ascii.eqb_sym sep c).
  destruct (Ascii.eqb c sep); [discriminate|].
  intro H. now rewrite (IH H).
Qed.

Lemma split_on_first_separator (sep : ascii) (a b : list ascii) :
  filter (Ascii.eqb sep) a = [] ->
  split_on sep (a ++ sep :: b) = a :: split_on sep b.
Proof.
  induction a as [|c a IH]; cbn [app filter split_on].
  - now rewrite Ascii.eqb_refl.
  - rewrite (Ascii.eqb_sym sep c).
    destruct (Ascii.eqb c sep); [discriminate|].
    intro H. now rewrite (IH H).
Qed.

(** A decimal of the grammar between whitespace [float] strips is
    converted to the value of the decimal. *)
Lemma decimal_between_spaces_converts
    (bound : Z) (maxlen : nat) (w1 core w2 : list ascii) :
  decimal_of bound maxlen core ->
  Forall (fun c => PyFloat.is_float_space c = true) w1 ->
  Forall (fun c => PyFloat.is_float_space c = true) w2 ->
  PyFloat.of_str (w1 ++ core ++ w2) = Some (PyFloat.value core).
Proof.
  intros Hd F1 F2.
  assert (E : strip_by PyFloat.is_float_space (w1 ++ core ++ w2) = core).
  { destruct (decimal_ends _ _ _ Hd) as (x & tl & init & y & Ec & Ei & Hx & Hy).
    rewrite Ec. now apply (strip_by_core _ w1 w2 init x y tl). }
  unfold PyFloat.of_str. cbv zeta.
  now rewrite E, (decimal_is_float _ _ _ Hd).
Qed.

(** The two parts of a query that matches as it is. *)
Lemma direct_match_parts (q : string) :
  COORD_REGEX_match q = true ->
  exists lat w1 w2 lon tl,
    split_on "," (chars q) = [lat ++ w1; w2 ++ lon ++ tl] /\
    decimal_of 90 2 lat /\ decimal_of 180 3 lon /\
    Forall (fun c => is_space c = true) w1 /\
    Forall (fun c => is_space c = true) w2 /\
    (tl = [] \/ tl = [newline]).
Proof.
  unfold COORD_REGEX_match. intro Hm.
  assert (Hshape : exists tl, (tl = [] \/ tl = [newline]) /\
            exists s, chars q = s ++ tl /\ Matches COORD_REGEX_body s).
  { apply match_anchored_Matches in Hm as [H | (p & E & H)].
    - exists []. split; [now left|]. exists (chars q). now rewrite app_nil_r.
    - exists [newline]. split; [now right|]. now exists p. }
  destruct Hshape as (tl & Htl & s & Es & Hs).
  apply coord_regex_shape in Hs as (lat & w1 & w2 & lon & -> & Hlat & F1 & F2 & Hlon).
  exists lat, w1, w2, lon, tl. repeat split; try assumption.
  rewrite Es.
  replace ((lat ++ w1 ++ ","%char :: w2 ++ lon) ++ tl)
    with ((lat ++ w1) ++ ","%char :: (w2 ++ lon ++ tl))
    by (repeat (rewrite <- app_assoc || rewrite <- app_comm_cons); reflexivity).
  rewrite split_on_first_separator
    by apply (commas_spaces_decimal _ _ _ _ F1 Hlat).
  rewrite split_on_no_separator; [reflexivity|].
  fold (commas (w2 ++ lon ++ tl)). unfold commas. rewrite !filter_app.
  fold (commas w2) (commas lon) (commas tl).
  rewrite (commas_decimal _ _ _ Hlon), (commas_none is_space w2) by easy.
  now destruct Htl as [-> | ->].
Qed.

End DirectMatch.

(** ** More on the coordinate grammar *)

Module GrammarMore.

Import GrammarFacts StripFacts ConvertFacts BranchFacts.
Local Open Scope list_scope.

(** The integer part of a longitude is at most 80, or from 100 to 180:
    the pattern has no way to 81..99. *)
Lemma lon_int_gap (s : list ascii) :
  Matches lon_int s ->
  PyFloat.digits_val s <= 80 \/ 100 <= PyFloat.digits_val s <= 180.
Proof.
  intro H. unfold lon_int in H. split_cat; class_bounds; subst; digits_solve.
Qed.

(** The parts of a longitude, its integer part still known to match. *)
Lemma lon_re_parts (s : list ascii) :
  Matches lon_re s ->
  exists neg ip fp,
    s = sign_chars neg ++ ip ++ "."%char :: fp /\
    Matches lon_int ip /\
    (1 <= List.length fp <= 15)%nat /\
    Forall (fun c => is_digit c = true) fp.
Proof.
  intro H. unfold lon_re in H.
  apply ReFacts.Matches_Cat_inv in H as (s1 & s2 & -> & H1 & H2).
  apply ReFacts.Matches_Cat_inv in H2 as (s3 & s4 & -> & H3 & H4).
  apply Matches_sign in H1 as [neg ->].
  apply frac_part_shape in H4 as (fp & -> & L & F).
  now exists neg, s3, fp.
Qed.

(** The shape of an accepted string, part by part. *)
Lemma coord_regex_parts (s : list ascii) :
  Matches COORD_REGEX_body s ->
  exists lat w1 w2 neg ip fp,
    s = lat ++ w1 ++ ","%char :: w2 ++ sign_chars neg ++ ip ++ "."%char :: fp /\
    decimal_of 90 2 lat /\
    Forall (fun c => is_space c = true) w1 /\
    Forall (fun c => is_space c = true) w2 /\
    Matches lon_int ip /\
    (1 <= List.length fp <= 15)%nat /\
    Forall (fun c => is_digit c = true) fp.
Proof.
  intro H. unfold COORD_REGEX_body, comma_re in H.
  apply ReFacts.Matches_Cat_inv in H as (lat & s2 & -> & Hlat & H2).
  apply ReFacts.Matches_Cat_inv in H2 as (s3 & lon & -> & H3 & Hlon).
  apply ReFacts.Matches_Cat_inv in H3 as (w1 & s4 & -> & Hw1 & H4).
  apply ReFacts.Matches_Cat_inv in H4 as (c & w2 & -> & Hc & Hw2).
  apply Matches_Chr_inv in Hc as ->.
  apply Matches_Star_Cls in Hw1, Hw2.
  apply lat_re_shape in Hlat.
  apply lon_re_parts in Hlon as (neg & ip & fp & -> & Hip & L & F).
  exists lat, w1, w2, neg, ip, fp. repeat split; try assumption; try lia.
  repeat (rewrite <- app_assoc || rewrite <- app_comm_cons). reflexivity.
Qed.

Lemma anchored_shape (r : regex) (s : list ascii) :
  match_anchored r s = true ->
  exists body tl, s = body ++ tl /\ Matches r body /\ (tl = [] \/ tl = [newline]).
Proof.
  intro Hm. apply match_anchored_Matches in Hm as [H | (p & E & H)].
  - exists s, []. rewrite app_nil_r. auto.
  - exists p, [newline]. auto.
Qed.

Lemma digits_no_point (l : list ascii) :
  Forall (fun c => is_digit c = true) l -> filter (Ascii.eqb ".") l = [].
Proof.
  induction 1 as [|c l Hc _ IH]; [reflexivity|].
  cbn [filter]. destruct (Ascii.eqb_spec "." c) as [<-|_]; [discriminate|exact IH].
Qed.

Lemma digits_val_nonempty (l : list ascii) :
  1 <= PyFloat.digits_val l -> l <> [].
Proof. destruct l; [cbn; lia | discriminate]. Qed.

End GrammarMore.

(** X6. Every string [COORD_REGEX] accepts is: an optional minus sign, an
    integer part of one or two digits that is at most 90, a point and 1
    to 15 digits; whitespace, one comma, whitespace; an optional minus
    sign, an integer part of one to three digits that is at most 80 or
    from 100 to 180, a point and 1 to 15 digits; and possibly one final
    newline. So a pair without a fractional part, with a plus sign, with
    an exponent or with text around it is not accepted. *)
Theorem accepted_query_shape (s : string) :
  COORD_REGEX_match s = true ->
  exists (neg1 : bool) (ip1 fp1 w1 w2 : list ascii)
         (neg2 : bool) (ip2 fp2 tl : list ascii),
    chars s = (sign_chars neg1 ++ ip1 ++ "."%char :: fp1 ++ w1
               ++ ","%char :: w2
               ++ sign_chars neg2 ++ ip2 ++ "."%char :: fp2 ++ tl)%list /\
    Forall (fun c => is_digit c = true) ip1 /\
    (1 <= List.length ip1 <= 2)%nat /\
    0 <= PyFloat.digits_val ip1 <= 90 /\
    Forall (fun c => is_digit c = true) fp1 /\
    (1 <= List.length fp1 <= 15)%nat /\
    Forall (fun c => is_space c = true) w1 /\
    Forall (fun c => is_space c = true) w2 /\
    Forall (fun c => is_digit c = true) ip2 /\
    (1 <= List.length ip2 <= 3)%nat /\
    (0 <= PyFloat.digits_val ip2 <= 80 \/
     100 <= PyFloat.digits_val ip2 <= 180) /\
    Forall (fun c => is_digit c = true) fp2 /\
    (1 <= List.length fp2 <= 15)%nat /\
    (tl = [] \/ tl = [newline]).
Proof.
  unfold COORD_REGEX_match. intro Hm.
  apply GrammarMore.anchored_shape in Hm as (body & tl & E & Hb & Htl).
  apply GrammarMore.coord_regex_parts in Hb
    as (lat & w1 & w2 & neg2 & ip2 & fp2 & -> & Hlat & F1 & F2 & Hip & L2 & Ff2).
  destruct Hlat as (neg1 & ip1 & fp1 & -> & (Fi1 & Li1 & V1) & L1 & Ff1).
  pose proof (GrammarFacts.lon_int_shape ip2 Hip) as (Fi2 & Li2 & V2).
  pose proof (GrammarMore.lon_int_gap ip2 Hip) as G.
  exists neg1, ip1, fp1, w1, w2, neg2, ip2, fp2, tl.
  repeat split; try assumption; try lia.
  rewrite E.
  repeat (rewrite <- app_assoc || rewrite <- app_comm_cons). reflexivity.
Qed.

(** X7. A pair whose longitude has an integer part from 81 to 99, such
    as ["10.0,85.5"], is rejected by [COORD_REGEX] whatever stands before
    the comma: the pattern for the integer part of the longitude has no
    alternative for these values. Such a query is not read as
    coordinates. *)
Theorem longitude_81_to_99_rejected
    (before : list ascii) (neg : bool) (ip fp : list ascii) :
  commas before = [] ->
  Forall (fun c => is_digit c = true) ip ->
  81 <= PyFloat.digits_val ip <= 99 ->
  COORD_REGEX_match
    (of_chars (before ++ ","%char :: sign_chars neg ++ ip ++ "."%char :: fp)%list)
  = false.
Proof.
  intros Hb Fi Hv.
  destruct (COORD_REGEX_match _) eqn:Hm; [exfalso|reflexivity].
  unfold COORD_REGEX_match in Hm. rewrite chars_of_chars in Hm.
  apply GrammarMore.anchored_shape in Hm as (body & tl & E & Hbody & Htl).
  apply GrammarMore.coord_regex_parts in Hbody
    as (lat & w1 & w2 & neg' & ip' & fp' & -> & Hlat & F1 & F2 & Hip & L & Ff).
  assert (E' : (before ++ ","%char :: sign_chars neg ++ ip ++ "."%char :: fp
                = (lat ++ w1) ++ ","%char
                    :: (w2 ++ sign_chars neg' ++ ip' ++ "."%char :: (fp' ++ tl)))%list).
  { rewrite E.
    repeat (rewrite <- app_assoc || rewrite <- app_comm_cons). reflexivity. }
  apply BranchFacts.first_separator_unique in E' as [_ E2];
    [| exact Hb | apply (BranchFacts.commas_spaces_decimal _ _ _ _ F1 Hlat)].
  pose proof (GrammarFacts.lon_int_shape ip' Hip) as (Fi' & Li' & _).
  pose proof (GrammarMore.lon_int_gap ip' Hip) as G.
  destruct ip as [|d ip]; [cbn in Hv; lia|].
  destruct ip' as [|d' ip']; [cbn in Li'; lia|].
  inversion Fi as [|? ? Hd _]; subst.
  inversion Fi' as [|? ? Hd' _]; subst.
  assert (Hsd : forall c, is_digit c = true -> is_space c = false).
  { intros c Hc. apply GrammarFacts.is_digit_bounds in Hc.
    unfold is_space. cbv zeta.
    rewrite !orb_false_iff, !andb_false_iff, !Z.eqb_neq, !Z.leb_gt. lia. }
  assert (Hw2 : w2 = []).
  { destruct w2 as [|c w2]; [reflexivity|]. exfalso.
    inversion F2 as [|? ? Hc _]; subst.
    destruct neg; cbn [sign_chars app] in E2; injection E2 as Ec _; subst c.
    - discriminate.
    - rewrite (Hsd d Hd) in Hc. discriminate. }
  subst w2. cbn [app] in E2.
  assert (E3 : ((d :: ip) ++ "."%char :: fp
                = (d' :: ip') ++ "."%char :: (fp' ++ tl))%list).
  { destruct neg, neg'; cbn [sign_chars app] in E2.
    - injection E2; intros; subst; cbn [app]; congruence.
    - injection E2 as Ec _. subst d'. discriminate.
    - injection E2 as Ec _. subst d. discriminate.
    - exact E2. }
  apply BranchFacts.first_separator_unique in E3 as [Eip _];
    [| now apply GrammarMore.digits_no_point
     | now apply GrammarMore.digits_no_point].
  rewrite Eip in Hv. lia.
Qed.

(** ** Further properties of the resolver *)

Section ResolverProperties.

Variable net : string -> http_outcome.
Variable h3 : PyFloat.float -> PyFloat.float -> Z -> completion string.

Lemma requests_of_prints (log : list event) :
  Forall (fun ev => exists line, ev = Print line) log -> requests log = [].
Proof.
  induction 1 as [|ev log [line ->] _ IH]; [reflexivity|exact IH].
Qed.

Lemma candidate_locations_events (q : string) :
  events (candidate_locations net q) =
  if COORD_REGEX_match (of_chars (remove_char " " (chars q)))
     || url_refused (net (search_url q))
  then [] else [the_request q].
Proof.
  destruct (COORD_REGEX_match _) eqn:Hm.
  - rewrite (candidate_locations_coordinates net q Hm).
    now destruct (coordinate_locations q).
  - rewrite (candidate_locations_address net q Hm). apply geocode_events.
Qed.

(** X1. [fetch_geotags] sends at most one request, whatever happens
    afterwards. It sends none for a query that takes the coordinate
    branch, and none when the client refuses the URL built from the
    query, raising [httpx.InvalidURL] while it builds the request. For
    any other query it sends exactly one: the GET of the search URL,
    which is the fixed prefix followed by the query as it is, with the
    fixed [User-Agent] and a timeout of 10 seconds. There is no retry. *)
Theorem one_request_unless_coordinates_or_refused_url (q : string) (res : Z) :
  requests (events (fetch_geotags net h3 q res)) =
  if COORD_REGEX_match (of_chars (remove_char " " (chars q)))
     || url_refused
          (net ("https://nominatim.openstreetmap.org/search?format=json&q=" ++ q))
  then []
  else [HttpGet ("https://nominatim.openstreetmap.org/search?format=json&q=" ++ q)
                "TrackEmDown/1.0 (nikhilsingh.io)" 10].
Proof.
  unfold fetch_geotags. rewrite MFacts.events_bind, candidate_locations_events.
  change ("https://nominatim.openstreetmap.org/search?format=json&q=" ++ q)%string
    with (search_url q).
  destruct (outcome (candidate_locations net q)) as [v|e].
  - unfold requests. rewrite filter_app. fold (requests (events (index_locations h3 v res))).
    rewrite (requests_of_prints _ (index_locations_events h3 v res)).
    rewrite app_nil_r. now destruct (_ || _).
  - now destruct (_ || _).
Qed.

(** What the coordinate branch does once both parts are converted: the
    cell index decides. *)
Lemma fetch_geotags_converted_parts
    (q : string) (res : Z) (lat_str lon_str : list ascii)
    (lat lon : PyFloat.float) :
  COORD_REGEX_match (of_chars (remove_char " " (chars q))) = true ->
  split_on "," (chars q) = [lat_str; lon_str] ->
  PyFloat.of_str lat_str = Some lat ->
  PyFloat.of_str lon_str = Some lon ->
  fetch_geotags net h3 q res =
  match h3 lat lon res with
  | Return cell =>
      ([], Return [mkGeoTagResult (coordinates_label lat lon) lat lon cell])
  | Raise e =>
      if is_ValueError e || is_KeyError e
      then ([Print ("Skipping a location due to parsing error: " ++ str e)],
            Raise (Exn NoResultsFoundError malformed_data_msg))
      else ([], Raise e)
  end.
Proof.
  intros Hm Hs Hlat Hlon.
  rewrite (fetch_geotags_coordinates net h3 q res Hm).
  unfold coordinate_locations. rewrite Hs.
  rewrite (float_of_chars_Some _ _ Hlat), (float_of_chars_Some _ _ Hlon).
  cbn [rbind]. unfold index_locations. cbn [truthy negb iterate].
  rewrite MFacts.bind_lift_Return, build_results_cons.
  unfold convert. cbn [subscript lookup String.eqb Ascii.eqb Bool.eqb rbind Py.float].
  destruct (h3 lat lon res) as [cell|e]; cbn [rbind].
  - reflexivity.
  - destruct (is_ValueError e || is_KeyError e); reflexivity.
Qed.

(** X2. On the coordinate branch, with both parts converted, a failure
    of [h3.latlng_to_cell] is handled by the loop like a malformed record
    of the geocoding service: when the exception derives from
    [ValueError] (or [KeyError]) the one candidate is skipped, a line is
    printed and [fetch_geotags] raises [NoResultsFoundError] with the
    message "Geocoding service returned malformed data.", though no
    service was asked; any other exception leaves [fetch_geotags] as it
    is. The resolver does not check the resolution itself. *)
Theorem cell_index_failure_on_coordinates
    (q : string) (res : Z) (lat_str lon_str : list ascii)
    (lat lon : PyFloat.float) (e : exn) :
  COORD_REGEX_match (of_chars (remove_char " " (chars q))) = true ->
  split_on "," (chars q) = [lat_str; lon_str] ->
  PyFloat.of_str lat_str = Some lat ->
  PyFloat.of_str lon_str = Some lon ->
  h3 lat lon res = Raise e ->
  fetch_geotags net h3 q res =
  if is_ValueError e || is_KeyError e
  then ([Print ("Skipping a location due to parsing error: " ++ str e)],
        Raise (Exn NoResultsFoundError
                   "Geocoding service returned malformed data."))
  else ([], Raise e).
Proof.
  intros Hm Hs Hlat Hlon He.
  rewrite (fetch_geotags_converted_parts q res _ _ _ _ Hm Hs Hlat Hlon), He.
  reflexivity.
Qed.

(** X3. On the coordinate branch [q.split(',')] yields exactly two parts,
    the text before the one comma and the text after it: the unpacking
    into [lat_str, lon_str] cannot fail, and the [try] fails only when
    [float] rejects one of the two parts. *)
Theorem unpacking_never_fails (q : string) :
  COORD_REGEX_match (of_chars (remove_char " " (chars q))) = true ->
  exists lat_str lon_str,
    split_on "," (chars q) = [lat_str; lon_str] /\
    chars q = (lat_str ++ ","%char :: lon_str)%list /\
    (forall e, coordinate_locations q = Raise e ->
               PyFloat.of_str lat_str = None \/ PyFloat.of_str lon_str = None).
Proof.
  intro Hm.
  destruct (GrammarFacts.coordinate_branch_two_parts q Hm) as (a & b & Hs).
  destruct (BranchFacts.split_on_pair _ _ _ _ Hs) as (Eq & _ & _).
  exists a, b. split; [exact Hs|]. split; [exact Eq|].
  intros e. unfold coordinate_locations. rewrite Hs.
  destruct (PyFloat.of_str a) as [fa|] eqn:Ea; [|now left].
  destruct (PyFloat.of_str b) as [fb|] eqn:Eb; [|now right].
  rewrite (float_of_chars_Some _ _ Ea), (float_of_chars_Some _ _ Eb).
  discriminate.
Qed.

(** X4. For a query that takes the coordinate branch and whose whitespace
    is whitespace [float] strips, [fetch_geotags] raises
    [InvalidCoordinatesError] exactly when one of the two comma-split
    parts has a space inside the number (the cell index raising no such
    exception itself). *)
Theorem invalid_coordinates_exactly_for_inner_spaces (q : string) (res : Z) :
  COORD_REGEX_match (of_chars (remove_char " " (chars q))) = true ->
  plain_whitespace (chars q) ->
  (forall lat lon e, h3 lat lon res = Raise e ->
                     is_InvalidCoordinatesError e = false) ->
  ((exists msg, outcome (fetch_geotags net h3 q res)
                = Raise (Exn InvalidCoordinatesError msg)) <->
   exists part, In part (split_on "," (chars q)) /\ space_inside part).
Proof.
  intros Hm Hp Hh3. split.
  - intros [msg H].
    destruct (BranchFacts.coordinate_parts_convert q Hm Hp) as (a & b & Hs & Ha & Hb).
    rewrite Hs.
    destruct (BranchFacts.space_inside_dec a) as [Sa|Na]; [exists a; cbn; tauto|].
    destruct (BranchFacts.space_inside_dec b) as [Sb|Nb]; [exists b; cbn; tauto|].
    exfalso. destruct (Ha Na) as [lat Elat]. destruct (Hb Nb) as [lon Elon].
    rewrite (fetch_geotags_converted_parts q res _ _ _ _ Hm Hs Elat Elon) in H.
    destruct (h3 lat lon res) as [cell|e] eqn:E; [discriminate|].
    specialize (Hh3 _ _ _ E).
    destruct (is_ValueError e || is_KeyError e); cbn in H; [discriminate|].
    injection H as ->. discriminate.
  - intros (part & Hin & Hsp). exists invalid_coordinates_msg.
    rewrite (fetch_geotags_coordinates net h3 q res Hm).
    now destruct (coordinate_locations_space_inside q part Hin Hsp) as [e ->].
Qed.

(** X5. A query that matches [COORD_REGEX] as it is written, and whose
    whitespace is whitespace [float] strips, never raises
    [InvalidCoordinatesError]: it takes the coordinate branch, its two
    parts are converted, and the outcome is that of the cell index on the
    two floats: one result labelled with the coordinates when it returns
    a cell. *)
Theorem matching_query_resolves (q : string) (res : Z) :
  COORD_REGEX_match q = true ->
  plain_whitespace (chars q) ->
  exists lat_str lon_str lat lon,
    split_on "," (chars q) = [lat_str; lon_str] /\
    PyFloat.of_str lat_str = Some lat /\
    PyFloat.of_str lon_str = Some lon /\
    fetch_geotags net h3 q res =
    match h3 lat lon res with
    | Return cell =>
        ([], Return [mkGeoTagResult (coordinates_label lat lon) lat lon cell])
    | Raise e =>
        if is_ValueError e || is_KeyError e
        then ([Print ("Skipping a location due to parsing error: " ++ str e)],
              Raise (Exn NoResultsFoundError malformed_data_msg))
        else ([], Raise e)
    end.
Proof.
  intros Hd Hp.
  pose proof (GrammarFacts.matching_query_takes_coordinate_branch q Hd) as Hm.
  destruct (DirectMatch.direct_match_parts q Hd)
    as (lat & w1 & w2 & lon & tl & Hs & Hlat & Hlon & F1 & F2 & Htl).
  destruct (BranchFacts.split_on_pair _ _ _ _ Hs) as (Eq & _ & _).
  assert (P1 : Forall (fun c => PyFloat.is_float_space c = true) w1).
  { apply (BranchFacts.plain_spaces (chars q)); try assumption.
    intros c Hc. rewrite Eq. apply in_or_app. left. apply in_or_app. now right. }
  assert (P2 : Forall (fun c => PyFloat.is_float_space c = true) w2).
  { apply (BranchFacts.plain_spaces (chars q)); try assumption.
    intros c Hc. rewrite Eq. apply in_or_app. right. right.
    apply in_or_app. now left. }
  assert (P3 : Forall (fun c => PyFloat.is_float_space c = true) tl)
    by (destruct Htl as [-> | ->]; repeat constructor).
  assert (Ea : PyFloat.of_str (lat ++ w1)%list = Some (PyFloat.value lat)).
  { apply (DirectMatch.decimal_between_spaces_converts 90 2 [] lat w1);
      [assumption | constructor | assumption]. }
  assert (Eb : PyFloat.of_str (w2 ++ lon ++ tl)%list = Some (PyFloat.value lon))
    by now apply (DirectMatch.decimal_between_spaces_converts 180 3 w2 lon tl).
  exists (lat ++ w1)%list, (w2 ++ lon ++ tl)%list,
    (PyFloat.value lat), (PyFloat.value lon).
  repeat split; try assumption.
  now apply (fetch_geotags_converted_parts q res (lat ++ w1)%list
                                           (w2 ++ lon ++ tl)%list).
Qed.

(** *** The address branch *)

(** While no candidate aborts, the loop prints one line for each
    candidate it skips and appends the result of each other one. *)
Lemma build_results_lines (res : Z) (locs : list value) :
  forall acc,
    Forall (fun loc => aborts h3 loc res = false) locs ->
    build_results h3 locs res acc
    = (skip_lines h3 locs res, Return (acc ++ converted h3 locs res)%list).
Proof.
  induction locs as [|loc rest IH]; intros acc Hall.
  - cbn. now rewrite app_nil_r.
  - inversion Hall as [|x l Hloc Hrest]; subst.
    rewrite build_results_cons. unfold aborts in Hloc.
    unfold converted, skip_lines. cbn [flat_map].
    fold (converted h3 rest res). fold (skip_lines h3 rest res).
    destruct (convert h3 loc res) as [r|e] eqn:C.
    + rewrite IH by assumption. cbn [app]. now rewrite <- app_assoc.
    + apply negb_false_iff in Hloc. rewrite Hloc.
      rewrite IH by assumption. reflexivity.
Qed.

Lemma converted_skipped_count (res : Z) (locs : list value) :
  (List.length (converted h3 locs res) + List.length (skip_lines h3 locs res)
   = List.length locs)%nat.
Proof.
  unfold converted, skip_lines.
  induction locs as [|loc rest IH]; [reflexivity|].
  cbn [flat_map]. rewrite !length_app.
  destruct (convert h3 loc res); cbn [List.length]; lia.
Qed.

Lemma fetch_geotags_candidates
    (q : string) (res code : Z) (v : value) :
  COORD_REGEX_match (of_chars (remove_char " " (chars q))) = false ->
  net (search_url q) = GetResponse code (Return v) ->
  200 <= code <= 299 ->
  fetch_geotags net h3 q res
  = bind (the_request q :: nil, Return v)
         (fun locations => index_locations h3 locations res).
Proof.
  intros Hm Hn Hc. unfold fetch_geotags.
  rewrite (candidate_locations_address net q Hm).
  rewrite (geocode_success net q code v Hn)
    by (apply andb_true_iff; rewrite !Z.leb_le; lia).
  reflexivity.
Qed.

(** X8. For an address query answered with status 2xx and a JSON array no
    candidate of which aborts the loop, [fetch_geotags] sends its one
    request, prints one line for each candidate it skips and returns the
    results of the other candidates in the order of the array, one for
    each; the candidates are all accounted for. Without a result it
    raises [NoResultsFoundError], with the one message for an empty
    array and the other when every candidate was skipped. *)
Theorem address_results_follow_candidates
    (q : string) (res code : Z) (locs : list value) :
  COORD_REGEX_match (of_chars (remove_char " " (chars q))) = false ->
  net (search_url q) = GetResponse code (Return (VList locs)) ->
  200 <= code <= 299 ->
  Forall (fun loc => aborts h3 loc res = false) locs ->
  fetch_geotags net h3 q res
  = (the_request q :: skip_lines h3 locs res,
     match locs, converted h3 locs res with
     | [], _ => Raise (Exn NoResultsFoundError
                           "No results found for the given query.")
     | _, [] => Raise (Exn NoResultsFoundError
                           "Geocoding service returned malformed data.")
     | _, rs => Return rs
     end)
  /\ (List.length (converted h3 locs res)
      + List.length (skip_lines h3 locs res) = List.length locs)%nat.
Proof.
  intros Hm Hn Hc Hall. split; [|apply converted_skipped_count].
  rewrite (fetch_geotags_candidates q res code _ Hm Hn Hc).
  destruct locs as [|loc locs]; [reflexivity|].
  unfold index_locations, bind. cbn [truthy negb iterate lift].
  rewrite (build_results_lines res (loc :: locs) [] Hall). cbn [app].
  destruct (converted h3 (loc :: locs) res) as [|r rs]; cbn;
    now rewrite ?app_nil_r.
Qed.

(** What a converted candidate is made of. *)
Lemma convert_Return_inv (loc : value) (res : Z) (r : GeoTagResult) :
  convert h3 loc res = Return r ->
  exists d lat_v lon_v,
    loc = VDict d /\
    lookup "lat" d = Some lat_v /\ Py.float lat_v = Return (latitude r) /\
    lookup "lon" d = Some lon_v /\ Py.float lon_v = Return (longitude r) /\
    h3 (latitude r) (longitude r) res = Return (geotag r) /\
    (lookup "display_name" d = Some (VStr (address r)) \/
     lookup "display_name" d = None /\ address r = "N/A").
Proof.
  unfold convert, subscript.
  destruct loc as [| | | | | |d]; try discriminate.
  destruct (lookup "lat" d) as [lat_v|] eqn:L1; [|discriminate]. cbn [rbind].
  destruct (Py.float lat_v) as [lat|] eqn:F1; [|discriminate]. cbn [rbind].
  destruct (lookup "lon" d) as [lon_v|] eqn:L2; [|discriminate]. cbn [rbind].
  destruct (Py.float lon_v) as [lon|] eqn:F2; [|discriminate]. cbn [rbind].
  destruct (h3 lat lon res) as [cell|] eqn:H; [|discriminate]. cbn [rbind get].
  unfold GeoTagResult_new.
  destruct (lookup "display_name" d) as [a|] eqn:L3.
  - destruct a; try discriminate. intro E. injection E as <-.
    exists d, lat_v, lon_v. cbn. repeat split; auto.
  - intro E. injection E as <-.
    exists d, lat_v, lon_v. cbn. repeat split; auto.
Qed.

Lemma In_converted (res : Z) (locs : list value) (r : GeoTagResult) :
  In r (converted h3 locs res) ->
  exists loc, In loc locs /\ convert h3 loc res = Return r.
Proof.
  unfold converted. intro H. apply in_flat_map in H as (loc & Hin & Hr).
  exists loc. split; [assumption|].
  destruct (convert h3 loc res) as [r'|e]; [|contradiction].
  destruct Hr as [->|[]]. reflexivity.
Qed.

(** X9. Every result [fetch_geotags] returns for an address query comes
    from one record of the array the service answered with: its latitude
    and longitude are [float] of the record's [lat] and [lon], its geotag
    is the cell of these two at the resolution, and its address is the
    record's [display_name], or "N/A" when the record has none. *)
Theorem results_come_from_candidates
    (q : string) (res code : Z) (locs : list value) (rs : list GeoTagResult) :
  COORD_REGEX_match (of_chars (remove_char " " (chars q))) = false ->
  net (search_url q) = GetResponse code (Return (VList locs)) ->
  200 <= code <= 299 ->
  outcome (fetch_geotags net h3 q res) = Return rs ->
  Forall (fun r =>
            exists d lat_v lon_v,
              In (VDict d) locs /\
              lookup "lat" d = Some lat_v /\
              Py.float lat_v = Return (latitude r) /\
              lookup "lon" d = Some lon_v /\
              Py.float lon_v = Return (longitude r) /\
              h3 (latitude r) (longitude r) res = Return (geotag r) /\
              (lookup "display_name" d = Some (VStr (address r)) \/
               lookup "display_name" d = None /\ address r = "N/A")) rs.
Proof.
  intros Hm Hn Hc H.
  apply fetch_geotags_Return in H as (v & locs' & C & _ & I & B & _).
  rewrite (candidate_locations_address net q Hm) in C.
  rewrite (geocode_success net q code _ Hn) in C
    by (apply andb_true_iff; rewrite !Z.leb_le; lia).
  cbn in C. injection C as <-. cbn in I. injection I as <-.
  pose proof (build_results_Return_inv h3 res locs [] rs B) as Hna.
  rewrite (build_results_no_abort h3 res locs [] Hna) in B.
  injection B as <-. cbn [app].
  apply Forall_forall. intros r Hr.
  apply In_converted in Hr as (loc & Hin & Hconv).
  apply convert_Return_inv in Hconv
    as (d & lat_v & lon_v & -> & L1 & F1 & L2 & F2 & Hcell & Ha).
  exists d, lat_v, lon_v. repeat split; assumption.
Qed.

(** X10. A response with status 2xx whose JSON is not an array never
    gives results. A value that is false in a condition ([null], [false],
    [0], [""], [{}]) is reported like an empty array, with
    [NoResultsFoundError] "No results found for the given query."; any
    other value, such as an object that describes an error, makes the
    loop raise [TypeError], which is not caught: the resolution is
    aborted. *)
Theorem non_array_response
    (q : string) (res code : Z) (v : value) :
  COORD_REGEX_match (of_chars (remove_char " " (chars q))) = false ->
  net (search_url q) = GetResponse code (Return v) ->
  200 <= code <= 299 ->
  (forall locs, v <> VList locs) ->
  events (fetch_geotags net h3 q res) = [the_request q] /\
  if truthy v
  then exists msg,
      outcome (fetch_geotags net h3 q res) = Raise (Exn TypeError msg)
  else outcome (fetch_geotags net h3 q res)
       = Raise (Exn NoResultsFoundError "No results found for the given query.").
Proof.
  intros Hm Hn Hc Hv.
  rewrite (fetch_geotags_candidates q res code _ Hm Hn Hc).
  unfold index_locations, bind.
  destruct v as [|b|z|f|s|l|d]; cbn [truthy negb iterate lift].
  - split; reflexivity.
  - destruct b; cbn; split; eauto.
  - destruct (z =? 0); cbn; split; eauto.
  - destruct f; cbn; split; eauto.
  - destruct s as [|c s]; cbn [String.eqb negb]; [split; reflexivity|].
    cbn [chars list_ascii_of_string List.map].
    rewrite build_results_cons. cbn. split; eauto.
  - now destruct (Hv l).
  - destruct d as [|[k x] d]; [split; reflexivity|].
    cbn [List.map fst]. rewrite build_results_cons. cbn. split; eauto.
Qed.

End ResolverProperties.

(** ** Further properties of the endpoint *)

Section EndpointProperties.

Variable net : string -> http_outcome.
Variable h3 : PyFloat.float -> PyFloat.float -> Z -> completion string.

(** X11. When the client raises an exception of a class under
    [httpx.RequestError] (the connection errors and the timeouts among
    them), the endpoint answers 503 and its detail is
    "Error connecting to geocoding service: " followed by the message of
    that exception; the one request was sent and nothing else happened. *)
Theorem transport_error_answers_503
    (q : string) (res : Z) (k : httpx_class) (msg : string) :
  COORD_REGEX_match (of_chars (remove_char " " (chars q))) = false ->
  net (search_url q) = GetRaises k msg ->
  k <> HTTPStatusError -> k <> InvalidURL ->
  get_geotag net h3 q res
  = ([the_request q],
     HTTPException 503 ("Error connecting to geocoding service: " ++ msg)).
Proof.
  intros Hm Hn H1 H2. unfold get_geotag, fetch_geotags.
  rewrite (candidate_locations_address net q Hm), (geocode_raises net q _ _ Hn).
  destruct k; try congruence; reflexivity.
Qed.

(** X12. When the body of a response with status 2xx is not JSON, the
    [json.JSONDecodeError] of [response.json()] is a [ValueError], not an
    [httpx.RequestError]: it leaves [fetch_geotags] as it is, and the
    endpoint answers 500, not 503. *)
Theorem undecodable_body_answers_500
    (q : string) (res code : Z) (msg : string) :
  COORD_REGEX_match (of_chars (remove_char " " (chars q))) = false ->
  net (search_url q) = GetResponse code (Raise (Exn JSONDecodeError msg)) ->
  200 <= code <= 299 ->
  fetch_geotags net h3 q res
  = ([the_request q], Raise (Exn JSONDecodeError msg)) /\
  get_geotag net h3 q res
  = ([the_request q],
     HTTPException 500 ("An unexpected error occurred: " ++ msg)).
Proof.
  intros Hm Hn Hc.
  assert (F : fetch_geotags net h3 q res
              = ([the_request q], Raise (Exn JSONDecodeError msg))).
  { unfold fetch_geotags. rewrite (candidate_locations_address net q Hm).
    rewrite (geocode_json_raises net q code _ Hn)
      by (apply andb_true_iff; rewrite !Z.leb_le; lia).
    reflexivity. }
  split; [exact F|]. unfold get_geotag. now rewrite F.
Qed.

Ltac raised_outside :=
  let H := fresh in intro H; injection H as <-; reflexivity.

(** The conversion of a candidate raises an exception of a class of
    [core.py] only if the cell index does. *)
Lemma convert_raises_own (loc : value) (res : Z) (e : exn) :
  (forall lat lon r e', h3 lat lon r = Raise e' -> declared_in_core e' = false) ->
  convert h3 loc res = Raise e ->
  declared_in_core e = false.
Proof.
  intro Hh3. unfold convert.
  assert (Hsub : forall k x, subscript loc k = Raise x ->
                             declared_in_core x = false).
  { intros k x. unfold subscript.
    destruct loc; try raised_outside.
    destruct (lookup k l); [discriminate | raised_outside]. }
  assert (Hfl : forall v x, Py.float v = Raise x -> declared_in_core x = false).
  { intros v x. unfold Py.float.
    destruct v; try raised_outside; try discriminate.
    - destruct (PyFloat.of_int z); [discriminate | raised_outside].
    - destruct (PyFloat.of_str (chars s)); [discriminate | raised_outside]. }
  destruct (subscript loc "lat") as [lat_v|x] eqn:S1; cbn [rbind];
    [|intro H; injection H as <-; eauto].
  destruct (Py.float lat_v) as [lat|x] eqn:F1; cbn [rbind];
    [|intro H; injection H as <-; eauto].
  destruct (subscript loc "lon") as [lon_v|x] eqn:S2; cbn [rbind];
    [|intro H; injection H as <-; eauto].
  destruct (Py.float lon_v) as [lon|x] eqn:F2; cbn [rbind];
    [|intro H; injection H as <-; eauto].
  destruct (h3 lat lon res) as [cell|x] eqn:H3; cbn [rbind];
    [|intro H; injection H as <-; eauto].
  unfold get. destruct loc; cbn [rbind]; try raised_outside.
  unfold GeoTagResult_new.
  destruct (match lookup "display_name" l with Some x => x | None => VStr "N/A" end);
    try raised_outside; discriminate.
Qed.

(** Of the classes of [core.py], the stage after the branches raises
    [NoResultsFoundError] only. *)
Lemma index_locations_raises_own (v : value) (res : Z) (e : exn) :
  (forall lat lon r e', h3 lat lon r = Raise e' -> declared_in_core e' = false) ->
  outcome (index_locations h3 v res) = Raise e ->
  declared_in_core e = true ->
  cls e = NoResultsFoundError.
Proof.
  intros Hh3. unfold index_locations.
  destruct (truthy v); cbn [negb]; [|intro H; injection H as <-; reflexivity].
  destruct (iterate v) as [locs|x] eqn:I.
  - rewrite MFacts.bind_lift_Return, MFacts.outcome_bind.
    destruct (outcome (build_results h3 locs res [])) as [[|r rs]|x] eqn:B.
    + intro H; injection H as <-; reflexivity.
    + discriminate.
    + intro H. injection H as ->.
      apply build_results_Raise_inv in B as (loc & _ & C & _).
      apply (convert_raises_own loc res e Hh3) in C. congruence.
  - cbn. intro H. injection H as <-.
    destruct v; try discriminate; cbn in I; injection I as <-; discriminate.
Qed.

(** Where the exceptions of [core.py] come from, branch by branch. *)
Lemma fetch_geotags_raises_own (q : string) (res : Z) (e : exn) :
  externals_own_classes net h3 ->
  fetch_geotags net h3 q res = (events (fetch_geotags net h3 q res), Raise e) ->
  (is_InvalidCoordinatesError e = true ->
   COORD_REGEX_match (of_chars (remove_char " " (chars q))) = true /\
   events (fetch_geotags net h3 q res) = [] /\
   str e = invalid_coordinates_msg) /\
  (is_GeocodingServiceError e = true ->
   COORD_REGEX_match (of_chars (remove_char " " (chars q))) = false /\
   events (fetch_geotags net h3 q res) = [the_request q] /\
   exists x, is_RequestError x = true /\
             str e = "Error connecting to geocoding service: " ++ str x /\
             (net (search_url q) = GetRaises
                                     match cls x with Httpx k => k | _ => ConnectError end
                                     (str x) \/
              exists code, net (search_url q) = GetResponse code (Raise x))).
Proof.
  intros [Hjson Hh3] HF.
  destruct (COORD_REGEX_match (of_chars (remove_char " " (chars q)))) eqn:Hm.
  - rewrite (fetch_geotags_coordinates net h3 q res Hm) in HF |- *.
    destruct (coordinate_locations q) as [v|x].
    + assert (Ho : outcome (index_locations h3 v res) = Raise e)
        by (now rewrite HF).
      split; intro Hc.
      * apply (index_locations_raises_own v res e Hh3) in Ho;
          [|unfold declared_in_core, is_InvalidCoordinatesError in *;
            now destruct (cls e)].
        unfold is_InvalidCoordinatesError in Hc. rewrite Ho in Hc. discriminate.
      * apply (index_locations_raises_own v res e Hh3) in Ho;
          [|unfold declared_in_core, is_GeocodingServiceError in *;
            now destruct (cls e)].
        unfold is_GeocodingServiceError in Hc. rewrite Ho in Hc. discriminate.
    + cbn in HF. injection HF as <-. split; [now split|discriminate].
  - assert (Ho : outcome (fetch_geotags net h3 q res) = Raise e)
      by (now rewrite HF).
    assert (Hev : forall x, outcome (geocode net q) = Raise x ->
                            url_refused (net (search_url q)) = false ->
                            events (fetch_geotags net h3 q res) = [the_request q]).
    { intros x Hx Hr. unfold fetch_geotags.
      rewrite MFacts.events_bind, (candidate_locations_address net q Hm), Hx.
      now rewrite geocode_events, Hr. }
    unfold fetch_geotags in Ho.
    rewrite MFacts.outcome_bind, (candidate_locations_address net q Hm) in Ho.
    destruct (outcome (geocode net q)) as [v|x] eqn:G.
    + split; intro Hc; exfalso.
      * apply (index_locations_raises_own v res e Hh3) in Ho;
          [|unfold declared_in_core, is_InvalidCoordinatesError in *;
            now destruct (cls e)].
        unfold is_InvalidCoordinatesError in Hc. rewrite Ho in Hc. discriminate.
      * apply (index_locations_raises_own v res e Hh3) in Ho;
          [|unfold declared_in_core, is_GeocodingServiceError in *;
            now destruct (cls e)].
        unfold is_GeocodingServiceError in Hc. rewrite Ho in Hc. discriminate.
    + injection Ho as ->. specialize (Hev e eq_refl).
      destruct (net (search_url q)) as [k msg|code json] eqn:Hn.
      * rewrite (geocode_raises net q _ _ Hn) in G. cbn [outcome snd] in G.
        destruct (is_RequestError (Exn (Httpx k) msg)) eqn:Hr;
          injection G as <-; (split; [discriminate|]); intro Hc;
          [|discriminate].
        split; [reflexivity|].
        split; [exact (Hev (request_error_not_refused k msg Hr))|].
        exists (Exn (Httpx k) msg). split; [exact Hr|]. split; [reflexivity|].
        now left.
      * destruct ((200 <=? code) && (code <=? 299)) eqn:Hcode.
        -- destruct json as [v|x].
           ++ rewrite (geocode_success net q _ _ Hn Hcode) in G. discriminate.
           ++ rewrite (geocode_json_raises net q _ _ Hn Hcode) in G.
              cbn [outcome snd] in G.
              destruct (is_RequestError x) eqn:Hr; injection G as <-.
              ** split; [discriminate|]. intros _.
                 split; [reflexivity|]. split; [exact (Hev eq_refl)|].
                 exists x. split; [exact Hr|]. split; [reflexivity|].
                 right. now exists code.
              ** pose proof (Hjson _ _ _ Hn) as Hx.
                 split; intro Hc; exfalso;
                   unfold declared_in_core, is_InvalidCoordinatesError,
                     is_GeocodingServiceError in *;
                   destruct (cls x); discriminate.
        -- destruct (geocode_status_error net q _ _ Hn Hcode) as [msg G'].
           rewrite G' in G. cbn in G. injection G as <-.
           split; discriminate.
Qed.

(** X13. The endpoint answers 400 only for a query that takes the
    coordinate branch, without any request having been sent, and its
    detail is then "Invalid coordinate format. Use
    'latitude,longitude'."; it answers 503 only for a query that takes
    the address branch, after the one request, when the client or the
    decoding of the response raised an exception under
    [httpx.RequestError], whose message ends the detail. (The
    collaborators raise exceptions of their own classes only.) *)
Theorem client_and_service_errors_by_branch
    (q : string) (res : Z) (detail : string) :
  externals_own_classes net h3 ->
  (snd (get_geotag net h3 q res) = HTTPException 400 detail ->
   COORD_REGEX_match (of_chars (remove_char " " (chars q))) = true /\
   fst (get_geotag net h3 q res) = [] /\
   detail = "Invalid coordinate format. Use 'latitude,longitude'.") /\
  (snd (get_geotag net h3 q res) = HTTPException 503 detail ->
   COORD_REGEX_match (of_chars (remove_char " " (chars q))) = false /\
   fst (get_geotag net h3 q res) = [the_request q] /\
   exists cause,
     detail = "Error connecting to geocoding service: " ++ cause).
Proof.
  intro Hext.
  pose proof (fun e => fetch_geotags_raises_own q res e Hext) as Hown.
  unfold get_geotag.
  destruct (fetch_geotags net h3 q res) as [log [rs|e]] eqn:F; cbn [fst snd].
  - split; discriminate.
  - cbn [events fst] in Hown. specialize (Hown e eq_refl) as [Hice Hgse].
    destruct (is_InvalidCoordinatesError e) eqn:E1.
    + split; [|discriminate]. intro H. injection H as <-.
      destruct (Hice eq_refl) as (Hm & Hev & Hs). now repeat split.
    + destruct (is_NoResultsFoundError e) eqn:E2; [split; discriminate|].
      destruct (is_GeocodingServiceError e) eqn:E3; [|split; discriminate].
      split; [discriminate|]. intro H. injection H as <-.
      destruct (Hgse eq_refl) as (Hm & Hev & x & _ & Hs & _).
      repeat split; try assumption. now exists (str x).
Qed.

End EndpointProperties.

(** ** The interactive page *)

Section PageProperties.

Variable net : string -> http_outcome.
Variable h3 : PyFloat.float -> PyFloat.float -> Z -> completion string.
Variable c2b : string -> completion (list (PyFloat.float * PyFloat.float)).

Local Open Scope list_scope.

(** The loop of [create_map] adds, for each geotag, the outline the [try]
    builds or prints a line. *)
Lemma draw_hexagons_spec (geotags : list string) :
  forall (i : nat) (traces : list App.Scattermap),
  exists outlines,
    snd (App.draw_hexagons c2b i geotags traces) = traces ++ outlines /\
    Forall (fun t => exists j g,
                nth_error geotags j = Some g /\
                App.hexagon_trace c2b (i + j) g = Return t) outlines /\
    (List.length outlines
     + List.length (fst (App.draw_hexagons c2b i geotags traces))
     = List.length geotags)%nat /\
    Forall (fun ev => exists line, ev = Print line)
           (fst (App.draw_hexagons c2b i geotags traces)).
Proof.
  induction geotags as [|g rest IH]; intros i traces.
  - exists []. cbn. rewrite app_nil_r. repeat split; constructor.
  - cbn [App.draw_hexagons].
    destruct (App.hexagon_trace c2b i g) as [t|e] eqn:H.
    + destruct (IH (S i) (traces ++ [t])) as (out & E & F & L & P).
      exists (t :: out). rewrite E, <- app_assoc. cbn [app].
      split; [reflexivity|]. split; [|split; [cbn [List.length]; lia | exact P]].
      constructor.
      * exists 0%nat, g. split; [reflexivity|]. now rewrite Nat.add_0_r.
      * eapply Forall_impl; [|exact F]. intros t' (j & g' & Hn & Ht).
        exists (S j), g'. split; [exact Hn|]. now rewrite Nat.add_succ_r.
    + destruct (IH (S i) traces) as (out & E & F & L & P).
      destruct (App.draw_hexagons c2b (S i) rest traces) as [log traces'].
      cbn [fst snd] in *. exists out. split; [exact E|].
      split; [|split; [cbn [List.length]; lia | constructor; eauto]].
      eapply Forall_impl; [|exact F]. intros t' (j & g' & Hn & Ht).
      exists (S j), g'. split; [exact Hn|]. now rewrite Nat.add_succ_r.
Qed.

(** The figure for a non-empty list of results. *)
Lemma create_map_figure (r : GeoTagResult) (rest : list GeoTagResult) :
  exists outlines,
    App.data (snd (App.create_map c2b (r :: rest)))
    = outlines ++ [App.locations_trace (r :: rest)] /\
    (List.length outlines + List.length (fst (App.create_map c2b (r :: rest)))
     = List.length (r :: rest))%nat /\
    Forall (fun t => App.mode t = "lines"%string) outlines /\
    option_map App.center
               (App.map (App.layout (snd (App.create_map c2b (r :: rest)))))
    = Some (VFloat (latitude r), VFloat (longitude r)) /\
    Forall (fun ev => exists line, ev = Print line)
           (fst (App.create_map c2b (r :: rest))).
Proof.
  unfold App.create_map.
  destruct (draw_hexagons_spec (List.map geotag (r :: rest)) 0 [])
    as (out & E & F & L & P).
  destruct (App.draw_hexagons c2b 0 (List.map geotag (r :: rest)) [])
    as [log traces].
  cbn [fst snd App.data App.layout App.map option_map App.center] in *.
  exists out. rewrite E. cbn [app].
  split; [reflexivity|]. split; [now rewrite length_map in L|].
  split; [|split; [reflexivity | exact P]].
  eapply Forall_impl; [|exact F]. intros t (j & g & _ & Ht).
  unfold App.hexagon_trace in Ht.
  destruct (c2b g) as [[|v vs]|]; cbn [rbind] in Ht; try discriminate.
  injection Ht as <-. reflexivity.
Qed.

(** X14. The figure [create_map] builds for a non-empty list of results
    has, first, the outlines of the cells: for each result either one
    outline or one printed line, so that a cell whose boundary cannot be
    had loses its outline only; and, last, the one trace of the markers,
    with one marker for every result, in order, those without an outline
    included. The map is centred on the first result. Nothing is sent. *)
Theorem create_map_marks_every_result
    (r : GeoTagResult) (rest : list GeoTagResult) :
  let results := r :: rest in
  let log := fst (App.create_map c2b results) in
  let fig := snd (App.create_map c2b results) in
  exists outlines,
    App.data fig = outlines ++ [App.locations_trace results] /\
    (List.length outlines + List.length log = List.length results)%nat /\
    Forall (fun t => App.mode t = "lines"%string) outlines /\
    App.lat (App.locations_trace results) = List.map latitude results /\
    App.lon (App.locations_trace results) = List.map longitude results /\
    option_map App.center (App.map (App.layout fig))
    = Some (VFloat (latitude r), VFloat (longitude r)) /\
    requests log = [].
Proof.
  intros results log fig. subst results log fig.
  destruct (create_map_figure r rest) as (out & E & L & F & C & P).
  exists out. repeat split; try assumption.
  now apply requests_of_prints.
Qed.

(** X15. Every outline of the figure is the boundary of the cell of one
    of the results, closed: the vertices [h3.cell_to_boundary] gives for
    the geotag of the result at some position [j], in their order,
    followed by the first vertex again; the outline is named after the
    position, "H3 Hexagon j+1", and takes the color at [j] modulo the ten
    colors. *)
Theorem outlines_are_closed_boundaries
    (results : list GeoTagResult) (t : App.Scattermap) :
  In t (App.data (snd (App.create_map c2b results))) ->
  App.mode t = "lines"%string ->
  exists j r v vs,
    nth_error results j = Some r /\
    c2b (geotag r) = Return (v :: vs) /\
    App.lat t = fst v :: List.map fst vs ++ [fst v] /\
    App.lon t = snd v :: List.map snd vs ++ [snd v] /\
    App.name t = ("H3 Hexagon " ++ App.str_of_nat (j + 1))%string /\
    App.line t = Some (2, nth (j mod 10) App.colors ""%string).
Proof.
  destruct results as [|r0 rest]; [intros []|].
  unfold App.create_map.
  destruct (draw_hexagons_spec (List.map geotag (r0 :: rest)) 0 [])
    as (out & E & F & _ & _).
  destruct (App.draw_hexagons c2b 0 (List.map geotag (r0 :: rest)) [])
    as [log traces].
  cbn [fst snd App.data] in *. rewrite E. cbn [app].
  intros Hin Hmode. apply in_app_or in Hin as [Hin | [<- | []]];
    [|discriminate].
  rewrite Forall_forall in F. destruct (F t Hin) as (j & g & Hn & Ht).
  rewrite nth_error_map in Hn.
  destruct (nth_error (r0 :: rest) j) as [r|] eqn:Hr; [|discriminate].
  cbn in Hn. injection Hn as <-.
  unfold App.hexagon_trace in Ht. cbn [Nat.add] in Ht.
  destruct (c2b (geotag r)) as [[|v vs]|] eqn:B; cbn [rbind] in Ht;
    try discriminate.
  injection Ht as <-.
  exists j, r, v, vs. split; [exact Hr|]. split; [exact B|].
  repeat split; reflexivity.
Qed.

(** X16. The page gives its three outputs whatever the resolver does,
    and they agree: when [fetch_geotags] raises, the table is empty, the
    figure has no trace and the error box is shown with "Error: "
    followed by the message; when it returns, the table has one row for
    each result, in order, and is not empty, and the error box is hidden.
    So the error box is shown exactly when the table is empty. *)
Theorem page_outputs_agree (q : string) (res : Z) :
  let out := snd (App.get_geotags_async net h3 c2b q res) in
  let table := fst (fst out) in
  let fig := snd (fst out) in
  let box := snd out in
  (forall e,
      outcome (fetch_geotags net h3 q res) = Raise e ->
      table = [] /\ fig = App.error_figure /\
      box = App.mkUpdate (Some ("Error: " ++ str e)%string) true) /\
  (forall rs,
      outcome (fetch_geotags net h3 q res) = Return rs ->
      table = List.map App.table_row rs /\ table <> [] /\
      fig = snd (App.create_map c2b rs) /\
      box = App.mkUpdate None false) /\
  (App.visible box = true <-> table = []).
Proof.
  intros out table fig box. subst out table fig box.
  unfold App.get_geotags_async.
  pose proof (fetch_geotags_Return net h3 q res) as Hret.
  destruct (fetch_geotags net h3 q res) as [log [rs|e]]; cbn [outcome snd] in *.
  - destruct (Hret rs eq_refl) as (_ & _ & _ & _ & _ & _ & Hne).
    destruct (App.create_map c2b rs) as [log' fig] eqn:CM. cbn [fst snd].
    assert (Hrows : List.map App.table_row rs <> [])
      by (destruct rs; [congruence | discriminate]).
    split; [discriminate|]. split.
    + intros rs' E. injection E as <-. rewrite CM.
      split; [reflexivity|]. split; [exact Hrows|]. split; reflexivity.
    + cbn. split; [discriminate | intro H; now destruct (Hrows H)].
  - cbn [fst snd]. split.
    + intros e' E. injection E as <-. now repeat split.
    + split; [discriminate|]. cbn. split; reflexivity.
Qed.

(** X17. For a coordinate query that resolves, the one row of the table
    is consistent with itself: its Address is "Coordinates: " followed by
    its Latitude column, ", " and its Longitude column, and the map is
    centred on the two floats, with one marker there. *)
Theorem coordinate_query_row
    (q : string) (res : Z) (lat_str lon_str : list ascii)
    (lat lon : PyFloat.float) (cell : string) :
  COORD_REGEX_match (of_chars (remove_char " " (chars q))) = true ->
  split_on "," (chars q) = [lat_str; lon_str] ->
  PyFloat.of_str lat_str = Some lat ->
  PyFloat.of_str lon_str = Some lon ->
  h3 lat lon res = Return cell ->
  let out := snd (App.get_geotags_async net h3 c2b q res) in
  fst (fst out)
  = [[("Coordinates: " ++ App.fmt6 lat ++ ", " ++ App.fmt6 lon)%string;
      App.fmt6 lat; App.fmt6 lon; cell]] /\
  snd out = App.mkUpdate None false /\
  option_map App.center (App.map (App.layout (snd (fst out))))
  = Some (VFloat lat, VFloat lon) /\
  exists outlines,
    App.data (snd (fst out))
    = outlines
        ++ [App.locations_trace
              [mkGeoTagResult (coordinates_label lat lon) lat lon cell]].
Proof.
  intros Hm Hs Hlat Hlon Hcell out. subst out.
  unfold App.get_geotags_async.
  rewrite (fetch_geotags_converted_parts net h3 q res _ _ _ _ Hm Hs Hlat Hlon).
  rewrite Hcell.
  set (r := mkGeoTagResult (coordinates_label lat lon) lat lon cell).
  destruct (create_map_figure r []) as (out & E & _ & _ & C & _).
  destruct (App.create_map c2b [r]) as [log fig]. cbn [fst snd] in *.
  repeat split; try assumption. now exists out.
Qed.

End PageProperties.

(** ** The further properties on concrete queries *)

Lemma cell_index_failure_on_coordinates_example :
  COORD_REGEX_match
    (of_chars (remove_char " " (chars "37.422000, -122.084000"))) = true /\
  sample_cell (S754_finite false 5266678289233084 (-47))
              (S754_finite true 8590897764185932 (-46)) 99
  = Raise (Exn (OtherError "H3ResDomainError" true) "resolution out of range") /\
  fetch_geotags service_refusing sample_cell "37.422000, -122.084000" 99
  = ([Print "Skipping a location due to parsing error: resolution out of range"],
     Raise (Exn NoResultsFoundError "Geocoding service returned malformed data.")).
Proof.
  assert (Hm : COORD_REGEX_match
                 (of_chars (remove_char " " (chars "37.422000, -122.084000")))
               = true) by (vm_compute; reflexivity).
  split; [exact Hm|]. split; [reflexivity|].
  exact (cell_index_failure_on_coordinates service_refusing sample_cell
           "37.422000, -122.084000" 99
           (chars "37.422000") (chars " -122.084000")
           (S754_finite false 5266678289233084 (-47))
           (S754_finite true 8590897764185932 (-46))
           (Exn (OtherError "H3ResDomainError" true) "resolution out of range")
           Hm eq_refl eq_refl eq_refl eq_refl).
Defined.

Lemma unpacking_never_fails_example :
  COORD_REGEX_match
    (of_chars (remove_char " " (chars "37.422000, -122.084000"))) = true /\
  exists lat_str lon_str,
    split_on "," (chars "37.422000, -122.084000") = [lat_str; lon_str].
Proof.
  assert (Hm : COORD_REGEX_match
                 (of_chars (remove_char " " (chars "37.422000, -122.084000")))
               = true) by (vm_compute; reflexivity).
  split; [exact Hm|].
  destruct (unpacking_never_fails "37.422000, -122.084000" Hm)
    as (a & b & Hs & _).
  now exists a, b.
Defined.

Ltac plain_whitespace_here :=
  repeat constructor;
  let H := fresh in
  intro H; first [reflexivity | vm_compute in H; discriminate H].

Lemma invalid_coordinates_exactly_for_inner_spaces_example :
  COORD_REGEX_match (of_chars (remove_char " " (chars "3 7.5,10.0"))) = true /\
  plain_whitespace (chars "3 7.5,10.0") /\
  (exists part, In part (split_on "," (chars "3 7.5,10.0")) /\ space_inside part) /\
  exists msg,
    outcome (fetch_geotags service_refusing sample_cell "3 7.5,10.0" 9)
    = Raise (Exn InvalidCoordinatesError msg).
Proof.
  assert (Hm : COORD_REGEX_match (of_chars (remove_char " " (chars "3 7.5,10.0")))
               = true) by (vm_compute; reflexivity).
  assert (Hp : plain_whitespace (chars "3 7.5,10.0"))
    by (unfold plain_whitespace; plain_whitespace_here).
  assert (Hs : exists part, In part (split_on "," (chars "3 7.5,10.0"))
                            /\ space_inside part).
  { exists (chars "3 7.5"). split; [left; reflexivity | right; left; reflexivity]. }
  repeat (split; [assumption|]).
  apply (invalid_coordinates_exactly_for_inner_spaces
           service_refusing sample_cell "3 7.5,10.0" 9 Hm Hp); [|exact Hs].
  intros lat lon e. unfold sample_cell. cbn. discriminate.
Defined.

Lemma matching_query_resolves_example :
  COORD_REGEX_match "37.422000, -122.084000" = true /\
  plain_whitespace (chars "37.422000, -122.084000") /\
  exists lat lon,
    fetch_geotags service_refusing sample_cell "37.422000, -122.084000" 9
    = match sample_cell lat lon 9 with
      | Return cell =>
          ([], Return [mkGeoTagResult (coordinates_label lat lon) lat lon cell])
      | Raise e =>
          if is_ValueError e || is_KeyError e
          then ([Print ("Skipping a location due to parsing error: " ++ str e)],
                Raise (Exn NoResultsFoundError malformed_data_msg))
          else ([], Raise e)
      end.
Proof.
  assert (Hm : COORD_REGEX_match "37.422000, -122.084000" = true)
    by (vm_compute; reflexivity).
  assert (Hp : plain_whitespace (chars "37.422000, -122.084000"))
    by (unfold plain_whitespace; plain_whitespace_here).
  repeat (split; [assumption|]).
  destruct (matching_query_resolves service_refusing sample_cell
              "37.422000, -122.084000" 9 Hm Hp)
    as (a & b & lat & lon & _ & _ & _ & F).
  now exists lat, lon.
Defined.

Lemma accepted_query_shape_example :
  COORD_REGEX_match "-90.5,0.0" = true /\
  exists ip1 fp1 ip2 fp2,
    chars "-90.5,0.0"
    = (["-"%char] ++ ip1 ++ "."%char :: fp1 ++ ","%char :: ip2 ++ "."%char :: fp2)%list.
Proof.
  assert (Hm : COORD_REGEX_match "-90.5,0.0" = true) by (vm_compute; reflexivity).
  split; [exact Hm|].
  exists (chars "90"), (chars "5"), (chars "0"), (chars "0").
  destruct (accepted_query_shape "-90.5,0.0" Hm) as (n & _).
  reflexivity.
Defined.

Lemma longitude_81_to_99_rejected_example :
  commas (chars "10.0") = [] /\
  81 <= PyFloat.digits_val (chars "85") <= 99 /\
  COORD_REGEX_match "10.0,85.5" = false.
Proof.
  assert (E : PyFloat.digits_val (chars "85") = 85) by (vm_compute; reflexivity).
  split; [reflexivity|]. split; [rewrite E; lia|].
  apply (longitude_81_to_99_rejected (chars "10.0") false (chars "85") (chars "5")).
  - reflexivity.
  - repeat constructor.
  - rewrite E. lia.
Defined.

Lemma address_results_follow_candidates_example :
  COORD_REGEX_match (of_chars (remove_char " " (chars "Berlin"))) = false /\
  exists r1 r2 line,
    fetch_geotags service_one_bad_string sample_cell "Berlin" 9
    = ([the_request "Berlin"; Print line], Return [r1; r2]).
Proof.
  assert (Hm : COORD_REGEX_match (of_chars (remove_char " " (chars "Berlin")))
               = false) by (vm_compute; reflexivity).
  split; [exact Hm|].
  destruct (address_results_follow_candidates service_one_bad_string sample_cell
              "Berlin" 9 200
              [candidate (VStr "52.5") (VStr "13.4") "Berlin";
               candidate (VStr "n/a") (VStr "13.4") "Berlin?";
               candidate (VStr "48.1") (VStr "11.6") "Munich"]
              Hm eq_refl) as [F _].
  - lia.
  - repeat constructor.
  - rewrite F. do 3 eexists. vm_compute. reflexivity.
Defined.

Lemma results_come_from_candidates_example :
  COORD_REGEX_match (of_chars (remove_char " " (chars "Berlin"))) = false /\
  exists rs,
    outcome (fetch_geotags service_one_bad_string sample_cell "Berlin" 9)
    = Return rs /\
    Forall (fun r => address r = "Berlin" \/ address r = "Berlin?"
                     \/ address r = "Munich") rs.
Proof.
  assert (Hm : COORD_REGEX_match (of_chars (remove_char " " (chars "Berlin")))
               = false) by (vm_compute; reflexivity).
  split; [exact Hm|].
  destruct (outcome (fetch_geotags service_one_bad_string sample_cell "Berlin" 9))
    as [rs|e] eqn:F; [|vm_compute in F; discriminate F].
  exists rs. split; [reflexivity|].
  pose proof (results_come_from_candidates service_one_bad_string sample_cell
                "Berlin" 9 200
                [candidate (VStr "52.5") (VStr "13.4") "Berlin";
                 candidate (VStr "n/a") (VStr "13.4") "Berlin?";
                 candidate (VStr "48.1") (VStr "11.6") "Munich"]
                rs Hm eq_refl) as H.
  eapply Forall_impl; [|apply H; [lia | exact F]].
  intros r (d & lat_v & lon_v & Hin & _ & _ & _ & _ & _ & Ha).
  destruct Hin as [E | [E | [E | []]]]; injection E as <-;
    destruct Ha as [Ha | [Ha _]]; try discriminate Ha;
    cbn in Ha; injection Ha as Ha; rewrite <- Ha; auto.
Defined.

Lemma non_array_response_example :
  COORD_REGEX_match (of_chars (remove_char " " (chars "Berlin"))) = false /\
  exists msg,
    outcome (fetch_geotags service_error_object sample_cell "Berlin" 9)
    = Raise (Exn TypeError msg).
Proof.
  assert (Hm : COORD_REGEX_match (of_chars (remove_char " " (chars "Berlin")))
               = false) by (vm_compute; reflexivity).
  split; [exact Hm|].
  destruct (non_array_response service_error_object sample_cell "Berlin" 9 200
              (VDict [("error", VStr "Unable to geocode")]) Hm eq_refl)
    as [_ H]; [lia | discriminate | exact H].
Defined.

Lemma transport_error_answers_503_example :
  COORD_REGEX_match (of_chars (remove_char " " (chars "Berlin"))) = false /\
  get_geotag service_refusing sample_cell "Berlin" 9
  = ([the_request "Berlin"],
     HTTPException 503
       "Error connecting to geocoding service: All connection attempts failed").
Proof.
  assert (Hm : COORD_REGEX_match (of_chars (remove_char " " (chars "Berlin")))
               = false) by (vm_compute; reflexivity).
  split; [exact Hm|].
  apply (transport_error_answers_503 service_refusing sample_cell "Berlin" 9
           ConnectError "All connection attempts failed" Hm eq_refl);
    discriminate.
Defined.

Lemma undecodable_body_answers_500_example :
  COORD_REGEX_match (of_chars (remove_char " " (chars "Berlin"))) = false /\
  get_geotag service_not_json sample_cell "Berlin" 9
  = ([the_request "Berlin"],
     HTTPException 500
       "An unexpected error occurred: Expecting value: line 1 column 1 (char 0)").
Proof.
  assert (Hm : COORD_REGEX_match (of_chars (remove_char " " (chars "Berlin")))
               = false) by (vm_compute; reflexivity).
  split; [exact Hm|].
  destruct (undecodable_body_answers_500 service_not_json sample_cell "Berlin" 9
              200 "Expecting value: line 1 column 1 (char 0)" Hm eq_refl)
    as [_ G]; [lia | exact G].
Defined.

Lemma sample_externals_own_classes (http_get : string -> http_outcome) :
  (forall url code e, http_get url <> GetResponse code (Raise e)) ->
  externals_own_classes http_get sample_cell.
Proof.
  intro H. split.
  - intros url code e E. now destruct (H url code e).
  - intros lat lon res e. unfold sample_cell.
    destruct ((0 <=? res) && (res <=? 15)); [discriminate|].
    intro E. injection E as <-. reflexivity.
Defined.

Lemma client_and_service_errors_by_branch_example :
  externals_own_classes service_refusing sample_cell /\
  snd (get_geotag service_refusing sample_cell "Berlin" 9)
  = HTTPException 503
      "Error connecting to geocoding service: All connection attempts failed" /\
  COORD_REGEX_match (of_chars (remove_char " " (chars "Berlin"))) = false /\
  fst (get_geotag service_refusing sample_cell "Berlin" 9) = [the_request "Berlin"].
Proof.
  assert (Hext : externals_own_classes service_refusing sample_cell)
    by (apply sample_externals_own_classes; discriminate).
  assert (G : snd (get_geotag service_refusing sample_cell "Berlin" 9)
              = HTTPException 503
                  "Error connecting to geocoding service: All connection attempts failed")
    by (vm_compute; reflexivity).
  split; [exact Hext|]. split; [exact G|].
  destruct (client_and_service_errors_by_branch service_refusing sample_cell
              "Berlin" 9
              "Error connecting to geocoding service: All connection attempts failed"
              Hext) as [_ H].
  destruct (H G) as (Hm & Hev & _). now split.
Defined.

Lemma outlines_are_closed_boundaries_example :
  let r := mkGeoTagResult "Berlin" (PyFloat.of_decimal false 525 (-1))
                          (PyFloat.of_decimal false 134 (-1)) "8c1f" in
  exists t,
    In t (App.data (snd (App.create_map sample_boundary [r]))) /\
    App.mode t = "lines" /\
    List.length (App.lat t) = 4%nat /\
    hd_error (App.lat t) = Some (PyFloat.of_decimal false 1 0) /\
    nth_error (App.lat t) 3 = Some (PyFloat.of_decimal false 1 0).
Proof.
  intro r.
  assert (D : exists t ts,
             App.data (snd (App.create_map sample_boundary [r])) = t :: ts /\
             App.mode t = "lines") by (vm_compute; eauto).
  destruct D as (t & ts & D & Hmode).
  assert (Hin : In t (App.data (snd (App.create_map sample_boundary [r]))))
    by (rewrite D; now left).
  exists t. split; [exact Hin|]. split; [exact Hmode|].
  destruct (outlines_are_closed_boundaries sample_boundary [r] t Hin Hmode)
    as (j & r' & v & vs & Hn & B & Hlat & _).
  destruct j as [|j]; [|destruct j; discriminate Hn].
  cbn in Hn. injection Hn as <-.
  vm_compute in B. injection B as <- <-.
  rewrite Hlat. repeat split; reflexivity.
Defined.

Lemma page_outputs_agree_example :
  outcome (fetch_geotags service_refusing sample_cell "Berlin" 9)
  = Raise (Exn GeocodingServiceError
               "Error connecting to geocoding service: All connection attempts failed") /\
  snd (App.get_geotags_async service_refusing sample_cell sample_boundary
                             "Berlin" 9)
  = ([], App.error_figure,
     App.mkUpdate
       (Some "Error: Error connecting to geocoding service: All connection attempts failed")
       true).
Proof.
  assert (F : outcome (fetch_geotags service_refusing sample_cell "Berlin" 9)
              = Raise (Exn GeocodingServiceError
                           "Error connecting to geocoding service: All connection attempts failed"))
    by (vm_compute; reflexivity).
  split; [exact F|].
  destruct (page_outputs_agree service_refusing sample_cell sample_boundary
              "Berlin" 9) as (H & _).
  destruct (H _ F) as (Ht & Hf & Hb).
  destruct (snd (App.get_geotags_async service_refusing sample_cell
                                       sample_boundary "Berlin" 9))
    as [[table fig] box].
  cbn [fst snd] in *. now subst.
Defined.

Lemma coordinate_query_row_example :
  COORD_REGEX_match
    (of_chars (remove_char " " (chars "37.422000, -122.084000"))) = true /\
  fst (fst (snd (App.get_geotags_async service_refusing sample_cell
                                       sample_boundary
                                       "37.422000, -122.084000" 9)))
  = [["Coordinates: 37.422000, -122.084000"; "37.422000"; "-122.084000";
      "cell-9@37.422000,-122.084000"]].
Proof.
  assert (Hm : COORD_REGEX_match
                 (of_chars (remove_char " " (chars "37.422000, -122.084000")))
               = true) by (vm_compute; reflexivity).
  split; [exact Hm|].
  destruct (coordinate_query_row service_refusing sample_cell sample_boundary
              "37.422000, -122.084000" 9
              (chars "37.422000") (chars " -122.084000")
              (S754_finite false 5266678289233084 (-47))
              (S754_finite true 8590897764185932 (-46))
              "cell-9@37.422000,-122.084000"
              Hm eq_refl eq_refl eq_refl eq_refl) as (Hrow & _).
  rewrite Hrow. vm_compute. reflexivity.
Defined.
